(** * split-conversations.py: bucketing and minimising a conversation export

    A shallow embedding of [scripts/split-conversations.py].  The script loads
    a JSON document, normalises it to a sequence of conversation records,
    sorts the records into four age buckets relative to the current time,
    reduces every record to a minimal form and writes one file per non-empty
    bucket.

    Python values that come out of [json.load] are modelled by [json];
    Python exceptions by the error monad [result].  A Python [str] is a Rocq
    [string], one [ascii] standing for one character.  The current time is an
    argument of the embedded function, and so is what creating the output
    directory, opening the input and parsing it gave; the files the function
    writes are part of its result.  Whether a minimised record can be written
    to a UTF-8 file is a parameter of the development; a full disk or a
    write-protected output directory is not modelled. *)

From Stdlib Require Import ZArith List String Ascii Bool Lia Permutation.
From Stdlib Require Import SpecFloat DecimalString.
Import ListNotations.

#[local] Set Warnings "-register-all".

Local Open Scope string_scope.
Local Open Scope Z_scope.

(** ** Values produced by [json.load] *)

(** A [dict] is kept as an association list in insertion order: the script
    depends on the order of [data.values()] and of [msg_list.items()].  The
    dicts built by [json.load] have pairwise distinct keys, in which case
    [lookup] below is the dict lookup.  A [float] is an IEEE binary64 value
    ([json.load] also accepts [NaN] and [Infinity]); the finite ones are the
    [S754_finite s m e] with [m < 2^53] and [-1074 <= e <= 971], and what is
    proved below of finite floats does not depend on these bounds. *)
Inductive json : Type :=
| JNull
| JBool (b : bool)
| JInt (n : Z)
| JFloat (f : spec_float)
| JStr (s : string)
| JList (l : list json)
| JDict (d : list (string * json)).

Definition fields : Type := list (string * json).

(** ** Exceptions *)

(** [RangeError] stands for the [ValueError] / [OverflowError] / [OSError]
    family raised by the [datetime] library on instants it cannot represent;
    which of the three is raised depends on the magnitude and the platform.
    [IOError] stands for what [mkdir] and [open] raise, [UnicodeError] for
    what reading or writing text that is not UTF-8 raises. *)
Inductive exn : Type :=
| TypeError | AttributeError | KeyError | RangeError | IOError | UnicodeError.

Inductive result (A : Type) : Type :=
| Ok (a : A)
| Raise (e : exn).
Arguments Ok {A} a.
Arguments Raise {A} e.

Definition bind {A B : Type} (c : result A) (k : A -> result B) : result B :=
  match c with
  | Ok a => k a
  | Raise e => Raise e
  end.

Notation "'let*' x ':=' c 'in' k" := (bind c (fun x => k))
  (at level 10, x name, c at level 100, k at level 200).

(** [[f(x) for x in xs]], stopping at the first exception. *)
Fixpoint map_result {A B : Type} (f : A -> result B) (xs : list A) : result (list B) :=
  match xs with
  | [] => Ok []
  | x :: xs' =>
      let* y := f x in
      let* ys := map_result f xs' in
      Ok (y :: ys)
  end.

(** ** Python primitives used by the script *)

Definition is_dict (v : json) : bool :=
  match v with JDict _ => true | _ => false end.

Definition is_list (v : json) : bool :=
  match v with JList _ => true | _ => false end.

(** Truth value of an object ([if x], [not x], [x or y]). *)
Definition truthy (v : json) : bool :=
  match v with
  | JNull => false
  | JBool b => b
  | JInt n => negb (n =? 0)
  | JFloat (S754_zero _) => false
  | JFloat _ => true
  | JStr s => negb (s =? "")%string
  | JList l => match l with [] => false | _ => true end
  | JDict d => match d with [] => false | _ => true end
  end.

Fixpoint lookup (k : string) (d : fields) : option json :=
  match d with
  | [] => None
  | (k', v) :: d' => if (k =? k')%string then Some v else lookup k d'
  end.

Definition has_key (k : string) (d : fields) : bool :=
  match lookup k d with Some _ => true | None => false end.

(** [needle in hay] on two strings: substring test. *)
Fixpoint contains (needle hay : string) : bool :=
  if prefix needle hay then true
  else match hay with
       | EmptyString => false
       | String _ hay' => contains needle hay'
       end.

Definition is_str_eq (k : string) (v : json) : bool :=
  match v with JStr s => (k =? s)%string | _ => false end.

(** [k in c] for a string [k]: key test on a dict, membership on a list
    (only a string element can equal [k]), substring test on a string,
    [TypeError] on anything else. *)
Definition py_in (k : string) (c : json) : result bool :=
  match c with
  | JDict d => Ok (has_key k d)
  | JList l => Ok (existsb (is_str_eq k) l)
  | JStr s => Ok (contains k s)
  | _ => Raise TypeError
  end.

(** [c[k]] for a string [k]. *)
Definition py_getitem (c : json) (k : string) : result json :=
  match c with
  | JDict d => match lookup k d with Some v => Ok v | None => Raise KeyError end
  | _ => Raise TypeError
  end.

(** [c.get(k, default)]; only a dict has the method. *)
Definition py_get (c : json) (k : string) (default : json) : result json :=
  match c with
  | JDict d => Ok (match lookup k d with Some v => v | None => default end)
  | _ => Raise AttributeError
  end.

Definition chars (s : string) : list json :=
  map (fun c => JStr (String c EmptyString)) (list_ascii_of_string s).

(** The elements visited by [for x in c] (and the domain of [len(c)]). *)
Definition py_iter (c : json) : result (list json) :=
  match c with
  | JList l => Ok l
  | JDict d => Ok (map (fun kv => JStr (fst kv)) d)
  | JStr s => Ok (chars s)
  | _ => Raise TypeError
  end.

(** [s[:n]]. *)
Fixpoint take (n : nat) (s : string) : string :=
  match n, s with
  | O, _ => EmptyString
  | S _, EmptyString => EmptyString
  | S n', String c s' => String c (take n' s')
  end.

(** [sep.join(xs)]. *)
Fixpoint join (sep : string) (xs : list string) : string :=
  match xs with
  | [] => EmptyString
  | [x] => x
  | x :: xs' => x ++ sep ++ join sep xs'
  end.

(** Characters removed by [str.strip()]. *)
Definition is_space (c : ascii) : bool :=
  let n := N_of_ascii c in
  ((9 <=? n) && (n <=? 13) || (28 <=? n) && (n <=? 32) || (n =? 133) || (n =? 160))%N.

Fixpoint lstrip (s : string) : string :=
  match s with
  | EmptyString => EmptyString
  | String c s' => if is_space c then lstrip s' else s
  end.

Fixpoint rstrip (s : string) : string :=
  match s with
  | EmptyString => EmptyString
  | String c s' =>
      match rstrip s' with
      | EmptyString => if is_space c then EmptyString else String c EmptyString
      | r => String c r
      end
  end.

Definition strip (s : string) : string := rstrip (lstrip s).

(** [s.replace('Z', '+00:00')]. *)
Fixpoint replace_Z (s : string) : string :=
  match s with
  | EmptyString => EmptyString
  | String c s' =>
      if (c =? "Z")%char then "+00:00" ++ replace_Z s' else String c (replace_Z s')
  end.

(** ** Points in time *)

(** An instant is a number of microseconds since 1970-01-01T00:00:00Z, the
    resolution of [datetime].  A [datetime] has a wall-clock reading (in the
    same unit) and, when it is timezone-aware, the UTC offset of its zone. *)
Record datetime : Type := mk_datetime {
  wall : Z;
  utcoffset : option Z
}.

Definition US_PER_SECOND : Z := 1000000.
Definition US_PER_DAY : Z := 86400 * US_PER_SECOND.

(** [datetime.min] and [datetime.max] : 0001-01-01T00:00:00 and
    9999-12-31T23:59:59.999999. *)
Definition MIN_SECONDS : Z := -62135596800.
Definition MAX_SECONDS : Z := 253402300799.
Definition MIN_US : Z := MIN_SECONDS * US_PER_SECOND.
Definition MAX_US : Z := MAX_SECONDS * US_PER_SECOND + 999999.

Definition in_datetime_range (us : Z) : bool :=
  (MIN_US <=? us) && (us <=? MAX_US).

(** [timedelta(days=n)]. *)
Definition timedelta_days (n : Z) : Z := n * US_PER_DAY.

(** *** binary64 arithmetic *)

(** A finite [float] is [S754_finite s m e], the number [(-1)^s * m * 2^e].
    The script divides a float by 1000, the library multiplies one by [10^6];
    both results are the exact result rounded to the nearest binary64 value,
    ties to even.  The rounding is written on a quotient [p / q] of positive
    integers. *)

(** The integer nearest to [a / b], ties to even. *)
Definition nearest_even (a b : Z) : Z :=
  let q := a / b in
  match 2 * (a mod b) ?= b with
  | Lt => q
  | Gt => q + 1
  | Eq => if Z.even q then q else q + 1
  end.

(** The exponent [k] with [2^k <= p / q < 2^(k+1)]. *)
Definition binade (p q : Z) : Z :=
  if q <=? p then Z.log2 (p / q) else - Z.log2_up ((q + p - 1) / p).

(** [p / q] rounded to 53 significant bits (fewer below [2^-1022]): mantissa
    and exponent of the result, [None] when it overflows. *)
Definition round_double (p q : Z) : option (Z * Z) :=
  let e := Z.max (binade p q - 52) (-1074) in
  let m := if 0 <=? e then nearest_even p (q * 2 ^ e) else nearest_even (p * 2 ^ (- e)) q in
  if (971 <? e) || ((e =? 971) && (m =? 2 ^ 53)) then None else Some (m, e).

Definition f64_round (s : bool) (p q : Z) : spec_float :=
  match round_double p q with
  | Some (Zpos m, e) => S754_finite s m e
  | Some (_, _) => S754_zero s
  | None => S754_infinity s
  end.

(** [x / 1000] on a float. *)
Definition f64_div_1000 (x : spec_float) : spec_float :=
  match x with
  | S754_finite s m e =>
      if 0 <=? e then f64_round s (Zpos m * 2 ^ e) 1000
      else f64_round s (Zpos m) (1000 * 2 ^ (- e))
  | _ => x
  end.

(** [x * 1e6] on a float. *)
Definition f64_mul_1e6 (x : spec_float) : spec_float :=
  match x with
  | S754_finite s m e =>
      if 0 <=? e then f64_round s (Zpos m * 10 ^ 6 * 2 ^ e) 1
      else f64_round s (Zpos m * 10 ^ 6) (2 ^ (- e))
  | _ => x
  end.

(** [x > 1e12] on a float; false on NaN. *)
Definition f64_gt_1e12 (x : spec_float) : bool :=
  match x with
  | S754_finite false m e =>
      if 0 <=? e then 10 ^ 12 <? Zpos m * 2 ^ e else 10 ^ 12 * 2 ^ (- e) <? Zpos m
  | S754_infinity false => true
  | _ => false
  end.

(** [n / 1000] on an [int]: the correctly rounded quotient, [OverflowError]
    when it does not fit a float. *)
Definition int_truediv_1000 (n : Z) : result spec_float :=
  let q := match n with
           | Z0 => S754_zero false
           | Zpos p => f64_round false (Zpos p) 1000
           | Zneg p => f64_round true (Zpos p) 1000
           end in
  match q with
  | S754_infinity _ => Raise RangeError
  | _ => Ok q
  end.

(** C [modf] on the finite value [(-1)^s * m * 2^e]: integral part (toward
    zero) and fractional part, both exact. *)
Definition modf (s : bool) (m : positive) (e : Z) : Z * spec_float :=
  if 0 <=? e then (cond_Zopp s (Zpos m * 2 ^ e), S754_zero s)
  else
    let den := 2 ^ (- e) in
    (cond_Zopp s (Zpos m / den),
     match Zpos m mod den with
     | Zpos r => S754_finite s r e
     | _ => S754_zero s
     end).

(** Nearest integer, ties to even. *)
Definition round_half_even (x : spec_float) : Z :=
  match x with
  | S754_finite s m e =>
      if 0 <=? e then cond_Zopp s (Zpos m * 2 ^ e)
      else cond_Zopp s (nearest_even (Zpos m) (2 ^ (- e)))
  | _ => 0
  end.

(** Numerator and denominator of a finite float, to state what number it
    is: [x = f64_num x / f64_den x]. *)
Definition f64_num (x : spec_float) : Z :=
  match x with
  | S754_finite s m e => if 0 <=? e then cond_Zopp s (Zpos m * 2 ^ e) else cond_Zopp s (Zpos m)
  | _ => 0
  end.

Definition f64_den (x : spec_float) : Z :=
  match x with
  | S754_finite s m e => if 0 <=? e then 1 else 2 ^ (- e)
  | _ => 1
  end.

(** *** [datetime.fromtimestamp(x, tz=timezone.utc)] *)

(** On an [int] (or [bool]): whole seconds, exact. *)
Definition fromtimestamp_int (n : Z) : result datetime :=
  if (MIN_SECONDS <=? n) && (n <=? MAX_SECONDS)
  then Ok (mk_datetime (n * US_PER_SECOND) (Some 0))
  else Raise RangeError.

(** On a [float] (CPython 3.6 and later): the value is split by [modf], the
    fraction is scaled to microseconds and rounded half to even, and a carry
    into the seconds is propagated.  The library asserts that the
    microseconds then lie in [[0, 10^6)]; the test is kept with the range
    check on the seconds. *)
Definition fromtimestamp_float (x : spec_float) : result datetime :=
  match x with
  | S754_nan => Raise RangeError
  | S754_infinity _ => Raise RangeError
  | S754_zero _ => Ok (mk_datetime 0 (Some 0))
  | S754_finite s m e =>
      let '(intpart, floatpart) := modf s m e in
      let us := round_half_even (f64_mul_1e6 floatpart) in
      let '(sec, us) :=
        if US_PER_SECOND <=? us then (intpart + 1, us - US_PER_SECOND)
        else if us <? 0 then (intpart - 1, us + US_PER_SECOND)
        else (intpart, us) in
      if (MIN_SECONDS <=? sec) && (sec <=? MAX_SECONDS) && (0 <=? us) && (us <? US_PER_SECOND)
      then Ok (mk_datetime (sec * US_PER_SECOND + us) (Some 0))
      else Raise RangeError
  end.

(** [dt.replace(tzinfo=timezone.utc)]. *)
Definition replace_tzinfo_utc (dt : datetime) : datetime :=
  mk_datetime (wall dt) (Some 0).

(** [dt.astimezone(timezone.utc)] on an aware [dt], as an instant; a naive
    [dt] is labelled UTC.  [OverflowError] when the UTC reading leaves the
    range of [datetime]. *)
Definition to_utc (dt : datetime) : result Z :=
  match utcoffset dt with
  | Some off =>
      let us := wall dt - off in
      if in_datetime_range us then Ok us else Raise RangeError
  | None => Ok (wall dt)
  end.

(** ** Buckets *)

Inductive bucket : Type := Last3Months | Months3To6 | Months6To12 | Older.

Definition bucket_name (b : bucket) : string :=
  match b with
  | Last3Months => "last-3-months"
  | Months3To6 => "3-6-months"
  | Months6To12 => "6-12-months"
  | Older => "older"
  end.

Definition bucket_eqb (a b : bucket) : bool :=
  match a, b with
  | Last3Months, Last3Months | Months3To6, Months3To6
  | Months6To12, Months6To12 | Older, Older => true
  | _, _ => false
  end.

(** The dict [buckets]: four lists, iterated in insertion order. *)
Record buckets : Type := mk_buckets {
  last_3_months : list json;
  months_3_6 : list json;
  months_6_12 : list json;
  older : list json
}.

Definition empty_buckets : buckets := mk_buckets [] [] [] [].

Definition bucket_get (bs : buckets) (b : bucket) : list json :=
  match b with
  | Last3Months => last_3_months bs
  | Months3To6 => months_3_6 bs
  | Months6To12 => months_6_12 bs
  | Older => older bs
  end.

(** [buckets[b].append(conv)]. *)
Definition bucket_append (bs : buckets) (b : bucket) (conv : json) : buckets :=
  match b with
  | Last3Months => mk_buckets (last_3_months bs ++ [conv]) (months_3_6 bs) (months_6_12 bs) (older bs)
  | Months3To6 => mk_buckets (last_3_months bs) (months_3_6 bs ++ [conv]) (months_6_12 bs) (older bs)
  | Months6To12 => mk_buckets (last_3_months bs) (months_3_6 bs) (months_6_12 bs ++ [conv]) (older bs)
  | Older => mk_buckets (last_3_months bs) (months_3_6 bs) (months_6_12 bs) (older bs ++ [conv])
  end.

(** [buckets.items()]. *)
Definition bucket_items (bs : buckets) : list (bucket * list json) :=
  [(Last3Months, last_3_months bs); (Months3To6, months_3_6 bs);
   (Months6To12, months_6_12 bs); (Older, older bs)].

(** ** Minimised conversations *)

Record message : Type := mk_message {
  role : json;
  content : string
}.

Record minimized : Type := mk_minimized {
  messages : list message;
  timestamp : json;
  title : string
}.

(** A written file: bucket and the list dumped into [<bucket>.json]. *)
Definition file : Type := (bucket * list minimized)%type.

(** What lines 16-28 gave: the output directory is created before the [try],
    and the [try] catches [FileNotFoundError] and [json.JSONDecodeError]
    only. *)
Inductive loaded : Type :=
| FileNotFound           (* [open] raised [FileNotFoundError] *)
| InvalidJSON            (* [json.load] raised [JSONDecodeError] *)
| LoadRaised (e : exn)   (* [mkdir], [open] or [json.load] raised anything else *)
| Document (data : json).

(** What one call of the script does.  [written] lists the files that were
    written in full. *)
Inductive outcome : Type :=
| Aborted                                  (* error message printed, early [return] *)
| Crashed (e : exn) (written : list file)  (* uncaught exception outside [json.dump] *)
| CrashedWriting (name : bucket) (written : list file)
                                           (* [json.dump] raised on the file of [name],
                                              which is left incomplete *)
| Completed (written : list file).

(** ** Sample interpreter functions and sample data *)

(** The properties below hold for any [fromisoformat], [strptime] and [repr].
    To run the script on concrete documents, the following instances are
    used: a parser of calendar dates [YYYY-MM-DD] (a format both library
    functions accept), and Python's [repr] on [None], booleans, integers and
    containers of these. *)

Definition digit (c : ascii) : option Z :=
  let n := Z.of_N (N_of_ascii c) in
  if (48 <=? n) && (n <=? 57) then Some (n - 48) else None.

Fixpoint number (acc : Z) (cs : list ascii) : option Z :=
  match cs with
  | [] => Some acc
  | c :: cs' =>
      match digit c with
      | Some k => number (10 * acc + k) cs'
      | None => None
      end
  end.

Definition is_leap (y : Z) : bool :=
  ((y mod 4 =? 0) && negb (y mod 100 =? 0)) || (y mod 400 =? 0).

Definition days_in_month (y m : Z) : Z :=
  if m =? 2 then (if is_leap y then 29 else 28)
  else if (m =? 4) || (m =? 6) || (m =? 9) || (m =? 11) then 30
  else 31.

(** Days from 1970-01-01 to the given date of the proleptic Gregorian
    calendar. *)
Definition days_from_civil (y m d : Z) : Z :=
  let y' := if m <=? 2 then y - 1 else y in
  let era := y' / 400 in
  let yoe := y' - era * 400 in
  let doy := (153 * (if 2 <? m then m - 3 else m + 9) + 2) / 5 + d - 1 in
  let doe := yoe * 365 + yoe / 4 - yoe / 100 + doy in
  era * 146097 + doe - 719468.

Definition parse_date (s : string) : option datetime :=
  match list_ascii_of_string s with
  | [y1; y2; y3; y4; "-"%char; m1; m2; "-"%char; d1; d2] =>
      match number 0 [y1; y2; y3; y4], number 0 [m1; m2], number 0 [d1; d2] with
      | Some y, Some m, Some d =>
          if (1 <=? y) && (1 <=? m) && (m <=? 12) && (1 <=? d) && (d <=? days_in_month y m)
          then Some (mk_datetime (days_from_civil y m d * US_PER_DAY) None)
          else None
      | _, _, _ => None
      end
  | _ => None
  end.

Definition date_fromisoformat (s : string) : option datetime := parse_date s.

Definition date_strptime (s fmt : string) : option datetime :=
  if (fmt =? "%Y-%m-%d")%string then parse_date s else None.

Definition decimal (n : Z) : string := NilZero.string_of_int (Z.to_int n).

Fixpoint simple_repr (v : json) : string :=
  match v with
  | JNull => "None"
  | JBool true => "True"
  | JBool false => "False"
  | JInt n => decimal n
  | JFloat _ => "<float>"
  | JStr s => "'" ++ s ++ "'"
  | JList l => "[" ++ join ", " (map simple_repr l) ++ "]"
  | JDict d =>
      "{" ++ join ", " (map (fun '(k, x) => "'" ++ k ++ "': " ++ simple_repr x) d) ++ "}"
  end.

(** Every character of a [string] has a UTF-8 encoding. *)
Definition utf8_text (m : minimized) : bool := true.

(** A test that rejects the records titled [t], for a run in which
    [json.dump] raises. *)
Definition rejects_title (t : string) (m : minimized) : bool :=
  negb (title m =? t)%string.

(** 2023-11-14T22:13:20Z. *)
Definition sample_now : Z := 1700000000 * US_PER_SECOND.

Definition hello_messages : list json :=
  [JDict [("role", JStr "user"); ("content", JStr "hi")]].

Definition hello_fields : fields :=
  [("create_time", JInt (1700000000 - 10 * 86400));
   ("messages", JList hello_messages);
   ("title", JStr "Hello")].

Definition hello_record : json := JDict hello_fields.

Definition hello_minimized : minimized :=
  mk_minimized [mk_message (JStr "user") "hi"] (JInt 1699136000) "Hello".

Definition old_mapping_record : json :=
  JDict [("create_time", JInt (1700000000 - 400 * 86400));
         ("mapping",
          JDict [("n1", JDict [("message",
                                JDict [("content", JDict [("parts", JList [JStr "a"; JNull; JStr "b"])]);
                                       ("author", JDict [("role", JStr "assistant")])])]);
                 ("n2", JDict [("message", JNull)])])].

Definition dated_record : json :=
  JDict [("metadata", JDict [("date", JStr "2023-07-01")]);
         ("items", JList [JDict [("content", JInt 42)]; JStr "skipped"])].

Definition undated_fields : fields :=
  [("create_time", JInt 0); ("metadata", JDict [("date", JStr "")]); ("title", JNull)].

Definition undated_record : json := JDict undated_fields.

Definition sample_conversations : list json :=
  [hello_record; old_mapping_record; dated_record; undated_record].

Definition sample_fields : fields :=
  [("version", JInt 3); ("export", JList sample_conversations); ("other", JList [])].

Definition sample_document : json := JDict sample_fields.

Definition sample_written : list file :=
  [(Last3Months,
    [mk_minimized [mk_message (JStr "user") "hi"] (JInt 1699136000) "Hello"]);
   (Months3To6,
    [mk_minimized [mk_message (JStr "unknown") "42"] JNull ""]);
   (Older,
    [mk_minimized [mk_message (JStr "assistant") "a b"] (JInt 1665440000) "";
     mk_minimized [] JNull "None"])].

(** A record created exactly 90 days before [sample_now]. *)
Definition boundary_record : json :=
  JDict [("create_time", JInt (1700000000 - 90 * 86400))].

(** A record whose [mapping] is null and whose [messages] is a sequence. *)
Definition null_mapping_fields : fields :=
  [("mapping", JNull); ("messages", JList hello_messages)].

(** A record whose [messages] is null and whose [items] holds an entry. *)
Definition null_messages_fields : fields :=
  [("messages", JNull); ("items", JList [JDict [("content", JStr "kept")]])].

(** A record whose only field is a null [metadata]. *)
Definition null_metadata_fields : fields := [("metadata", JNull)].

Definition null_mapping_record : json := JDict null_mapping_fields.

(** A record stamped 2000-01-01T00:00:00Z in milliseconds. *)
Definition millennium_record : json :=
  JDict [("create_time", JInt 946684800000); ("messages", JList hello_messages)].

(** A record whose [messages] holds a bare string instead of a mapping. *)
Definition string_entry_record : json :=
  JDict [("create_time", JInt (1700000000 - 10 * 86400)); ("messages", JList [JStr "hi"])].

(** Records created one second before the 90, 180 and 365 day boundaries,
    and exactly on the last two. *)
Definition aged_record (seconds : Z) : json :=
  JDict [("create_time", JInt (1700000000 - seconds))].

(** A record whose only timestamp is a zero under [timestamp]. *)
Definition zero_timestamp_fields : fields := [("timestamp", JInt 0)].

Definition zero_timestamp_record : json := JDict zero_timestamp_fields.

(** A record without timestamp whose [messages] holds a bare string. *)
Definition bad_old_record : json := JDict [("messages", JList [JStr "hi"])].

(** The buckets after sorting the sample conversations. *)
Definition sample_buckets : buckets :=
  mk_buckets [hello_record] [dated_record] [] [old_mapping_record; undated_record].

(** The buckets after sorting [hello_record] and [bad_old_record]. *)
Definition crash_buckets : buckets := mk_buckets [hello_record] [] [] [bad_old_record].

(** A record whose [create_time] is zero and whose [updated_at] is valid. *)
Definition masked_fields : fields :=
  [("create_time", JInt 0); ("updated_at", JInt (1700000000 - 10 * 86400))].

(** A record dated under [metadata] only. *)
Definition dated_metadata : fields := [("date", JStr "2023-07-01")].

Definition dated_fields : fields :=
  [("metadata", JDict dated_metadata);
   ("items", JList [JDict [("content", JInt 42)]; JStr "skipped"])].

Definition dated_minimized : minimized :=
  mk_minimized [mk_message (JStr "unknown") "42"] JNull "".

(** Records dated by a string under [created] and under [date]. *)
Definition created_fields : fields := [("created", JStr "2023-07-01")].
Definition yesterday_fields : fields := [("date", JStr "yesterday")].

(** 2023-07-01T00:00:00, without timezone. *)
Definition july_first : datetime := mk_datetime 1688169600000000 None.

(** An ISO parser that rejects every string. *)
Definition no_fromisoformat (s : string) : option datetime := None.

Definition nan_fields : fields := [("create_time", JFloat S754_nan)].

(** The floats 1700000000.5 and 1700000000123.5. *)
Definition half_past : spec_float := S754_finite false 3400000001 (-1).
Definition half_past_ms : spec_float := S754_finite false 3400000000247 (-1).

(** The division and the product of the Standard Library's [SpecFloat], to
    compare the rounding above with.  [SFmul] and the comparison want their
    operands with a mantissa of 53 bits. *)
Definition f64_normalize (x : spec_float) : spec_float :=
  match x with
  | S754_finite s m e => binary_normalize 53 1024 (cond_Zopp s (Zpos m)) e s
  | _ => x
  end.

Definition same_float (x y : spec_float) : bool :=
  match f64_normalize x, f64_normalize y with
  | S754_finite s m e, S754_finite s' m' e' => Bool.eqb s s' && (m =? m')%positive && (e =? e')
  | S754_zero s, S754_zero s' => Bool.eqb s s'
  | S754_infinity s, S754_infinity s' => Bool.eqb s s'
  | S754_nan, S754_nan => true
  | _, _ => false
  end.

Definition agrees_on_int (n : Z) : bool :=
  match n with
  | Zpos p =>
      same_float (f64_round false n 1000)
                 (SFdiv 53 1024 (S754_finite false p 0) (S754_finite false 1000 0))
  | _ => true
  end.

Definition agrees_on_float (x : spec_float) : bool :=
  same_float (f64_div_1000 x)
             (SFdiv 53 1024 (f64_normalize x) (f64_normalize (S754_finite false 1000 0))) &&
  same_float (f64_mul_1e6 x)
             (SFmul 53 1024 (f64_normalize x) (f64_normalize (S754_finite false 1000000 0))).

(** [start], [start + step], ... *)
Fixpoint progression (start step : Z) (n : nat) : list Z :=
  match n with
  | O => []
  | S n' => start :: progression (start + step) step n'
  end.

Definition sample_ints : list Z :=
  (progression 1 1 100 ++ progression (10 ^ 12 + 1) 7919 100 ++
   progression (2 ^ 53 - 50) 1 100 ++ progression (10 ^ 300) (10 ^ 297 + 7) 20 ++
   progression (2 ^ 1024 * 1000 - 20 * 2 ^ 970) (2 ^ 970) 40)%list.

Definition sample_floats : list spec_float :=
  (map (fun n => S754_finite false (Z.to_pos n) (-52)) (progression (2 ^ 52) 12345677 100) ++
   map (fun n => S754_finite true (Z.to_pos n) (-22)) (progression 1 1237 100) ++
   map (fun n => S754_finite false (Z.to_pos n) (-1074)) (progression 1 1 40) ++
   map (fun n => S754_finite false (Z.to_pos n) (-13)) (progression (2 ^ 52 + 1) 99991 100) ++
   map (fun n => S754_finite false (Z.to_pos n) 950) (progression (2 ^ 52 + 1) (2 ^ 45 + 1) 40))%list.

Definition mapping_nodes : fields :=
  [("n1", JDict [("message",
                  JDict [("content", JDict [("parts", JList [JStr "a"; JNull; JStr "b"])]);
                         ("author", JDict [("role", JStr "assistant")])])]);
   ("n2", JDict [("message", JNull)])].

(** A record with a [messages] sequence before its [mapping]. *)
Definition both_fields : fields :=
  [("messages", JList hello_messages); ("mapping", JDict mapping_nodes)].

(** The files of the two halves of the sample conversations. *)
Definition first_half_written : list file :=
  [(Last3Months, [hello_minimized]);
   (Older, [mk_minimized [mk_message (JStr "assistant") "a b"] (JInt 1665440000) ""])].

Definition second_half_written : list file :=
  [(Months3To6, [dated_minimized]); (Older, [mk_minimized [] JNull "None"])].

(** A record with one message of 5001 characters and a title of 101. *)
Definition long_text : string := string_of_list_ascii (repeat "x"%char (S 5000)).
Definition long_title : string := string_of_list_ascii (repeat "t"%char 101).

Definition long_record : json :=
  JDict [("messages", JList [JDict [("role", JStr "user"); ("content", JStr long_text)]]);
         ("title", JStr long_title)].

Definition long_minimized : minimized :=
  mk_minimized [mk_message (JStr "user") (string_of_list_ascii (repeat "x"%char 5000))]
               JNull (string_of_list_ascii (repeat "t"%char 100)).

(** Three entries: a content of 5001 characters, an empty content, and a
    short text under [text]. *)
Definition mixed_messages : list json :=
  [JDict [("role", JStr "user"); ("content", JStr long_text)];
   JDict [("role", JStr "user"); ("content", JStr "")];
   JDict [("author", JStr "assistant"); ("text", JStr "short")]].

Definition mixed_fields : fields :=
  [("messages", JList mixed_messages); ("title", JStr long_title)].

Definition mixed_record : json := JDict mixed_fields.

Definition mixed_minimized : minimized :=
  mk_minimized [mk_message (JStr "user") (string_of_list_ascii (repeat "x"%char 5000));
                mk_message (JStr "assistant") "short"]
               JNull (string_of_list_ascii (repeat "t"%char 100)).

(** Nodes of a [mapping]: one with text, one without message, one whose
    parts are blank. *)
Definition blank_node : json :=
  JDict [("message", JDict [("content", JDict [("parts", JList [JStr "  "; JStr " "])]);
                            ("author", JDict [("role", JStr "user")])])].

Definition blank_nodes : fields := (mapping_nodes ++ [("n3", blank_node)])%list.

Definition blank_fields : fields := [("mapping", JDict blank_nodes)].

(** ** The script *)

Section Script.

(** Library functions the script calls and that are left abstract:
    [datetime.fromisoformat] and [datetime.strptime] ([None] when they
    raise), and [str] on a value that is not a string. *)
Variable fromisoformat : string -> option datetime.
Variable strptime : string -> string -> option datetime.
Variable py_repr : json -> string.

(** Whether [json.dump] can write a minimised record to a file opened with
    [encoding='utf-8'].  A Python [str] can hold code points that have no
    UTF-8 encoding (a lone surrogate, which [json.load] builds from an escape
    such as [\ud800]); [string] does not represent them, so the test is left
    abstract. *)
Variable encodable : minimized -> bool.

(** [str(v)]. *)
Definition py_str (v : json) : string :=
  match v with
  | JStr s => s
  | _ => py_repr v
  end.

(** *** Shape of the document (lines 31-45) *)

Definition select_conversations (data : json) : option json :=
  match data with
  | JDict d =>
      match lookup "conversations" d with
      | Some v => Some v
      | None =>
          match lookup "items" d with
          | Some v => Some v
          | None =>
              let conversations := filter is_list (map snd d) in
              Some (match conversations with v :: _ => v | [] => JList [] end)
          end
      end
  | JList _ => Some data
  | _ => None
  end.

(** *** Timestamp of a record (lines 66-78) *)

Definition top_level_fields : list string :=
  ["create_time"; "created_at"; "timestamp"; "created"; "date"; "updated_at"; "update_time"].

Definition metadata_fields : list string :=
  ["create_time"; "created_at"; "timestamp"; "created"; "date"].

(** The loop [for field in fs: if field in c: timestamp = c[field]; break],
    returning the variable [timestamp]. *)
Fixpoint first_present (fs : list string) (c : json) (timestamp : json) : result json :=
  match fs with
  | [] => Ok timestamp
  | field :: fs' =>
      let* present := py_in field c in
      if present then py_getitem c field else first_present fs' c timestamp
  end.

Definition find_timestamp (conv : json) : result json :=
  let* timestamp := first_present top_level_fields conv JNull in
  if truthy timestamp then Ok timestamp
  else
    let* has_metadata := py_in "metadata" conv in
    if has_metadata then
      let* metadata := py_getitem conv "metadata" in
      first_present metadata_fields metadata timestamp
    else Ok timestamp.

(** *** Parsing the timestamp (lines 86-113) *)

Definition strptime_formats : list string :=
  ["%Y-%m-%d %H:%M:%S"; "%Y-%m-%dT%H:%M:%S"; "%Y-%m-%d"].

Fixpoint try_formats (fmts : list string) (s : string) : option datetime :=
  match fmts with
  | [] => None
  | fmt :: fmts' =>
      match strptime s fmt with
      | Some dt => Some (replace_tzinfo_utc dt)
      | None => try_formats fmts' s
      end
  end.

Definition parse_string (s : string) : option datetime :=
  match fromisoformat (replace_Z s) with
  | Some dt =>
      Some (match utcoffset dt with None => replace_tzinfo_utc dt | Some _ => dt end)
  | None => try_formats strptime_formats s
  end.

Definition parse_number (timestamp : json) : result datetime :=
  match timestamp with
  | JInt n =>
      if 10 ^ 12 <? n
      then let* q := int_truediv_1000 n in fromtimestamp_float q
      else fromtimestamp_int n
  | JBool b => fromtimestamp_int (if b then 1 else 0)
  | JFloat f =>
      if f64_gt_1e12 f
      then fromtimestamp_float (f64_div_1000 f)
      else fromtimestamp_float f
  | _ => Raise TypeError
  end.

Definition is_number (v : json) : bool :=
  match v with JInt _ | JBool _ | JFloat _ => true | _ => false end.

(** The variable [conv_date] at line 115. *)
Definition parse_timestamp (timestamp : json) : result (option datetime) :=
  if is_number timestamp then
    let* dt := parse_number timestamp in Ok (Some dt)
  else
    match timestamp with
    | JStr s => Ok (parse_string s)
    | _ => Ok None
    end.

(** The UTC instant of a record, [None] when the script gives up on it
    (lines 66-124). *)
Definition resolve (conv : json) : result (option Z) :=
  let* timestamp := find_timestamp conv in
  if negb (truthy timestamp) then Ok None
  else
    let* conv_date := parse_timestamp timestamp in
    match conv_date with
    | None => Ok None
    | Some dt => let* utc := to_utc dt in Ok (Some utc)
    end.

(** *** Bucketing (lines 50-53 and 127-134) *)

Definition bucket_of (now conv_date : Z) : bucket :=
  let three_months_ago := now - timedelta_days 90 in
  let six_months_ago := now - timedelta_days 180 in
  let twelve_months_ago := now - timedelta_days 365 in
  if conv_date >=? three_months_ago then Last3Months
  else if conv_date >=? six_months_ago then Months3To6
  else if conv_date >=? twelve_months_ago then Months6To12
  else Older.

(** The bucket one iteration of the loop at line 64 appends [conv] to. *)
Definition classify (now : Z) (conv : json) : result bucket :=
  let* r := resolve conv in
  match r with
  | None => Ok Older
  | Some conv_date => Ok (bucket_of now conv_date)
  end.

Fixpoint sort_into_buckets (now : Z) (conversations : list json) (bs : buckets)
  : result buckets :=
  match conversations with
  | [] => Ok bs
  | conv :: rest =>
      let* b := classify now conv in
      sort_into_buckets now rest (bucket_append bs b conv)
  end.

(** *** Minimising a record (lines 137-184) *)

(** The loop [for x in xs: ... messages.append(...)], where one iteration
    appends at most one message. *)
Fixpoint collect (body : json -> result (option message)) (xs : list json)
  : result (list message) :=
  match xs with
  | [] => Ok []
  | x :: xs' =>
      let* m := body x in
      let* ms := collect body xs' in
      Ok (match m with Some m => m :: ms | None => ms end)
  end.

(** ChatGPT format.  The variable [content] of line 152, when that line is
    reached for the given [message]. *)
Definition node_content (message : json) : result (option string) :=
  let* c := py_get message "content" JNull in
  if truthy c then
    let* c := py_getitem message "content" in
    let* content_parts := py_get c "parts" (JList []) in
    if truthy content_parts then
      let* parts := py_iter content_parts in
      Ok (Some (join " " (map py_str (filter truthy parts))))
    else Ok None
  else Ok None.

(** One iteration of the loop at line 146. *)
Definition mapping_node (node : json) : result (option message) :=
  let* message := py_get node "message" JNull in
  if truthy message then
    let* oc := node_content message in
    match oc with
    | Some content =>
        if (strip content =? "")%string then Ok None
        else
          let* author := py_get message "author" (JDict []) in
          let* role := py_get author "role" (JStr "unknown") in
          Ok (Some (mk_message role (take 5000%nat content)))
    | None => Ok None
    end
  else Ok None.

(** Claude or standard format.  The variable [content] of line 164. *)
Definition entry_content (msg : json) : result json :=
  let* c := py_get msg "content" JNull in
  if truthy c then Ok c
  else
    let* t := py_get msg "text" JNull in
    if truthy t then Ok t else Ok (JStr "").

(** One iteration of the loop at line 163. *)
Definition messages_entry (msg : json) : result (option message) :=
  let* content := entry_content msg in
  if truthy content then
    let* author := py_get msg "author" (JStr "unknown") in
    let* role := py_get msg "role" author in
    Ok (Some (mk_message role (take 5000%nat (py_str content))))
  else Ok None.

(** One iteration of the loop at line 173. *)
Definition items_entry (item : json) : result (option message) :=
  if is_dict item then
    let* present := py_in "content" item in
    if present then
      let* role := py_get item "role" (JStr "unknown") in
      let* c := py_getitem item "content" in
      Ok (Some (mk_message role (take 5000%nat (py_str c))))
    else Ok None
  else Ok None.

(** The list [messages] at line 180. *)
Definition extract_messages (conv : json) : result (list message) :=
  let* has_mapping := py_in "mapping" conv in
  if has_mapping then
    let* msg_list := py_getitem conv "mapping" in
    match msg_list with
    | JDict nodes => collect mapping_node (map snd nodes)
    | _ => Ok []
    end
  else
    let* has_messages := py_in "messages" conv in
    if has_messages then
      let* msg_list := py_getitem conv "messages" in
      match msg_list with
      | JList msgs => collect messages_entry msgs
      | _ => Ok []
      end
    else
      let* has_items := py_in "items" conv in
      if has_items then
        let* v := py_getitem conv "items" in
        let* items := py_iter v in
        collect items_entry items
      else Ok [].

(** [conv.get('create_time') or conv.get('created_at') or conv.get('timestamp')]. *)
Definition raw_timestamp (conv : json) : result json :=
  let* a := py_get conv "create_time" JNull in
  if truthy a then Ok a
  else
    let* b := py_get conv "created_at" JNull in
    if truthy b then Ok b
    else py_get conv "timestamp" JNull.

Definition minimize_conv (conv : json) : result minimized :=
  let* messages := extract_messages conv in
  let* timestamp := raw_timestamp conv in
  let* t := py_get conv "title" (JStr "") in
  Ok (mk_minimized messages timestamp (take 100%nat (py_str t))).

(** *** Saving the buckets (lines 186-204) *)

(** [written] are the files already on disk; they stay there when a later
    bucket raises.  The file of a bucket is opened once all its records are
    minimised, and [json.dump] raises on the first record it cannot write. *)
Fixpoint save_buckets (items : list (bucket * list json)) (written : list file) : outcome :=
  match items with
  | [] => Completed written
  | (name, conversations) :: rest =>
      match conversations with
      | [] => save_buckets rest written
      | _ =>
          match map_result minimize_conv conversations with
          | Ok minimal =>
              if forallb encodable minimal
              then save_buckets rest (written ++ [(name, minimal)])
              else CrashedWriting name written
          | Raise e => Crashed e written
          end
      end
  end.

(** *** The whole function *)

(** [now] is the value of [datetime.now(timezone.utc)] read at line 50, as
    an instant; [input] is what lines 16-28 gave. *)
Definition split_conversations_by_time (now : Z) (input : loaded) : outcome :=
  match input with
  | FileNotFound => Aborted
  | InvalidJSON => Aborted
  | LoadRaised e => Crashed e []
  | Document data =>
      match select_conversations data with
      | None => Aborted
      | Some conversations =>
          match py_iter conversations with
          | Raise e => Crashed e []
          | Ok convs =>
              match sort_into_buckets now convs empty_buckets with
              | Raise e => Crashed e []
              | Ok bs => save_buckets (bucket_items bs) []
              end
          end
      end
  end.

(** The list dumped into the file of bucket [b]; empty when no file was
    written for it. *)
Fixpoint output_of (written : list file) (b : bucket) : list minimized :=
  match written with
  | [] => []
  | (b', ms) :: rest => if bucket_eqb b b' then ms else output_of rest b
  end.

(** ** Specification vocabulary *)

Local Open Scope list_scope.

(** Record [c] is assigned to bucket [b]. *)
Definition assigned (now : Z) (b : bucket) (c : json) : bool :=
  match classify now c with
  | Ok b' => bucket_eqb b' b
  | Raise _ => false
  end.

(** The four buckets, one after the other. *)
Definition all_buckets (bs : buckets) : list json :=
  last_3_months bs ++ months_3_6 bs ++ months_6_12 bs ++ older bs.

(** [xs] is [ys] with some elements left out, the others in the same order. *)
Inductive subsequence {A : Type} : list A -> list A -> Prop :=
| subseq_nil : subsequence [] []
| subseq_skip : forall x xs ys, subsequence xs ys -> subsequence xs (x :: ys)
| subseq_keep : forall x xs ys, subsequence xs ys -> subsequence (x :: xs) (x :: ys).

(** The value of a recognised field is missing or falsy. *)
Definition absent_or_falsy (d : fields) (k : string) : bool :=
  match lookup k d with
  | None => true
  | Some v => negb (truthy v)
  end.

(** A record with no truthy value under a recognised timestamp field at top
    level, and whose [metadata], when it has one, is a mapping with no
    truthy value under a recognised field either, or a list or a string that
    holds none of the recognised names. *)
Definition no_timestamp (d : fields) : bool :=
  forallb (absent_or_falsy d) top_level_fields &&
  match lookup "metadata" d with
  | None => true
  | Some (JDict md) => forallb (absent_or_falsy md) metadata_fields
  | Some (JList l) => forallb (fun k => negb (existsb (is_str_eq k) l)) metadata_fields
  | Some (JStr s) => forallb (fun k => negb (contains k s)) metadata_fields
  | Some _ => false
  end.

Definition not_list (kv : string * json) : bool := negb (is_list (snd kv)).

(** [l] is the first value of the mapping [d] that is a sequence, or the
    empty sequence when no value of [d] is one. *)
Definition first_sequence (d : fields) (l : list json) : Prop :=
  (exists pre k post, d = pre ++ (k, JList l) :: post /\ forallb not_list pre = true) \/
  (forallb not_list d = true /\ l = []).

(** [conv.get(k)]. *)
Definition get_or_null (d : fields) (k : string) : json :=
  match lookup k d with
  | Some v => v
  | None => JNull
  end.

(** [src] is the content extracted for some message of [conv], before it is
    cut: the joined parts of a node of [mapping], or the text of the content
    of an entry of [messages] or of [items]. *)
Inductive source_content (conv : json) (src : string) : Prop :=
| source_mapping (nodes : fields) (node message : json) :
    py_getitem conv "mapping" = Ok (JDict nodes) ->
    In node (map snd nodes) ->
    py_get node "message" JNull = Ok message ->
    node_content message = Ok (Some src) ->
    source_content conv src
| source_messages (msgs : list json) (msg c : json) :
    py_getitem conv "messages" = Ok (JList msgs) ->
    In msg msgs ->
    entry_content msg = Ok c ->
    src = py_str c ->
    source_content conv src
| source_items (v : json) (items : list json) (item c : json) :
    py_getitem conv "items" = Ok v ->
    py_iter v = Ok items ->
    In item items ->
    py_getitem item "content" = Ok c ->
    src = py_str c ->
    source_content conv src.

(** What one iteration of each loop of [minimize_conv] hands to the slice
    [[:5000]]: the variable [content] of line 156 (the joined parts, when
    they are not blank), [str(content)] at line 168 and
    [str(item['content'])] at line 177; [None] for an element that appends
    no message. *)
Definition node_source (node : json) : result (option string) :=
  let* message := py_get node "message" JNull in
  if truthy message then
    let* oc := node_content message in
    match oc with
    | Some content => if (strip content =? "")%string then Ok None else Ok (Some content)
    | None => Ok None
    end
  else Ok None.

Definition entry_source (msg : json) : result (option string) :=
  let* content := entry_content msg in
  if truthy content then Ok (Some (py_str content)) else Ok None.

Definition item_source (item : json) : result (option string) :=
  if is_dict item then
    let* present := py_in "content" item in
    if present then let* c := py_getitem item "content" in Ok (Some (py_str c))
    else Ok None
  else Ok None.

(** The values that are there, in order. *)
Fixpoint somes {A : Type} (os : list (option A)) : list A :=
  match os with
  | [] => []
  | Some a :: os' => a :: somes os'
  | None :: os' => somes os'
  end.

(** The message of an iteration holds the source content of the element, cut
    after 5000 characters. *)
Definition cut_of (o : option message) (src : option string) : Prop :=
  match o, src with
  | Some m, Some s => content m = take 5000 s
  | None, None => True
  | _, _ => False
  end.

(** The source contents of a record, one entry for every element of the
    field that is read, in the order of the elements. *)
Definition message_sources (conv : json) : result (list (option string)) :=
  let* has_mapping := py_in "mapping" conv in
  if has_mapping then
    let* msg_list := py_getitem conv "mapping" in
    match msg_list with
    | JDict nodes => map_result node_source (map snd nodes)
    | _ => Ok []
    end
  else
    let* has_messages := py_in "messages" conv in
    if has_messages then
      let* msg_list := py_getitem conv "messages" in
      match msg_list with
      | JList msgs => map_result entry_source msgs
      | _ => Ok []
      end
    else
      let* has_items := py_in "items" conv in
      if has_items then
        let* v := py_getitem conv "items" in
        let* items := py_iter v in
        map_result item_source items
      else Ok [].

(** *** Records the minimiser reads without raising *)

Definition iterable (v : json) : bool :=
  match v with JList _ | JDict _ | JStr _ => true | _ => false end.

(** A truthy [content] of a message is a mapping whose [parts], when
    truthy, can be iterated. *)
Definition content_ok (md : fields) : bool :=
  match lookup "content" md with
  | None => true
  | Some c =>
      negb (truthy c) ||
      match c with
      | JDict cd =>
          match lookup "parts" cd with
          | Some p => negb (truthy p) || iterable p
          | None => true
          end
      | _ => false
      end
  end.

Definition author_ok (md : fields) : bool :=
  match lookup "author" md with
  | None => true
  | Some a => is_dict a
  end.

(** A node of [mapping] is a mapping whose [message], when truthy, is a
    mapping with a well-shaped [content] and [author]. *)
Definition node_ok (node : json) : bool :=
  match node with
  | JDict nd =>
      match lookup "message" nd with
      | None => true
      | Some message =>
          negb (truthy message) ||
          match message with
          | JDict md => content_ok md && author_ok md
          | _ => false
          end
      end
  | _ => false
  end.

(** The field the minimiser reads has the shape it assumes. *)
Definition messages_ok (d : fields) : bool :=
  match lookup "mapping" d with
  | Some (JDict nodes) => forallb node_ok (map snd nodes)
  | Some _ => true
  | None =>
      match lookup "messages" d with
      | Some (JList msgs) => forallb is_dict msgs
      | Some _ => true
      | None =>
          match lookup "items" d with
          | Some v => iterable v
          | None => true
          end
      end
  end.

(** *** Vocabulary of the further properties *)

(** Position of a bucket in the order of [buckets], most recent first. *)
Definition bucket_rank (b : bucket) : nat :=
  match b with
  | Last3Months => 0
  | Months3To6 => 1
  | Months6To12 => 2
  | Older => 3
  end.

Definition bucket_order : list bucket := [Last3Months; Months3To6; Months6To12; Older].

Definition nonempty {A : Type} (l : list A) : bool :=
  match l with [] => false | _ => true end.

(** The mapping [d] wraps the sequence [l]: under [conversations], else under
    [items], else as its first value that is a sequence. *)
Definition wraps (d : fields) (l : list json) : Prop :=
  lookup "conversations" d = Some (JList l) \/
  (lookup "conversations" d = None /\ lookup "items" d = Some (JList l)) \/
  (lookup "conversations" d = None /\ lookup "items" d = None /\ first_sequence d l).

(** The record is put in some bucket. *)
Definition classifies (now : Z) (c : json) : bool :=
  match classify now c with Ok _ => true | Raise _ => false end.

(** [k] is the first key of [fs] that the mapping [d] has, and [v] is its
    value. *)
Definition first_present_is (fs : list string) (d : fields) (k : string) (v : json) : Prop :=
  exists pre post,
    fs = pre ++ k :: post /\
    forallb (fun k' => negb (has_key k' d)) pre = true /\
    lookup k d = Some v.

(** ** Lemmas on the error monad and the loops *)

Lemma bind_Ok {A B : Type} (c : result A) (k : A -> result B) (b : B) :
  bind c k = Ok b -> exists a, c = Ok a /\ k a = Ok b.
Proof.
  destruct c as [a|e]; simpl; intros H; [exists a; auto | discriminate].
Qed.

Lemma map_result_Forall2 {A B : Type} (f : A -> result B) (xs : list A) (ys : list B) :
  map_result f xs = Ok ys <-> Forall2 (fun x y => f x = Ok y) xs ys.
Proof.
  revert ys; induction xs as [|x xs IH]; intros ys; simpl.
  - split; intros H.
    + inversion H; constructor.
    + inversion H; reflexivity.
  - split; intros H.
    + apply bind_Ok in H as (y & Hy & H).
      apply bind_Ok in H as (ys' & Hys & H).
      inversion H; subst. constructor; [assumption | now apply IH].
    + inversion H as [|? y ? ys' Hy Hys]; subst.
      rewrite Hy; simpl. apply IH in Hys. rewrite Hys; reflexivity.
Qed.

Lemma bucket_eqb_eq (a b : bucket) : bucket_eqb a b = true <-> a = b.
Proof. destruct a, b; simpl; split; intros H; congruence. Qed.

Lemma bucket_get_nil_aux (b : bucket) (l : list json) :
  bucket_get empty_buckets b ++ l = l.
Proof. now destruct b. Qed.

Lemma bucket_get_append (bs : buckets) (b b' : bucket) (c : json) :
  bucket_get (bucket_append bs b c) b' =
  bucket_get bs b' ++ (if bucket_eqb b b' then [c] else []).
Proof.
  destruct b, b'; simpl; now rewrite ?app_nil_r.
Qed.

(** After the loop every bucket holds what it held before, followed by the
    records assigned to it, in the order of the input. *)
Lemma sort_into_buckets_filter (now : Z) (convs : list json) (bs bs' : buckets) :
  sort_into_buckets now convs bs = Ok bs' ->
  forall b, bucket_get bs' b = bucket_get bs b ++ filter (assigned now b) convs.
Proof.
  revert bs; induction convs as [|c convs IH]; intros bs H b; simpl in H.
  - inversion H; subst. simpl. now rewrite app_nil_r.
  - apply bind_Ok in H as (b0 & Hc & H).
    rewrite (IH _ H b), bucket_get_append. simpl.
    unfold assigned at 2. rewrite Hc.
    destruct (bucket_eqb b0 b); simpl; now rewrite <- app_assoc.
Qed.

Lemma sort_into_buckets_classified (now : Z) (convs : list json) (bs bs' : buckets) :
  sort_into_buckets now convs bs = Ok bs' ->
  Forall (fun c => exists b, classify now c = Ok b) convs.
Proof.
  revert bs; induction convs as [|c convs IH]; intros bs H; simpl in H.
  - constructor.
  - apply bind_Ok in H as (b0 & Hc & H). constructor; eauto.
Qed.

Lemma all_buckets_append (bs : buckets) (b : bucket) (c : json) :
  Permutation (all_buckets (bucket_append bs b c)) (c :: all_buckets bs).
Proof.
  unfold all_buckets; destruct b; simpl;
    repeat rewrite <- app_assoc; simpl;
    repeat rewrite <- Permutation_middle; rewrite ?app_nil_r; reflexivity.
Qed.

Lemma sort_into_buckets_permutation (now : Z) (convs : list json) (bs bs' : buckets) :
  sort_into_buckets now convs bs = Ok bs' ->
  Permutation (all_buckets bs') (all_buckets bs ++ convs).
Proof.
  revert bs; induction convs as [|c convs IH]; intros bs H; simpl in H.
  - inversion H; subst. now rewrite app_nil_r.
  - apply bind_Ok in H as (b0 & Hc & H).
    rewrite (IH _ H), all_buckets_append. simpl. apply Permutation_middle.
Qed.

Lemma filter_subsequence {A : Type} (p : A -> bool) (xs : list A) :
  subsequence (filter p xs) xs.
Proof.
  induction xs as [|x xs IH]; simpl.
  - constructor.
  - destruct (p x); now constructor.
Qed.

(** One bucket of a saving loop that completed: the bucket is empty, or its
    records were minimised and written. *)
Ltac saved l c m E F :=
  destruct l as [|c l];
    [|destruct (map_result minimize_conv (c :: l)) as [m|] eqn:E;
      [destruct (forallb encodable m) eqn:F; [|discriminate] | discriminate]].

(** When the saving loop completes, the file of a bucket holds the minimised
    records of that bucket, one for one (nothing for an empty bucket, whose
    file is skipped). *)
Lemma save_buckets_output (bs : buckets) (written : list file) :
  save_buckets (bucket_items bs) [] = Completed written ->
  forall b, map_result minimize_conv (bucket_get bs b) = Ok (output_of written b).
Proof.
  destruct bs as [l1 l2 l3 l4]. unfold bucket_items; simpl.
  saved l1 c1 m1 E1 F1; saved l2 c2 m2 E2 F2; saved l3 c3 m3 E3 F3; saved l4 c4 m4 E4 F4;
  intros H; inversion H; subst; clear H; intros []; simpl; auto.
Qed.

(** Every record of a written file went through [json.dump]. *)
Lemma save_buckets_encodable (bs : buckets) (written : list file) :
  save_buckets (bucket_items bs) [] = Completed written ->
  forall b, forallb encodable (output_of written b) = true.
Proof.
  destruct bs as [l1 l2 l3 l4]. unfold bucket_items; simpl.
  saved l1 c1 m1 E1 F1; saved l2 c2 m2 E2 F2; saved l3 c3 m3 E3 F3; saved l4 c4 m4 E4 F4;
  intros H; inversion H; subst; clear H; intros []; simpl; auto.
Qed.

(** Files are written in the fixed order of the buckets, for exactly the
    non-empty ones. *)
Lemma save_buckets_names (bs : buckets) (written : list file) :
  save_buckets (bucket_items bs) [] = Completed written ->
  map fst written =
  filter (fun b => match bucket_get bs b with [] => false | _ => true end)
         [Last3Months; Months3To6; Months6To12; Older].
Proof.
  destruct bs as [l1 l2 l3 l4]. unfold bucket_items; simpl.
  saved l1 c1 m1 E1 F1; saved l2 c2 m2 E2 F2; saved l3 c3 m3 E3 F3; saved l4 c4 m4 E4 F4;
  intros H; inversion H; subst; clear H; reflexivity.
Qed.

(** A completed run went through every stage. *)
Lemma completed_stages (now : Z) (data : json) (written : list file) :
  split_conversations_by_time now (Document data) = Completed written ->
  exists conversations convs bs,
    select_conversations data = Some conversations /\
    py_iter conversations = Ok convs /\
    sort_into_buckets now convs empty_buckets = Ok bs /\
    save_buckets (bucket_items bs) [] = Completed written.
Proof.
  unfold split_conversations_by_time.
  destruct (select_conversations data) as [conversations|] eqn:Hsel; [|discriminate].
  destruct (py_iter conversations) as [convs|] eqn:Hit; [|discriminate].
  destruct (sort_into_buckets now convs empty_buckets) as [bs|] eqn:Hs; [|discriminate].
  intros H. exists conversations, convs, bs. repeat split; auto.
Qed.

(** ** Properties *)

(** C1.  When a run completes, the four buckets partition the input
    sequence: every record lies in exactly one bucket, the buckets together
    are a rearrangement of the input, and the minimised output of a bucket
    holds exactly one entry for each of its records. *)
Theorem buckets_partition_input (now : Z) (data : json) (written : list file) :
  split_conversations_by_time now (Document data) = Completed written ->
  exists conversations convs bs,
    select_conversations data = Some conversations /\
    py_iter conversations = Ok convs /\
    sort_into_buckets now convs empty_buckets = Ok bs /\
    (forall c, In c convs ->
       exists b, In c (bucket_get bs b) /\ forall b', In c (bucket_get bs b') -> b' = b) /\
    (forall b c, In c (bucket_get bs b) -> In c convs) /\
    Permutation (all_buckets bs) convs /\
    (forall b, Forall2 (fun c m => minimize_conv c = Ok m)
                       (bucket_get bs b) (output_of written b)) /\
    (List.length (output_of written Last3Months) +
     List.length (output_of written Months3To6) +
     List.length (output_of written Months6To12) +
     List.length (output_of written Older))%nat
    = List.length convs.
Proof.
  intros H. apply completed_stages in H as (conversations & convs & bs & Hsel & Hit & Hs & Hw).
  exists conversations, convs, bs. repeat (split; [assumption|]).
  pose proof (sort_into_buckets_filter _ _ _ _ Hs) as Hf. simpl in Hf.
  pose proof (sort_into_buckets_classified _ _ _ _ Hs) as Hc.
  pose proof (sort_into_buckets_permutation _ _ _ _ Hs) as Hp. simpl in Hp.
  assert (Hout : forall b, Forall2 (fun c m => minimize_conv c = Ok m)
                                   (bucket_get bs b) (output_of written b)).
  { intros b. apply map_result_Forall2. now apply save_buckets_output. }
  assert (Hin : forall b c, In c (bucket_get bs b) <-> In c convs /\ classify now c = Ok b).
  { intros b c. rewrite Hf, bucket_get_nil_aux. rewrite filter_In. unfold assigned.
    split; intros [Hi Ha]; split; auto.
    - destruct (classify now c) as [b0|]; [|discriminate].
      apply bucket_eqb_eq in Ha. now subst.
    - rewrite Ha. now apply bucket_eqb_eq. }
  split; [|split; [|split; [|split]]].
  - intros c Hi. rewrite Forall_forall in Hc. destruct (Hc c Hi) as [b Hb].
    exists b. split.
    + apply Hin; auto.
    + intros b' Hb'. apply Hin in Hb' as [_ Hb']. congruence.
  - intros b c Hi. now apply Hin in Hi.
  - exact Hp.
  - exact Hout.
  - rewrite <- (Permutation_length Hp). unfold all_buckets.
    rewrite !length_app.
    rewrite <- (Forall2_length (Hout Last3Months)), <- (Forall2_length (Hout Months3To6)),
      <- (Forall2_length (Hout Months6To12)), <- (Forall2_length (Hout Older)).
    simpl. lia.
Qed.

(** C10.  When a run completes, the file of every bucket lists the
    minimised forms of the records assigned to that bucket, one for one and
    in the order in which those records occur in the input; files come in
    the fixed order of the buckets. *)
Theorem bucket_files_keep_input_order (now : Z) (data : json) (written : list file) :
  split_conversations_by_time now (Document data) = Completed written ->
  exists conversations convs,
    select_conversations data = Some conversations /\
    py_iter conversations = Ok convs /\
    subsequence (map fst written) [Last3Months; Months3To6; Months6To12; Older] /\
    forall b, exists sources,
      sources = filter (assigned now b) convs /\
      subsequence sources convs /\
      Forall2 (fun c m => minimize_conv c = Ok m) sources (output_of written b).
Proof.
  intros H. apply completed_stages in H as (conversations & convs & bs & Hsel & Hit & Hs & Hw).
  exists conversations, convs. repeat (split; [assumption|]). split.
  - rewrite (save_buckets_names _ _ Hw). apply filter_subsequence.
  - intros b. exists (filter (assigned now b) convs). split; [reflexivity|].
    split; [apply filter_subsequence|].
    apply map_result_Forall2.
    rewrite <- (save_buckets_output _ _ Hw b).
    now rewrite (sort_into_buckets_filter _ _ _ _ Hs b), bucket_get_nil_aux.
Qed.

Lemma classify_resolved (now : Z) (conv : json) (d : Z) :
  resolve conv = Ok (Some d) -> classify now conv = Ok (bucket_of now d).
Proof. unfold classify. now intros ->. Qed.

(** C2.  A record whose timestamp resolves to the instant [d] goes to
    [last-3-months] exactly when [d >= now - 90 days], to [3-6-months]
    exactly when [now - 180 days <= d < now - 90 days], to [6-12-months]
    exactly when [now - 365 days <= d < now - 180 days], and to [older]
    exactly when [d < now - 365 days]: each boundary instant belongs to the
    more recent bucket. *)
Theorem bucket_boundaries_inclusive (now : Z) (conv : json) (d : Z) :
  resolve conv = Ok (Some d) ->
  exists b,
    classify now conv = Ok b /\
    (b = Last3Months <-> now - timedelta_days 90 <= d) /\
    (b = Months3To6 <-> now - timedelta_days 180 <= d < now - timedelta_days 90) /\
    (b = Months6To12 <-> now - timedelta_days 365 <= d < now - timedelta_days 180) /\
    (b = Older <-> d < now - timedelta_days 365).
Proof.
  intros H. exists (bucket_of now d). split; [now apply classify_resolved|].
  unfold bucket_of, timedelta_days, US_PER_DAY, US_PER_SECOND.
  destruct (d >=? now - 90 * (86400 * 1000000)) eqn:E1;
    [|destruct (d >=? now - 180 * (86400 * 1000000)) eqn:E2;
      [|destruct (d >=? now - 365 * (86400 * 1000000)) eqn:E3]];
    rewrite ?Z.geb_le in *; rewrite ?Z.geb_leb, ?Z.leb_gt in *;
    repeat split; intros; try discriminate; try lia.
Qed.

Lemma first_present_absent (fs : list string) (d : fields) (ts : json) :
  forallb (absent_or_falsy d) fs = true ->
  exists v, first_present fs (JDict d) ts = Ok v /\ (v = ts \/ truthy v = false).
Proof.
  induction fs as [|f fs IH]; simpl; intros H.
  - exists ts; auto.
  - apply andb_true_iff in H as [Hf H]. unfold has_key, absent_or_falsy in *.
    destruct (lookup f d) as [v|] eqn:E.
    + exists v. split; [reflexivity|]. right. now apply negb_true_iff in Hf.
    + now apply IH.
Qed.

Lemma first_present_none (fs : list string) (c : json) (ts : json) :
  forallb (fun k => match py_in k c with Ok false => true | _ => false end) fs = true ->
  first_present fs c ts = Ok ts.
Proof.
  induction fs as [|f fs IH]; simpl; intros H; [reflexivity|].
  apply andb_true_iff in H as [Hf H].
  destruct (py_in f c) as [[|]|]; try discriminate. cbn [bind]. now apply IH.
Qed.

Lemma no_timestamp_resolve (d : fields) :
  no_timestamp d = true -> resolve (JDict d) = Ok None.
Proof.
  intros H. apply andb_true_iff in H as [Htop Hmeta].
  unfold resolve, find_timestamp.
  destruct (first_present_absent _ _ JNull Htop) as (v & Hfp & Hv).
  rewrite Hfp. cbn [bind].
  assert (Hvf : truthy v = false) by (destruct Hv as [->|]; auto).
  rewrite Hvf. cbn [py_in py_getitem bind]. unfold has_key.
  destruct (lookup "metadata" d) as [md|] eqn:E; cbn [bind negb]; [|now rewrite Hvf].
  destruct md as [| | | |s|l|md]; try discriminate.
  - rewrite first_present_none; [cbn [bind]; now rewrite Hvf|].
    cbn [py_in]. rewrite forallb_forall in Hmeta. apply forallb_forall.
    intros k Hk. specialize (Hmeta k Hk). now destruct (contains k s).
  - rewrite first_present_none; [cbn [bind]; now rewrite Hvf|].
    cbn [py_in]. rewrite forallb_forall in Hmeta. apply forallb_forall.
    intros k Hk. specialize (Hmeta k Hk). now destruct (existsb (is_str_eq k) l).
  - destruct (first_present_absent _ _ v Hmeta) as (w & Hfp' & Hw).
    rewrite Hfp'. cbn [bind].
    assert (Hwf : truthy w = false) by (destruct Hw as [->|]; auto).
    now rewrite Hwf.
Qed.

Lemma first_sequence_filter (d : fields) (l : list json) :
  first_sequence d l ->
  match filter is_list (map snd d) with v :: _ => v | [] => JList [] end = JList l.
Proof.
  intros [(pre & k & post & -> & Hpre) | [Hd ->]].
  - induction pre as [|[k' v'] pre IH]; simpl in *.
    + reflexivity.
    + apply andb_true_iff in Hpre as [Hv Hpre]. unfold not_list in Hv; simpl in Hv.
      apply negb_true_iff in Hv. rewrite Hv. now apply IH.
  - induction d as [|[k' v'] d IH]; simpl in *.
    + reflexivity.
    + apply andb_true_iff in Hd as [Hv Hd]. unfold not_list in Hv; simpl in Hv.
      apply negb_true_iff in Hv. rewrite Hv. now apply IH.
Qed.

(** Every mapping has a first sequence in the sense above. *)
Lemma first_sequence_exists (d : fields) : exists l, first_sequence d l.
Proof.
  induction d as [|[k v] d [l IH]].
  - exists []. right. auto.
  - destruct (is_list v) eqn:E.
    + destruct v; try discriminate. exists l0. left. exists [], k, d. auto.
    + destruct IH as [(pre & k' & post & -> & Hpre) | [Hd ->]].
      * exists l. left. exists ((k, v) :: pre), k', post. split; [reflexivity|].
        simpl. unfold not_list at 1; simpl. now rewrite E.
      * exists []. right. split; [|reflexivity].
        simpl. unfold not_list at 1; simpl. now rewrite E.
Qed.

(** C8.  For a top-level mapping with neither [conversations] nor [items],
    the conversation sequence is the first value of the mapping that is a
    sequence, and the empty sequence (which iterates without error) when no
    value is one; a document that is itself a sequence is used as it is. *)
Theorem loader_shape_fallback (d : fields) (l : list json) :
  lookup "conversations" d = None ->
  lookup "items" d = None ->
  first_sequence d l ->
  select_conversations (JDict d) = Some (JList l) /\
  py_iter (JList l) = Ok l /\
  (forall now, l = [] -> split_conversations_by_time now (Document (JDict d)) = Completed []) /\
  (forall l', select_conversations (JList l') = Some (JList l')).
Proof.
  intros Hc Hi Hf.
  assert (Hs : select_conversations (JDict d) = Some (JList l)).
  { unfold select_conversations. rewrite Hc, Hi. f_equal. now apply first_sequence_filter. }
  repeat split; auto.
  intros now ->. unfold split_conversations_by_time. rewrite Hs. reflexivity.
Qed.

(** What [raw_timestamp] returns on a mapping. *)
Lemma raw_timestamp_dict (d : fields) :
  raw_timestamp (JDict d) =
  Ok (if truthy (get_or_null d "create_time") then get_or_null d "create_time"
      else if truthy (get_or_null d "created_at") then get_or_null d "created_at"
      else get_or_null d "timestamp").
Proof.
  unfold raw_timestamp, get_or_null; cbn [py_get bind].
  destruct (truthy _); [reflexivity|]. cbn [py_get bind].
  destruct (truthy _); reflexivity.
Qed.

Lemma minimize_conv_timestamp (d : fields) (out : minimized) :
  minimize_conv (JDict d) = Ok out -> raw_timestamp (JDict d) = Ok (timestamp out).
Proof.
  unfold minimize_conv. intros H.
  apply bind_Ok in H as (ms & _ & H).
  apply bind_Ok in H as (ts & Hts & H).
  apply bind_Ok in H as (t & _ & H).
  inversion H; subst. exact Hts.
Qed.

(** C6 (as amended).  The [timestamp] of a minimised record is the raw
    [create_time] when that is truthy, else the raw [created_at] when that
    is truthy, else whatever the record holds under [timestamp], null if
    the field is missing.  It is null exactly when [create_time] and
    [created_at] are not truthy and [timestamp] is missing or null. *)
Theorem minimized_timestamp_or_chain (d : fields) (out : minimized) :
  minimize_conv (JDict d) = Ok out ->
  let a := get_or_null d "create_time" in
  let b := get_or_null d "created_at" in
  let c := get_or_null d "timestamp" in
  (truthy a = true -> timestamp out = a) /\
  (truthy a = false -> truthy b = true -> timestamp out = b) /\
  (truthy a = false -> truthy b = false -> timestamp out = c) /\
  (timestamp out = JNull <-> truthy a = false /\ truthy b = false /\ c = JNull).
Proof.
  intros H a b c. apply minimize_conv_timestamp in H.
  rewrite raw_timestamp_dict in H. fold a b c in H. inversion H as [Ht]; clear H.
  clear Ht.
  destruct (truthy a) eqn:Ea; [|destruct (truthy b) eqn:Eb];
    repeat split; intros; try discriminate; try reflexivity;
    try match goal with
        | Hn : _ = JNull, E : truthy _ = true |- _ => rewrite Hn in E; discriminate
        | Hn : _ /\ _ |- _ => destruct Hn as (? & ? & ?); congruence
        end.
  assumption.
Qed.

(** C4 (as amended).  The extraction strategy is chosen by the presence of
    a key, in the order [mapping], [messages], [items]: the first of these
    keys that the record has decides alone, whatever its value is and
    whatever the other fields hold.  Under [mapping] a mapping is read node
    by node and any other value gives an empty message list; [messages] is
    consulted only without a [mapping] key, a sequence being read entry by
    entry and any other value giving an empty list; [items] is consulted
    only without both keys, and is iterated; with none of the keys the list
    is empty. *)
Theorem strategy_chosen_by_key_presence (d : fields) :
  (forall v, lookup "mapping" d = Some v ->
     extract_messages (JDict d) = extract_messages (JDict [("mapping", v)]) /\
     (is_dict v = false ->
        extract_messages (JDict d) = Ok [] /\
        forall out, minimize_conv (JDict d) = Ok out -> messages out = []) /\
     (forall nodes, v = JDict nodes ->
        extract_messages (JDict d) = collect mapping_node (map snd nodes))) /\
  (forall v, lookup "mapping" d = None -> lookup "messages" d = Some v ->
     extract_messages (JDict d) = extract_messages (JDict [("messages", v)]) /\
     (is_list v = false -> extract_messages (JDict d) = Ok []) /\
     (forall msgs, v = JList msgs ->
        extract_messages (JDict d) = collect messages_entry msgs)) /\
  (forall v, lookup "mapping" d = None -> lookup "messages" d = None ->
     lookup "items" d = Some v ->
     extract_messages (JDict d) = extract_messages (JDict [("items", v)]) /\
     extract_messages (JDict d) = let* items := py_iter v in collect items_entry items) /\
  (lookup "mapping" d = None -> lookup "messages" d = None -> lookup "items" d = None ->
     extract_messages (JDict d) = Ok []).
Proof.
  split; [|split; [|split]].
  - intros v Hv.
    assert (He : extract_messages (JDict d)
                 = match v with
                   | JDict nodes => collect mapping_node (map snd nodes)
                   | _ => Ok []
                   end).
    { unfold extract_messages; cbn [py_in py_getitem bind]. unfold has_key.
      rewrite Hv. reflexivity. }
    split; [rewrite He; reflexivity|]. split.
    + intros Hd.
      assert (He' : extract_messages (JDict d) = Ok [])
        by (rewrite He; destruct v; try reflexivity; discriminate).
      split; [exact He'|].
      intros out H. unfold minimize_conv in H. rewrite He' in H. cbn [bind] in H.
      apply bind_Ok in H as (ts & _ & H).
      apply bind_Ok in H as (t & _ & H). now inversion H.
    + intros nodes ->. exact He.
  - intros v Hm Hs.
    assert (He : extract_messages (JDict d)
                 = match v with
                   | JList msgs => collect messages_entry msgs
                   | _ => Ok []
                   end).
    { unfold extract_messages; cbn [py_in py_getitem bind]. unfold has_key.
      rewrite Hm, Hs. reflexivity. }
    split; [rewrite He; reflexivity|]. split.
    + intros Hl. rewrite He. destruct v; try reflexivity; discriminate.
    + intros msgs ->. exact He.
  - intros v Hm Hs Hi.
    assert (He : extract_messages (JDict d)
                 = let* items := py_iter v in collect items_entry items).
    { unfold extract_messages; cbn [py_in py_getitem bind]. unfold has_key.
      rewrite Hm, Hs, Hi. reflexivity. }
    split; [rewrite He; reflexivity | exact He].
  - intros Hm Hs Hi.
    unfold extract_messages; cbn [py_in py_getitem bind]. unfold has_key.
    rewrite Hm, Hs, Hi. reflexivity.
Qed.

(** *** Slices *)

Lemma take_substring (n : nat) (s : string) : take n s = substring 0 n s.
Proof.
  revert s; induction n as [|n IH]; intros [|c s]; simpl; try reflexivity.
  now rewrite IH.
Qed.

Lemma take_length (n : nat) (s : string) :
  String.length (take n s) = Nat.min n (String.length s).
Proof.
  revert s; induction n as [|n IH]; intros [|c s]; simpl; try reflexivity.
  now rewrite IH.
Qed.

Lemma take_prefix (n : nat) (s : string) : prefix (take n s) s = true.
Proof.
  revert s; induction n as [|n IH]; intros [|c s]; simpl; try reflexivity.
  destruct (ascii_dec c c) as [_|Hne]; [apply IH | now elim Hne].
Qed.

Lemma take_long (n : nat) (s : string) :
  (n < String.length s)%nat ->
  take n s = substring 0 n s /\ String.length (take n s) = n /\ prefix (take n s) s = true.
Proof.
  intros H. split; [apply take_substring|]. split; [|apply take_prefix].
  rewrite take_length. now apply Nat.min_l, Nat.lt_le_incl.
Qed.

Lemma take_short (n : nat) (s : string) :
  (String.length s <= n)%nat -> take n s = s.
Proof.
  revert s; induction n as [|n IH]; intros [|c s]; simpl; intros H; try reflexivity.
  - inversion H.
  - f_equal. apply IH. now apply Nat.succ_le_mono.
Qed.

(** Every message a loop appends comes from one of its iterations. *)
Lemma collect_In (body : json -> result (option message)) (xs : list json)
      (ms : list message) (m : message) :
  collect body xs = Ok ms -> In m ms -> exists x, In x xs /\ body x = Ok (Some m).
Proof.
  revert ms; induction xs as [|x xs IH]; simpl; intros ms H Hin.
  - inversion H; subst. destruct Hin.
  - apply bind_Ok in H as (o & Ho & H).
    apply bind_Ok in H as (ms' & Hms & H). inversion H; subst; clear H.
    destruct o as [m0|].
    + destruct Hin as [<-|Hin].
      * exists x; auto.
      * destruct (IH _ Hms Hin) as (y & Hy & Hb). exists y; auto.
    + destruct (IH _ Hms Hin) as (y & Hy & Hb). exists y; auto.
Qed.

(** A loop appends the messages of its iterations, in order. *)
Lemma collect_somes (body : json -> result (option message)) (xs : list json)
      (ms : list message) :
  collect body xs = Ok ms <-> exists os, map_result body xs = Ok os /\ ms = somes os.
Proof.
  revert ms; induction xs as [|x xs IH]; intros ms; simpl.
  - split.
    + intros H; inversion H; subst. now exists [].
    + intros (os & H & ->). inversion H; subst. reflexivity.
  - split.
    + intros H. apply bind_Ok in H as (o & Ho & H).
      apply bind_Ok in H as (ms' & Hms & H). inversion H; subst; clear H.
      apply IH in Hms as (os & Hos & ->). exists (o :: os).
      rewrite Ho, Hos. cbn [bind]. split; [reflexivity|]. now destruct o.
    + intros (os & H & ->).
      apply bind_Ok in H as (o & Ho & H).
      apply bind_Ok in H as (os' & Hos & H). inversion H; subst; clear H.
      rewrite Ho. cbn [bind].
      assert (Hc : collect body xs = Ok (somes os')) by (apply IH; eauto).
      rewrite Hc. cbn [bind]. now destruct o.
Qed.

Lemma mapping_node_source (node : json) (o : option message) :
  mapping_node node = Ok o -> exists src, node_source node = Ok src /\ cut_of o src.
Proof.
  unfold mapping_node, node_source. intros H.
  apply bind_Ok in H as (message & Hm & H). rewrite Hm. cbn [bind].
  destruct (truthy message); [|inversion H; subst; now exists None].
  apply bind_Ok in H as (oc & Hoc & H). rewrite Hoc. cbn [bind].
  destruct oc as [src|]; [|inversion H; subst; now exists None].
  destruct (strip src =? "")%string; [inversion H; subst; now exists None|].
  apply bind_Ok in H as (author & _ & H).
  apply bind_Ok in H as (r & _ & H).
  inversion H; subst; clear H. exists (Some src). split; reflexivity.
Qed.

Lemma messages_entry_source (msg : json) (o : option message) :
  messages_entry msg = Ok o -> exists src, entry_source msg = Ok src /\ cut_of o src.
Proof.
  unfold messages_entry, entry_source. intros H.
  apply bind_Ok in H as (c & Hc & H). rewrite Hc. cbn [bind].
  destruct (truthy c); [|inversion H; subst; now exists None].
  apply bind_Ok in H as (author & _ & H).
  apply bind_Ok in H as (r & _ & H).
  inversion H; subst; clear H. exists (Some (py_str c)). split; reflexivity.
Qed.

Lemma items_entry_source (item : json) (o : option message) :
  items_entry item = Ok o -> exists src, item_source item = Ok src /\ cut_of o src.
Proof.
  unfold items_entry, item_source. intros H.
  destruct (is_dict item); [|inversion H; subst; now exists None].
  apply bind_Ok in H as (present & Hp & H). rewrite Hp. cbn [bind].
  destruct present; [|inversion H; subst; now exists None].
  apply bind_Ok in H as (r & _ & H).
  apply bind_Ok in H as (c & Hc & H). rewrite Hc. cbn [bind].
  inversion H; subst; clear H. exists (Some (py_str c)). split; reflexivity.
Qed.

Lemma collect_sources (body : json -> result (option message))
      (source : json -> result (option string)) (xs : list json) (ms : list message) :
  (forall x o, body x = Ok o -> exists src, source x = Ok src /\ cut_of o src) ->
  collect body xs = Ok ms ->
  exists srcs,
    map_result source xs = Ok srcs /\
    Forall2 (fun m src => content m = take 5000 src) ms (somes srcs).
Proof.
  intros Hb. revert ms; induction xs as [|x xs IH]; simpl; intros ms H.
  - inversion H; subst. exists []. split; [reflexivity | constructor].
  - apply bind_Ok in H as (o & Ho & H).
    apply bind_Ok in H as (ms' & Hms & H). inversion H; subst; clear H.
    destruct (Hb _ _ Ho) as (src & Hsrc & Hcut).
    destruct (IH _ Hms) as (srcs & Hsrcs & Hf).
    exists (src :: srcs). rewrite Hsrc, Hsrcs. cbn [bind]. split; [reflexivity|].
    destruct o as [m|], src as [s0|]; simpl in Hcut; try contradiction; simpl.
    + now constructor.
    + exact Hf.
Qed.

(** The messages of a record answer its source contents one for one. *)
Lemma extract_messages_cut (conv : json) (ms : list message) :
  extract_messages conv = Ok ms ->
  exists srcs,
    message_sources conv = Ok srcs /\
    Forall2 (fun m src => content m = take 5000 src) ms (somes srcs).
Proof.
  unfold extract_messages, message_sources. intros H.
  apply bind_Ok in H as (has_mapping & Hp & H). rewrite Hp. cbn [bind].
  destruct has_mapping.
  { apply bind_Ok in H as (msg_list & Hg & H). rewrite Hg. cbn [bind].
    destruct msg_list as [| | | | | |nodes];
      try (inversion H; subst; exists []; split; [reflexivity | constructor]).
    exact (collect_sources _ _ _ _ mapping_node_source H). }
  apply bind_Ok in H as (has_messages & Hp' & H). rewrite Hp'. cbn [bind].
  destruct has_messages.
  { apply bind_Ok in H as (msg_list & Hg & H). rewrite Hg. cbn [bind].
    destruct msg_list as [| | | | |msgs|];
      try (inversion H; subst; exists []; split; [reflexivity | constructor]).
    exact (collect_sources _ _ _ _ messages_entry_source H). }
  apply bind_Ok in H as (has_items & Hp'' & H). rewrite Hp''. cbn [bind].
  destruct has_items.
  { apply bind_Ok in H as (v & Hg & H). rewrite Hg. cbn [bind].
    apply bind_Ok in H as (items & Hit & H). rewrite Hit. cbn [bind].
    exact (collect_sources _ _ _ _ items_entry_source H). }
  inversion H; subst. exists []. split; [reflexivity | constructor].
Qed.

Lemma map_result_somes_In {A B : Type} (f : A -> result (option B)) (xs : list A)
      (os : list (option B)) (b : B) :
  map_result f xs = Ok os -> In b (somes os) -> exists x, In x xs /\ f x = Ok (Some b).
Proof.
  revert os; induction xs as [|x xs IH]; simpl; intros os H Hin.
  - inversion H; subst. destruct Hin.
  - apply bind_Ok in H as (o & Ho & H).
    apply bind_Ok in H as (os' & Hos & H). inversion H; subst; clear H.
    destruct o as [b0|]; simpl in Hin.
    + destruct Hin as [<-|Hin]; [exists x; auto|].
      destruct (IH _ Hos Hin) as (y & Hy & Hf). exists y; auto.
    + destruct (IH _ Hos Hin) as (y & Hy & Hf). exists y; auto.
Qed.

(** Every source content is read from an element of the record. *)
Lemma message_sources_read (conv : json) (srcs : list (option string)) :
  message_sources conv = Ok srcs -> Forall (source_content conv) (somes srcs).
Proof.
  unfold message_sources. intros H. apply Forall_forall. intros src Hin.
  apply bind_Ok in H as (has_mapping & _ & H).
  destruct has_mapping.
  { apply bind_Ok in H as (msg_list & Hg & H).
    destruct msg_list as [| | | | | |nodes];
      try (inversion H; subst; now destruct Hin).
    destruct (map_result_somes_In _ _ _ _ H Hin) as (node & Hnode & Hs).
    unfold node_source in Hs.
    apply bind_Ok in Hs as (message & Hm & Hs).
    destruct (truthy message); [|discriminate].
    apply bind_Ok in Hs as (oc & Hoc & Hs).
    destruct oc as [src'|]; [|discriminate].
    destruct (strip src' =? "")%string; [discriminate|].
    inversion Hs; subst. eapply source_mapping; eauto. }
  apply bind_Ok in H as (has_messages & _ & H).
  destruct has_messages.
  { apply bind_Ok in H as (msg_list & Hg & H).
    destruct msg_list as [| | | | |msgs|];
      try (inversion H; subst; now destruct Hin).
    destruct (map_result_somes_In _ _ _ _ H Hin) as (msg & Hmsg & Hs).
    unfold entry_source in Hs.
    apply bind_Ok in Hs as (c & Hc & Hs).
    destruct (truthy c); [|discriminate].
    inversion Hs; subst. eapply source_messages; eauto. }
  apply bind_Ok in H as (has_items & _ & H).
  destruct has_items.
  { apply bind_Ok in H as (v & Hg & H).
    apply bind_Ok in H as (items & Hit & H).
    destruct (map_result_somes_In _ _ _ _ H Hin) as (item & Hitem & Hs).
    unfold item_source in Hs.
    destruct (is_dict item); [|discriminate].
    apply bind_Ok in Hs as (present & _ & Hs).
    destruct present; [|discriminate].
    apply bind_Ok in Hs as (c & Hc & Hs).
    inversion Hs; subst. eapply source_items; eauto. }
  inversion H; subst. destruct Hin.
Qed.

Lemma Forall2_Forall_r {A B : Type} (R : A -> B -> Prop) (P : B -> Prop)
      (xs : list A) (ys : list B) :
  Forall2 R xs ys -> Forall P ys -> Forall2 (fun x y => P y /\ R x y) xs ys.
Proof.
  induction 1 as [|x y xs ys HR _ IH]; intros HP; [constructor|].
  inversion HP; subst. constructor; auto.
Qed.

Lemma Forall2_map_eq {A B C : Type} (f : A -> C) (g : B -> C) (xs : list A) (ys : list B) :
  Forall2 (fun x y => f x = g y) xs ys -> map f xs = map g ys.
Proof. induction 1; simpl; congruence. Qed.

Lemma Forall2_In_l {A B : Type} (R : A -> B -> Prop) (xs : list A) (ys : list B) (x : A) :
  Forall2 R xs ys -> In x xs -> exists y, In y ys /\ R x y.
Proof.
  induction 1 as [|x0 y0 xs ys Hxy _ IH]; intros Hin; [destruct Hin|].
  destruct Hin as [->|Hin].
  - exists y0; simpl; auto.
  - destruct (IH Hin) as (y & Hy & HR). exists y; simpl; auto.
Qed.

Lemma Forall2_In_r {A B : Type} (R : A -> B -> Prop) (xs : list A) (ys : list B) (y : B) :
  Forall2 R xs ys -> In y ys -> exists x, In x xs /\ R x y.
Proof.
  induction 1 as [|x0 y0 xs ys Hxy _ IH]; intros Hin; [destruct Hin|].
  destruct Hin as [->|Hin].
  - exists x0; simpl; auto.
  - destruct (IH Hin) as (x & Hx & HR). exists x; simpl; auto.
Qed.

(** C9.  The messages of a minimised record answer, one for one and in
    order, the source contents of the record: the content of each message is
    its own source content cut after 5000 characters, so that a source
    content longer than 5000 characters always yields a message holding
    exactly its first 5000 characters.  The title is the text of the
    record's [title] cut after 100 characters in the same way, and the empty
    string when the record has no [title]. *)
Theorem content_and_title_truncated (conv : json) (out : minimized) :
  minimize_conv conv = Ok out ->
  (exists srcs,
     message_sources conv = Ok srcs /\
     map content (messages out) = map (take 5000) (somes srcs) /\
     Forall2 (fun m src =>
                source_content conv src /\
                content m = take 5000 src /\
                ((5000 < String.length src)%nat ->
                   content m = substring 0 5000 src /\
                   String.length (content m) = 5000%nat /\
                   prefix (content m) src = true))
             (messages out) (somes srcs) /\
     (forall src, In src (somes srcs) -> (5000 < String.length src)%nat ->
        exists m, In m (messages out) /\
                  content m = substring 0 5000 src /\
                  String.length (content m) = 5000%nat)) /\
  (exists t,
     py_get conv "title" (JStr "") = Ok t /\
     title out = take 100 (py_str t) /\
     ((100 < String.length (py_str t))%nat ->
        title out = substring 0 100 (py_str t) /\
        String.length (title out) = 100%nat)) /\
  (forall d, conv = JDict d -> lookup "title" d = None -> title out = "").
Proof.
  unfold minimize_conv. intros H.
  apply bind_Ok in H as (ms & Hms & H).
  apply bind_Ok in H as (ts & _ & H).
  apply bind_Ok in H as (t & Ht & H).
  inversion H; subst; clear H. cbn [messages title].
  split; [|split].
  - destruct (extract_messages_cut _ _ Hms) as (srcs & Hsrcs & Hf).
    exists srcs. split; [exact Hsrcs|].
    split; [exact (Forall2_map_eq _ _ _ _ Hf)|].
    assert (Hall : Forall2 (fun m src =>
                source_content conv src /\
                content m = take 5000 src /\
                ((5000 < String.length src)%nat ->
                   content m = substring 0 5000 src /\
                   String.length (content m) = 5000%nat /\
                   prefix (content m) src = true)) ms (somes srcs)).
    { pose proof (Forall2_Forall_r _ _ _ _ Hf (message_sources_read _ _ Hsrcs)) as Hfs.
      eapply Forall2_impl; [|exact Hfs]. cbv beta.
      intros m src [Hsrc Hc]. split; [exact Hsrc|]. split; [exact Hc|].
      intros Hlen. rewrite Hc. apply (take_long _ _ Hlen). }
    split; [exact Hall|].
    intros src Hin Hlen.
    destruct (Forall2_In_r _ _ _ _ Hall Hin) as (m & Hm & _ & _ & Hcut).
    destruct (Hcut Hlen) as (H1 & H2 & _). exists m. auto.
  - exists t. split; [exact Ht|]. split; [reflexivity|].
    intros Hlen. destruct (take_long _ _ Hlen) as (? & ? & ?). auto.
  - intros d -> Hd. cbn [py_get] in Ht. rewrite Hd in Ht.
    inversion Ht; subst. reflexivity.
Qed.

(** *** Rounding to binary64 *)

(** The nearest integer is at most half a unit away, and rounding is
    monotone. *)
Lemma nearest_even_bound (a b : Z) :
  0 < b -> - b <= 2 * (nearest_even a b * b - a) <= b.
Proof.
  intros Hb. unfold nearest_even.
  pose proof (Z.div_mod a b ltac:(lia)) as Hdm.
  pose proof (Z.mod_pos_bound a b Hb) as Hm.
  destruct (Z.compare_spec (2 * (a mod b)) b); [destruct (Z.even (a / b))| |]; nia.
Qed.

Lemma nearest_even_le (a b k : Z) :
  0 < b -> a <= k * b -> nearest_even a b <= k.
Proof.
  intros Hb Hk. unfold nearest_even.
  pose proof (Z.div_mod a b ltac:(lia)) as Hdm.
  pose proof (Z.mod_pos_bound a b Hb) as Hm.
  assert (Hq : a / b <= k) by nia.
  destruct (Z.compare_spec (2 * (a mod b)) b); [destruct (Z.even (a / b))| |]; nia.
Qed.

Lemma nearest_even_ge (a b k : Z) :
  0 < b -> k * b <= a -> k <= nearest_even a b.
Proof.
  intros Hb Hk. unfold nearest_even.
  pose proof (Z.div_mod a b ltac:(lia)) as Hdm.
  pose proof (Z.mod_pos_bound a b Hb) as Hm.
  assert (Hq : k <= a / b) by nia.
  destruct (Z.compare_spec (2 * (a mod b)) b); [destruct (Z.even (a / b))| |]; nia.
Qed.

Lemma nearest_even_zero (b : Z) : 0 < b -> nearest_even 0 b = 0.
Proof.
  intros Hb. pose proof (nearest_even_le 0 b 0 Hb ltac:(lia)).
  pose proof (nearest_even_ge 0 b 0 Hb ltac:(lia)). lia.
Qed.

(** Bounds on the quotient bound its binade. *)
Lemma binade_upper (p q K : Z) :
  0 < p -> 0 < q -> 0 <= K -> p < q * 2 ^ K -> binade p q < K.
Proof.
  intros Hp Hq HK H. unfold binade.
  destruct (Z.leb_spec q p) as [Hle|Hlt].
  - assert (H1 : 0 < p / q) by (apply Z.div_str_pos; lia).
    apply Z.log2_lt_pow2; [exact H1|].
    apply Z.div_lt_upper_bound; lia.
  - assert (H2 : 2 <= (q + p - 1) / p) by (apply Z.div_le_lower_bound; lia).
    pose proof (Z.log2_up_pos ((q + p - 1) / p) ltac:(lia)). lia.
Qed.

Lemma binade_lower (p q K : Z) :
  0 < q -> 0 <= K -> q * 2 ^ K <= p -> K <= binade p q.
Proof.
  intros Hq HK H. unfold binade.
  assert (Hpow : 1 <= 2 ^ K) by (pose proof (Z.pow_pos_nonneg 2 K); lia).
  assert (Hqp : q * 1 <= q * 2 ^ K) by (apply Z.mul_le_mono_nonneg_l; lia).
  destruct (Z.leb_spec q p) as [Hle|Hlt]; [|lia].
  assert (H1 : 0 < p / q) by (apply Z.div_str_pos; lia).
  apply Z.log2_le_pow2; [exact H1|].
  apply Z.div_le_lower_bound; lia.
Qed.

(** A quotient between [2^lo] and [2^hi] (below [2^52]) is rounded on the
    grid of its binade. *)
Lemma round_double_normal (p q lo hi : Z) :
  0 < q -> 0 <= lo -> lo < hi -> hi <= 52 ->
  q * 2 ^ lo <= p -> p < q * 2 ^ hi ->
  exists k, 52 - hi < k /\ k <= 52 - lo /\
            round_double p q = Some (nearest_even (p * 2 ^ k) q, - k).
Proof.
  intros Hq Hlo Hlh Hhi Hl Hu.
  assert (Hp : 0 < p) by (pose proof (Z.pow_pos_nonneg 2 lo); nia).
  pose proof (binade_upper p q hi Hp Hq ltac:(lia) Hu) as HL1.
  pose proof (binade_lower p q lo Hq Hlo Hl) as HL2.
  exists (52 - binade p q). split; [lia|]. split; [lia|].
  unfold round_double.
  replace (Z.max (binade p q - 52) (-1074)) with (- (52 - binade p q)) by lia.
  destruct (Z.leb_spec 0 (- (52 - binade p q))); [lia|].
  rewrite Z.opp_involutive.
  destruct (Z.ltb_spec 971 (- (52 - binade p q))); [lia|].
  destruct (Z.eqb_spec (- (52 - binade p q)) 971); [lia|]. reflexivity.
Qed.

(** A quotient below [2^20] is rounded on a grid of step at most [2^-33]. *)
Lemma round_double_small (p q : Z) :
  0 < p -> 0 < q -> p < q * 2 ^ 20 ->
  exists k, 33 <= k /\ round_double p q = Some (nearest_even (p * 2 ^ k) q, - k).
Proof.
  intros Hp Hq Hu.
  pose proof (binade_upper p q 20 Hp Hq ltac:(lia) Hu) as HL1.
  exists (- Z.max (binade p q - 52) (-1074)). split; [lia|].
  unfold round_double. rewrite Z.opp_involutive.
  destruct (Z.leb_spec 0 (Z.max (binade p q - 52) (-1074))); [lia|].
  destruct (Z.ltb_spec 971 (Z.max (binade p q - 52) (-1074))); [lia|].
  destruct (Z.eqb_spec (Z.max (binade p q - 52) (-1074)) 971); [lia|]. reflexivity.
Qed.

(** Microseconds of a fraction [r / d] of a second: [u] with
    [0 <= u <= 10^6], at most half a microsecond (and a rounding error of the
    product) away from the fraction. *)
Lemma fraction_microseconds (s : bool) (r : positive) (e : Z) :
  e < 0 -> Zpos r < 2 ^ (- e) ->
  exists u E,
    round_half_even (f64_mul_1e6 (S754_finite s r e)) = cond_Zopp s u /\
    0 <= u <= 10 ^ 6 /\ 2 ^ 33 <= E /\
    - ((E + 1) * 2 ^ (- e)) <= 2 * E * (u * 2 ^ (- e) - Zpos r * 10 ^ 6)
                             <= (E + 1) * 2 ^ (- e).
Proof.
  intros He Hr. set (d := 2 ^ (- e)) in *.
  assert (Hd : 0 < d) by (apply Z.pow_pos_nonneg; lia).
  unfold f64_mul_1e6. destruct (Z.leb_spec 0 e); [lia|]. fold d.
  destruct (round_double_small (Zpos r * 10 ^ 6) d) as (k & Hk & Hrd); [lia|lia|nia|].
  set (E := 2 ^ k) in *.
  assert (HE : 2 ^ 33 <= E) by (apply Z.pow_le_mono_r; lia).
  assert (HE0 : 0 < E) by lia.
  set (mP := nearest_even (Zpos r * 10 ^ 6 * E) d) in *.
  pose proof (nearest_even_bound (Zpos r * 10 ^ 6 * E) d Hd) as HmP. fold mP in HmP.
  assert (HmP_le : mP <= 10 ^ 6 * E) by (apply nearest_even_le; [exact Hd | nia]).
  assert (HmP_ge : 0 <= mP) by (apply nearest_even_ge; [exact Hd | nia]).
  exists (nearest_even mP E), E.
  pose proof (nearest_even_bound mP E HE0) as Hu.
  assert (Hu_le : nearest_even mP E <= 10 ^ 6) by (apply nearest_even_le; [exact HE0 | lia]).
  assert (Hu_ge : 0 <= nearest_even mP E) by (apply nearest_even_ge; [exact HE0 | lia]).
  split; [|split; [lia | split; [exact HE | nia]]].
  unfold f64_round. rewrite Hrd. fold mP.
  destruct mP as [|mp|mp] eqn:EmP; [| |lia].
  - simpl. rewrite nearest_even_zero by exact HE0. now destruct s.
  - unfold round_half_even. destruct (Z.leb_spec 0 (- k)); [lia|].
    rewrite Z.opp_involutive. reflexivity.
Qed.

(** A finite float between the first second of year 1 and the last second
    of year 9999 is converted, to the instant [w] that is at most half a
    microsecond, and the rounding error [1 / (2 * E)] of the product, away
    from it. *)
Lemma fromtimestamp_float_in_range (s : bool) (m : positive) (e : Z) :
  let x := S754_finite s m e in
  MIN_SECONDS * f64_den x <= f64_num x <= MAX_SECONDS * f64_den x ->
  exists w E,
    fromtimestamp_float x = Ok (mk_datetime w (Some 0)) /\
    0 < f64_den x /\ 2 ^ 33 <= E /\
    - ((E + 1) * f64_den x) <= 2 * E * (w * f64_den x - f64_num x * 10 ^ 6)
                             <= (E + 1) * f64_den x.
Proof.
  cbv zeta. unfold f64_num, f64_den, fromtimestamp_float, modf.
  destruct (Z.leb_spec 0 e) as [He|He]; intros Hr.
  - (* an integer *)
    exists (cond_Zopp s (Zpos m * 2 ^ e) * US_PER_SECOND), (2 ^ 33).
    cbn [f64_mul_1e6 round_half_even]. unfold US_PER_SECOND, MIN_SECONDS, MAX_SECONDS in *.
    cbn [Z.leb Z.ltb Z.compare].
    destruct (Z.leb_spec (-62135596800) (cond_Zopp s (Zpos m * 2 ^ e))); [|lia].
    destruct (Z.leb_spec (cond_Zopp s (Zpos m * 2 ^ e)) 253402300799); [|lia].
    cbn [andb]. rewrite Z.add_0_r. split; [reflexivity|]. lia.
  - set (d := 2 ^ (- e)) in *.
    assert (Hd : 0 < d) by (apply Z.pow_pos_nonneg; lia).
    pose proof (Z.div_mod (Zpos m) d ltac:(lia)) as Hdm.
    pose proof (Z.mod_pos_bound (Zpos m) d Hd) as Hm.
    set (ip := Zpos m / d) in *.
    destruct (Zpos m mod d) as [|r|r] eqn:Er; [| |lia].
    + (* a whole number of seconds *)
      exists (cond_Zopp s ip * US_PER_SECOND), (2 ^ 33).
      cbn [f64_mul_1e6 round_half_even]. unfold US_PER_SECOND, MIN_SECONDS, MAX_SECONDS in *.
      cbn [Z.leb Z.ltb Z.compare].
      assert (Hip : -62135596800 <= cond_Zopp s ip <= 253402300799)
        by (destruct s; cbn [cond_Zopp] in *; nia).
      destruct (Z.leb_spec (-62135596800) (cond_Zopp s ip)); [|lia].
      destruct (Z.leb_spec (cond_Zopp s ip) 253402300799); [|lia].
      cbn [andb]. rewrite Z.add_0_r. split; [reflexivity|].
      split; [exact Hd|]. split; [lia|]. destruct s; cbn [cond_Zopp] in *; nia.
    + destruct (fraction_microseconds s r e He) as (u & E & Hu & Hu01 & HE & Hclose);
        [fold d; lia|].
      fold d in Hclose. rewrite Hu. clear Hu.
      unfold US_PER_SECOND, MIN_SECONDS, MAX_SECONDS in *.
      assert (Hip0 : 0 <= ip) by (apply Z.div_pos; lia).
      destruct s; cbn [cond_Zopp] in *.
      * (* negative *)
        exists (- (ip * 1000000 + u)), E.
        destruct (Z.leb_spec 1000000 (- u)); [lia|].
        destruct (Z.ltb_spec (- u) 0); cbv beta iota.
        -- rewrite (proj2 (Z.leb_le (-62135596800) (- ip - 1))) by nia.
           rewrite (proj2 (Z.leb_le (- ip - 1) 253402300799)) by lia.
           rewrite (proj2 (Z.leb_le 0 (- u + 1000000))) by lia.
           rewrite (proj2 (Z.ltb_lt (- u + 1000000) 1000000)) by lia.
           cbn [andb]. split; [f_equal; f_equal; lia|].
           split; [exact Hd|]. split; [exact HE|]. nia.
        -- assert (u = 0) by lia. subst u.
           rewrite (proj2 (Z.leb_le (-62135596800) (- ip))) by nia.
           rewrite (proj2 (Z.leb_le (- ip) 253402300799)) by lia.
           rewrite (proj2 (Z.leb_le 0 (- 0))) by lia.
           rewrite (proj2 (Z.ltb_lt (- 0) 1000000)) by lia.
           cbn [andb]. split; [f_equal; f_equal; lia|].
           split; [exact Hd|]. split; [exact HE|]. nia.
      * (* positive *)
        exists (ip * 1000000 + u), E.
        destruct (Z.leb_spec 1000000 u); cbv beta iota.
        -- assert (u = 1000000) by lia. subst u.
           rewrite (proj2 (Z.leb_le (-62135596800) (ip + 1))) by lia.
           rewrite (proj2 (Z.leb_le (ip + 1) 253402300799)) by nia.
           rewrite (proj2 (Z.leb_le 0 (1000000 - 1000000))) by lia.
           rewrite (proj2 (Z.ltb_lt (1000000 - 1000000) 1000000)) by lia.
           cbn [andb]. split; [f_equal; f_equal; lia|].
           split; [exact Hd|]. split; [exact HE|]. nia.
        -- destruct (Z.ltb_spec u 0); [lia|]. cbv beta iota.
           rewrite (proj2 (Z.leb_le (-62135596800) ip)) by lia.
           rewrite (proj2 (Z.leb_le ip 253402300799)) by nia.
           rewrite (proj2 (Z.leb_le 0 u)) by lia.
           rewrite (proj2 (Z.ltb_lt u 1000000)) by lia.
           cbn [andb]. split; [reflexivity|].
           split; [exact Hd|]. split; [exact HE|]. nia.
Qed.

(** Half a microsecond and a rounding error, in a form free of the
    existential: [|w - x * 10^6| <= 1/2 + 2^-34]. *)
Lemma fromtimestamp_float_close (s : bool) (m : positive) (e : Z) :
  let x := S754_finite s m e in
  MIN_SECONDS * f64_den x <= f64_num x <= MAX_SECONDS * f64_den x ->
  exists w,
    fromtimestamp_float x = Ok (mk_datetime w (Some 0)) /\
    0 < f64_den x /\
    - ((2 ^ 33 + 1) * f64_den x) <= 2 ^ 34 * (w * f64_den x - f64_num x * 10 ^ 6)
                                  <= (2 ^ 33 + 1) * f64_den x.
Proof.
  intros x Hr.
  destruct (fromtimestamp_float_in_range s m e Hr) as (w & E & Hw & Hd & HE & Hc).
  fold x in Hw, Hd, Hc. exists w. split; [exact Hw|]. split; [exact Hd|].
  set (D := f64_den x) in *. set (A := w * D - f64_num x * 10 ^ 6) in *.
  change (2 ^ 34) with (2 * 2 ^ 33). set (G := 2 ^ 33) in *.
  assert (HG : 0 < G) by (unfold G; lia).
  assert (H1 : 2 * G * A * E <= (G + 1) * D * E).
  { assert (2 * E * A * G <= (E + 1) * D * G) by (apply Z.mul_le_mono_nonneg_r; lia).
    assert ((E + 1) * D * G <= (G + 1) * D * E) by nia. lia. }
  assert (H2 : - ((G + 1) * D * E) <= 2 * G * A * E).
  { assert (- ((E + 1) * D) * G <= 2 * E * A * G) by (apply Z.mul_le_mono_nonneg_r; lia).
    assert ((E + 1) * D * G <= (G + 1) * D * E) by nia. lia. }
  split.
  - apply Z.mul_le_mono_pos_r with (p := E); lia.
  - apply Z.mul_le_mono_pos_r with (p := E); lia.
Qed.

(** The quotient of a number of milliseconds by 1000, between [10^9] and the
    last second of year 9999, is rounded on a grid of step [2^-k] seconds
    with [15 <= k <= 23]. *)
Lemma quotient_seconds (p q : Z) :
  0 < q -> q * 10 ^ 9 <= p <= q * MAX_SECONDS ->
  exists (mq : positive) (k : Z),
    round_double p q = Some (Zpos mq, - k) /\
    15 <= k <= 23 /\
    Zpos mq <= MAX_SECONDS * 2 ^ k /\
    - q <= 2 * (Zpos mq * q - p * 2 ^ k) <= q /\
    (p < q * 2 ^ 33 -> 20 <= k).
Proof.
  intros Hq [Hlo Hhi]. unfold MAX_SECONDS in *.
  destruct (round_double_normal p q 29 38 Hq) as (k & Hk1 & Hk2 & Hrd); try lia.
  assert (HK : 0 < 2 ^ k) by (apply Z.pow_pos_nonneg; lia).
  pose proof (nearest_even_bound (p * 2 ^ k) q Hq) as Hb.
  assert (Hle : nearest_even (p * 2 ^ k) q <= 253402300799 * 2 ^ k)
    by (apply nearest_even_le; [exact Hq | nia]).
  assert (Hge : 10 ^ 9 * 2 ^ k <= nearest_even (p * 2 ^ k) q)
    by (apply nearest_even_ge; [exact Hq | nia]).
  destruct (nearest_even (p * 2 ^ k) q) as [|mq|mq] eqn:Emq; [lia| |lia].
  exists mq, k. split; [exact Hrd|]. split; [lia|]. split; [exact Hle|].
  split; [lia|]. intros H33.
  destruct (round_double_normal p q 29 33 Hq) as (k' & Hk1' & Hk2' & Hrd'); try lia.
  rewrite Hrd in Hrd'. injection Hrd' as _ Hkk. lia.
Qed.

(** Reading a quotient [p / q] of milliseconds by 1000 as seconds. *)
Lemma milliseconds_close (p q : Z) :
  0 < q -> q * 10 ^ 9 <= p <= q * MAX_SECONDS ->
  exists w,
    fromtimestamp_float (f64_round false p q) = Ok (mk_datetime w (Some 0)) /\
    - (16 * q) < w * q - p * 10 ^ 6 < 16 * q /\
    (p < q * 2 ^ 33 -> - q < w * q - p * 10 ^ 6 < q).
Proof.
  intros Hq Hr.
  destruct (quotient_seconds p q Hq Hr) as (mq & k & Hrd & Hk & Hmax & Hb & H33).
  unfold f64_round. rewrite Hrd.
  assert (HK : 2 ^ 15 <= 2 ^ k) by (apply Z.pow_le_mono_r; lia).
  destruct (fromtimestamp_float_close false mq (- k)) as (w & Hw & _ & Hc).
  { unfold f64_num, f64_den. destruct (Z.leb_spec 0 (- k)); [lia|].
    rewrite Z.opp_involutive. cbn [cond_Zopp]. unfold MIN_SECONDS. lia. }
  unfold f64_num, f64_den in Hc. destruct (Z.leb_spec 0 (- k)); [lia|].
  rewrite Z.opp_involutive in Hc. cbn [cond_Zopp] in Hc.
  exists w. split; [exact Hw|].
  set (K := 2 ^ k) in *. set (A := w * K - Zpos mq * 10 ^ 6) in *.
  set (B := Zpos mq * q - p * K) in *. set (T := w * q - p * 10 ^ 6).
  assert (HT : K * T = A * q + 10 ^ 6 * B) by (unfold T, A, B; ring).
  assert (HA1 : 2 ^ 34 * (A * q) <= (2 ^ 33 + 1) * K * q) by nia.
  assert (HA2 : - ((2 ^ 33 + 1) * K * q) <= 2 ^ 34 * (A * q)) by nia.
  split.
  - assert (2 ^ 34 * (K * T) < 2 ^ 34 * (K * (16 * q))) by nia.
    assert (2 ^ 34 * (K * - (16 * q)) < 2 ^ 34 * (K * T)) by nia.
    nia.
  - intros Hp. specialize (H33 Hp).
    assert (HK' : 2 ^ 20 <= K) by (apply Z.pow_le_mono_r; lia).
    assert (2 ^ 34 * (K * T) < 2 ^ 34 * (K * q)) by nia.
    assert (2 ^ 34 * (K * - q) < 2 ^ 34 * (K * T)) by nia.
    nia.
Qed.

(** *** Numeric timestamps *)

Lemma seconds_in_range (n : Z) :
  MIN_SECONDS <= n <= MAX_SECONDS -> in_datetime_range (n * US_PER_SECOND) = true.
Proof.
  unfold in_datetime_range, MIN_US, MAX_US, MIN_SECONDS, MAX_SECONDS, US_PER_SECOND.
  intros H. apply andb_true_iff; split; apply Z.leb_le; lia.
Qed.

Lemma fromtimestamp_int_utc (n : Z) (dt : datetime) :
  fromtimestamp_int n = Ok dt ->
  utcoffset dt = Some 0 /\ in_datetime_range (wall dt) = true.
Proof.
  unfold fromtimestamp_int.
  destruct ((MIN_SECONDS <=? n) && (n <=? MAX_SECONDS)) eqn:E; [|discriminate].
  intros H; inversion H; subst; clear H. simpl. split; [reflexivity|].
  apply andb_true_iff in E as [E1 E2]. apply Z.leb_le in E1, E2.
  now apply seconds_in_range.
Qed.

Lemma fromtimestamp_float_utc (x : spec_float) (dt : datetime) :
  fromtimestamp_float x = Ok dt ->
  utcoffset dt = Some 0 /\ in_datetime_range (wall dt) = true.
Proof.
  unfold fromtimestamp_float. destruct x as [s| | |s m e]; try discriminate.
  - intros H; inversion H; subst. split; reflexivity.
  - destruct (modf s m e) as [intpart floatpart].
    destruct (if US_PER_SECOND <=? _ then _ else _) as [sec us].
    destruct ((MIN_SECONDS <=? sec) && (sec <=? MAX_SECONDS) && (0 <=? us)
              && (us <? US_PER_SECOND)) eqn:E; [|discriminate].
    intros H; inversion H; subst; clear H. simpl. split; [reflexivity|].
    repeat (apply andb_true_iff in E as [E ?]).
    apply Z.leb_le in E. apply Z.leb_le in H1, H0. apply Z.ltb_lt in H.
    unfold in_datetime_range, MIN_US, MAX_US, MIN_SECONDS, MAX_SECONDS, US_PER_SECOND in *.
    apply andb_true_iff; split; apply Z.leb_le; lia.
Qed.

Lemma parse_number_utc (ts : json) (dt : datetime) :
  parse_number ts = Ok dt ->
  utcoffset dt = Some 0 /\ in_datetime_range (wall dt) = true.
Proof.
  destruct ts as [|b|n|f| | |]; unfold parse_number; try discriminate.
  - apply fromtimestamp_int_utc.
  - destruct (10 ^ 12 <? n).
    + intros H. apply bind_Ok in H as (q & _ & H). now apply fromtimestamp_float_utc in H.
    + apply fromtimestamp_int_utc.
  - destruct (f64_gt_1e12 f); apply fromtimestamp_float_utc.
Qed.

(** [x > 1e12] compares the numbers. *)
Lemma f64_gt_1e12_spec (s : bool) (m : positive) (e : Z) :
  let x := S754_finite s m e in
  f64_gt_1e12 x = (10 ^ 12 * f64_den x <? f64_num x).
Proof.
  cbv zeta. unfold f64_gt_1e12, f64_num, f64_den.
  assert (Hd : e < 0 -> 0 < 2 ^ (- e)) by (intros; apply Z.pow_pos_nonneg; lia).
  assert (Hp : 0 <= e -> 0 < 2 ^ e) by (intros; apply Z.pow_pos_nonneg; lia).
  destruct s; cbn [cond_Zopp]; destruct (Z.leb_spec 0 e) as [He|He].
  - specialize (Hp He). symmetry. apply Z.ltb_ge. nia.
  - specialize (Hd He). symmetry. apply Z.ltb_ge. nia.
  - now rewrite Z.mul_1_r.
  - reflexivity.
Qed.

Lemma f64_den_pos (x : spec_float) : 0 < f64_den x.
Proof.
  destruct x as [| | |s m e]; cbn [f64_den]; try lia.
  destruct (Z.leb_spec 0 e); [lia | apply Z.pow_pos_nonneg; lia].
Qed.

(** [x / 1000] on a positive float is the rounded quotient of its numerator
    by 1000 times its denominator. *)
Lemma f64_div_1000_round (m : positive) (e : Z) :
  let x := S754_finite false m e in
  f64_div_1000 x = f64_round false (f64_num x) (1000 * f64_den x).
Proof.
  cbv zeta. unfold f64_div_1000, f64_num, f64_den.
  destruct (Z.leb_spec 0 e); cbn [cond_Zopp]; [now rewrite Z.mul_1_r | reflexivity].
Qed.

Lemma to_utc_aware (w : Z) :
  in_datetime_range w = true -> to_utc (mk_datetime w (Some 0)) = Ok w.
Proof. intros H. unfold to_utc; cbn [utcoffset wall]. now rewrite Z.sub_0_r, H. Qed.

Lemma parse_timestamp_seconds (n : Z) :
  MIN_SECONDS <= n <= MAX_SECONDS ->
  parse_timestamp (JInt n) = Ok (Some (mk_datetime (n * US_PER_SECOND) (Some 0))).
Proof.
  intros [H1 H2]. unfold parse_timestamp, parse_number, fromtimestamp_int; cbn [is_number].
  assert (Hn : (10 ^ 12 <? n) = false) by (apply Z.ltb_ge; unfold MAX_SECONDS in H2; lia).
  rewrite Hn. apply Z.leb_le in H1, H2. now rewrite H1, H2.
Qed.

(** An integer number of milliseconds, above [10^12] and up to the last
    second of the year 9999. *)
Lemma parse_number_milliseconds (n : Z) :
  10 ^ 12 < n <= 1000 * MAX_SECONDS ->
  exists w,
    parse_number (JInt n) = Ok (mk_datetime w (Some 0)) /\
    Z.abs (w - 1000 * n) < 16 /\
    (n < 1000 * 2 ^ 33 -> w = 1000 * n).
Proof.
  intros [Hlo Hhi].
  destruct (milliseconds_close n 1000) as (w & Hw & Hc & Hx); [lia | lia |].
  exists w. split; [|split].
  - unfold parse_number. apply Z.ltb_lt in Hlo as Hlt. rewrite Hlt.
    unfold int_truediv_1000.
    destruct n as [|p|p]; try lia.
    destruct (f64_round false (Zpos p) 1000) as [sg|sg| |sg m e] eqn:Eq;
      cbn [bind]; exact Hw.
  - lia.
  - intros H. specialize (Hx ltac:(lia)). lia.
Qed.

(** A finite float up to [10^12], read as seconds. *)
Lemma parse_number_float_seconds (s : bool) (m : positive) (e : Z) :
  let f := S754_finite s m e in
  MIN_SECONDS * f64_den f <= f64_num f <= MAX_SECONDS * f64_den f ->
  exists w,
    parse_number (JFloat f) = Ok (mk_datetime w (Some 0)) /\
    Z.abs (w * f64_den f - 10 ^ 6 * f64_num f) <= f64_den f.
Proof.
  intros f Hr. pose proof (f64_den_pos f) as Hd.
  destruct (fromtimestamp_float_close s m e Hr) as (w & Hw & _ & Hc). fold f in Hw, Hc.
  exists w. split.
  - unfold parse_number. unfold f at 1. rewrite f64_gt_1e12_spec. fold f.
    assert (Hgt : (10 ^ 12 * f64_den f <? f64_num f) = false)
      by (apply Z.ltb_ge; unfold MAX_SECONDS in Hr; lia).
    rewrite Hgt. exact Hw.
  - lia.
Qed.

(** A finite float above [10^12], read as milliseconds. *)
Lemma parse_number_float_milliseconds (s : bool) (m : positive) (e : Z) :
  let f := S754_finite s m e in
  10 ^ 12 * f64_den f < f64_num f <= 1000 * MAX_SECONDS * f64_den f ->
  exists w,
    parse_number (JFloat f) = Ok (mk_datetime w (Some 0)) /\
    Z.abs (w * f64_den f - 1000 * f64_num f) < 16 * f64_den f.
Proof.
  intros f [Hlo Hhi]. pose proof (f64_den_pos f) as Hd.
  assert (Hs : s = false).
  { destruct s; [|reflexivity]. exfalso. unfold f, f64_num, f64_den in *.
    destruct (Z.leb_spec 0 e); cbn [cond_Zopp] in *.
    - pose proof (Z.pow_pos_nonneg 2 e). nia.
    - lia. }
  subst s.
  destruct (milliseconds_close (f64_num f) (1000 * f64_den f)) as (w & Hw & Hc & _);
    [lia | lia |].
  exists w. split.
  - unfold parse_number. unfold f at 1. rewrite f64_gt_1e12_spec. fold f.
    apply Z.ltb_lt in Hlo as Hgt. rewrite Hgt.
    unfold f at 1. rewrite f64_div_1000_round. exact Hw.
  - nia.
Qed.

(** C7 (as amended).  A numeric timestamp that denotes a time between
    0001-01-01T00:00:00Z and 9999-12-31T23:59:59Z is read as a Unix epoch
    number and gives a UTC instant.  A value of at most [10^12] is a number
    of seconds: an integer [n] gives exactly [n] seconds after the epoch, a
    float gives an instant within one microsecond of it.  A value above
    [10^12] is divided by 1000 and the quotient is read as seconds: the
    instant is within 16 microseconds of that many milliseconds after the
    epoch, and is exactly that many milliseconds for an integer below
    [2^33 * 1000].  Whenever the conversion returns, the result is a UTC
    datetime within the range of [datetime]. *)
Theorem numeric_timestamp_reading :
  (forall n, MIN_SECONDS <= n <= MAX_SECONDS ->
     parse_timestamp (JInt n) = Ok (Some (mk_datetime (n * US_PER_SECOND) (Some 0))) /\
     to_utc (mk_datetime (n * US_PER_SECOND) (Some 0)) = Ok (n * US_PER_SECOND)) /\
  (forall n, 10 ^ 12 < n <= 1000 * MAX_SECONDS ->
     exists w,
       parse_timestamp (JInt n) = Ok (Some (mk_datetime w (Some 0))) /\
       to_utc (mk_datetime w (Some 0)) = Ok w /\
       Z.abs (w - 1000 * n) < 16 /\
       (n < 1000 * 2 ^ 33 -> w = 1000 * n)) /\
  (forall s m e,
     let f := S754_finite s m e in
     MIN_SECONDS * f64_den f <= f64_num f <= MAX_SECONDS * f64_den f ->
     exists w,
       parse_timestamp (JFloat f) = Ok (Some (mk_datetime w (Some 0))) /\
       to_utc (mk_datetime w (Some 0)) = Ok w /\
       Z.abs (w * f64_den f - 10 ^ 6 * f64_num f) <= f64_den f) /\
  (forall s m e,
     let f := S754_finite s m e in
     10 ^ 12 * f64_den f < f64_num f <= 1000 * MAX_SECONDS * f64_den f ->
     exists w,
       parse_timestamp (JFloat f) = Ok (Some (mk_datetime w (Some 0))) /\
       to_utc (mk_datetime w (Some 0)) = Ok w /\
       Z.abs (w * f64_den f - 1000 * f64_num f) < 16 * f64_den f) /\
  (forall ts dt, is_number ts = true -> parse_timestamp ts = Ok (Some dt) ->
     utcoffset dt = Some 0 /\ to_utc dt = Ok (wall dt)).
Proof.
  assert (Hutc : forall ts w, parse_number ts = Ok (mk_datetime w (Some 0)) ->
            to_utc (mk_datetime w (Some 0)) = Ok w).
  { intros ts w H. apply parse_number_utc in H as [_ H]. now apply to_utc_aware. }
  split; [|split; [|split; [|split]]].
  - intros n Hr. split; [now apply parse_timestamp_seconds|].
    apply to_utc_aware. now apply seconds_in_range.
  - intros n Hn. destruct (parse_number_milliseconds n Hn) as (w & Hw & Hc & Hx).
    exists w. split; [|split; [exact (Hutc _ _ Hw) | split; assumption]].
    unfold parse_timestamp; cbn [is_number]. now rewrite Hw.
  - intros s m e f Hr.
    destruct (parse_number_float_seconds s m e Hr) as (w & Hw & Hc). fold f in Hw, Hc.
    exists w. split; [|split; [exact (Hutc _ _ Hw) | exact Hc]].
    unfold parse_timestamp; cbn [is_number]. now rewrite Hw.
  - intros s m e f Hr.
    destruct (parse_number_float_milliseconds s m e Hr) as (w & Hw & Hc). fold f in Hw, Hc.
    exists w. split; [|split; [exact (Hutc _ _ Hw) | exact Hc]].
    unfold parse_timestamp; cbn [is_number]. now rewrite Hw.
  - intros ts dt Hn H. unfold parse_timestamp in H. rewrite Hn in H.
    apply bind_Ok in H as (dt' & Hp & H). inversion H; subst.
    apply parse_number_utc in Hp as [Ho Hr]. split; [exact Ho|].
    unfold to_utc. now rewrite Ho, Z.sub_0_r, Hr.
Qed.

(** *** Loops that do not raise *)

Lemma collect_total (body : json -> result (option message)) (xs : list json) :
  Forall (fun x => exists o, body x = Ok o) xs -> exists ms, collect body xs = Ok ms.
Proof.
  induction 1 as [|x xs [o Ho] _ [ms Hms]]; simpl.
  - now exists [].
  - rewrite Ho, Hms. cbn [bind]. eauto.
Qed.

Lemma node_content_total (md : fields) :
  content_ok md = true -> exists oc, node_content (JDict md) = Ok oc.
Proof.
  unfold content_ok, node_content. cbn [py_get py_getitem bind].
  destruct (lookup "content" md) as [c|]; [|intros _; cbn [truthy]; eauto].
  destruct (truthy c) eqn:Ec; cbn [negb orb bind]; [|eauto].
  destruct c as [| | | | | |cd]; try discriminate.
  cbn [py_get bind].
  destruct (lookup "parts" cd) as [p|]; [|intros _; cbn [truthy]; eauto].
  destruct (truthy p) eqn:Ep; cbn [negb orb]; [|eauto].
  destruct p; try discriminate; intros _; cbn [py_iter bind]; eauto.
Qed.

Lemma mapping_node_total (node : json) :
  node_ok node = true -> exists o, mapping_node node = Ok o.
Proof.
  unfold node_ok, mapping_node.
  destruct node as [| | | | | |nd]; try discriminate. cbn [py_get bind].
  destruct (lookup "message" nd) as [message|]; [|intros _; cbn [truthy]; eauto].
  destruct (truthy message) eqn:Em; cbn [negb orb]; [|eauto].
  destruct message as [| | | | | |md]; try discriminate.
  intros H. apply andb_true_iff in H as [Hc Ha].
  destruct (node_content_total _ Hc) as [oc Hoc]. rewrite Hoc. cbn [bind].
  destruct oc as [src|]; [|eauto].
  destruct (strip src =? "")%string; [eauto|].
  unfold author_ok in Ha. cbn [py_get bind].
  destruct (lookup "author" md) as [a|]; cbn [py_get bind]; [|eauto].
  destruct a; try discriminate. cbn [py_get bind]. eauto.
Qed.

Lemma messages_entry_total (msg : json) :
  is_dict msg = true -> exists o, messages_entry msg = Ok o.
Proof.
  destruct msg as [| | | | | |md]; try discriminate. intros _.
  unfold messages_entry, entry_content. cbn [py_get bind].
  destruct (truthy (match lookup "content" md with Some v => v | None => JNull end)) eqn:Ec;
    cbn [bind].
  - rewrite Ec. eauto.
  - destruct (truthy (match lookup "text" md with Some v => v | None => JNull end)) eqn:Et;
      cbn [bind].
    + rewrite Et. eauto.
    + cbn [truthy String.eqb negb]. eauto.
Qed.

Lemma items_entry_total (item : json) : exists o, items_entry item = Ok o.
Proof.
  unfold items_entry. destruct item as [| | | | | |d]; cbn [is_dict]; eauto.
  cbn [py_in py_get py_getitem bind]. unfold has_key.
  destruct (lookup "content" d); cbn [bind]; eauto.
Qed.

Lemma py_iter_total (v : json) : iterable v = true -> exists xs, py_iter v = Ok xs.
Proof. destruct v; try discriminate; intros _; simpl; eauto. Qed.

Lemma extract_messages_total (d : fields) :
  messages_ok d = true -> exists ms, extract_messages (JDict d) = Ok ms.
Proof.
  unfold messages_ok, extract_messages. cbn [py_in py_getitem bind]. unfold has_key.
  destruct (lookup "mapping" d) as [v|]; cbn [bind].
  { destruct v as [| | | | | |nodes]; eauto.
    intros H. apply collect_total. rewrite forallb_forall in H.
    apply Forall_forall. intros node Hn. now apply mapping_node_total, H. }
  destruct (lookup "messages" d) as [v|]; cbn [bind].
  { destruct v as [| | | | |msgs|]; eauto.
    intros H. apply collect_total. rewrite forallb_forall in H.
    apply Forall_forall. intros msg Hm. now apply messages_entry_total, H. }
  destruct (lookup "items" d) as [v|]; cbn [bind]; [|eauto].
  intros H. destruct (py_iter_total _ H) as [xs ->]. cbn [bind].
  apply collect_total, Forall_forall. intros item _. apply items_entry_total.
Qed.

Lemma minimize_conv_total (d : fields) :
  messages_ok d = true -> exists out, minimize_conv (JDict d) = Ok out.
Proof.
  intros H. destruct (extract_messages_total _ H) as [ms Hms].
  unfold minimize_conv. rewrite Hms, raw_timestamp_dict. cbn [py_get bind]. eauto.
Qed.

Lemma sort_into_buckets_total (now : Z) (convs : list json) (bs : buckets) :
  Forall (fun c => exists b, classify now c = Ok b) convs ->
  exists bs', sort_into_buckets now convs bs = Ok bs'.
Proof.
  intros H; revert bs. induction H as [|c convs [b Hb] _ IH]; intros bs; simpl.
  - eauto.
  - rewrite Hb. cbn [bind]. apply IH.
Qed.

Lemma save_buckets_total (bs : buckets) :
  (forall b, exists ys, map_result minimize_conv (bucket_get bs b) = Ok ys /\
                        forallb encodable ys = true) ->
  exists written, save_buckets (bucket_items bs) [] = Completed written.
Proof.
  intros H.
  destruct (H Last3Months) as (m1 & H1 & F1), (H Months3To6) as (m2 & H2 & F2),
           (H Months6To12) as (m3 & H3 & F3), (H Older) as (m4 & H4 & F4).
  destruct bs as [l1 l2 l3 l4]. cbn [bucket_get last_3_months months_3_6 months_6_12 older] in *.
  unfold bucket_items. cbn [save_buckets last_3_months months_3_6 months_6_12 older].
  destruct l1; [|rewrite H1, F1]; (destruct l2; [|rewrite H2, F2]);
    (destruct l3; [|rewrite H3, F3]); (destruct l4; [|rewrite H4, F4]); eauto.
Qed.

(** ** Further properties *)

(** *** The loader and the files *)

(** X1.  A mapping that wraps a sequence, under [conversations], under
    [items] or as its first sequence value, is processed exactly as that
    sequence given as the whole document. *)
Theorem wrapped_document_same_run (now : Z) (d : fields) (l : list json) :
  wraps d l ->
  split_conversations_by_time now (Document (JDict d))
  = split_conversations_by_time now (Document (JList l)).
Proof.
  intros H.
  assert (Hs : select_conversations (JDict d) = Some (JList l)).
  { unfold select_conversations.
    destruct H as [Hc | [(Hc & Hi) | (Hc & Hi & Hf)]].
    - now rewrite Hc.
    - now rewrite Hc, Hi.
    - rewrite Hc, Hi. f_equal. now apply first_sequence_filter. }
  unfold split_conversations_by_time. rewrite Hs. reflexivity.
Qed.

(** In a completed run every record was classified and minimised. *)
Lemma completed_records (now : Z) (data conversations : json) (convs : list json)
      (written : list file) :
  split_conversations_by_time now (Document data) = Completed written ->
  select_conversations data = Some conversations ->
  py_iter conversations = Ok convs ->
  forall c, In c convs ->
    exists b m, classify now c = Ok b /\ minimize_conv c = Ok m /\ In m (output_of written b).
Proof.
  intros H Hsel Hit c Hin.
  apply completed_stages in H as (cv' & convs' & bs & Hsel' & Hit' & Hs & Hw).
  rewrite Hsel in Hsel'; inversion Hsel'; subst cv'.
  rewrite Hit in Hit'; inversion Hit'; subst convs'.
  pose proof (sort_into_buckets_classified _ _ _ _ Hs) as Hc.
  rewrite Forall_forall in Hc. destruct (Hc c Hin) as [b Hb].
  assert (Hcb : In c (bucket_get bs b)).
  { rewrite (sort_into_buckets_filter _ _ _ _ Hs b), bucket_get_nil_aux.
    apply filter_In. split; [exact Hin|]. unfold assigned. rewrite Hb.
    now apply bucket_eqb_eq. }
  pose proof (save_buckets_output _ _ Hw b) as Ho. apply map_result_Forall2 in Ho.
  destruct (Forall2_In_l _ _ _ _ Ho Hcb) as (m & Hm & Hmin).
  exists b, m. auto.
Qed.

Lemma save_buckets_nonempty (items : list (bucket * list json)) (w0 w : list file) :
  save_buckets items w0 = Completed w ->
  Forall (fun f => snd f <> []) w0 -> Forall (fun f => snd f <> []) w.
Proof.
  revert w0; induction items as [|[b cs] items IH]; intros w0 H Hw0; simpl in H.
  - now inversion H; subst.
  - destruct cs as [|c cs]; [now apply (IH w0)|].
    destruct (map_result minimize_conv (c :: cs)) as [minimal|] eqn:E; [|discriminate].
    destruct (forallb encodable minimal); [|discriminate].
    apply (IH _ H). apply Forall_app. split; [exact Hw0|].
    constructor; [|constructor]. simpl.
    simpl in E. apply bind_Ok in E as (y & _ & E). apply bind_Ok in E as (ys & _ & E).
    inversion E. discriminate.
Qed.

(** X2.  A completed run writes at most four files, in the order of the
    buckets and without repeating one; no written file is empty; and no file
    at all is written exactly when the document holds no record. *)
Theorem written_files_shape (now : Z) (data conversations : json) (convs : list json)
        (written : list file) :
  split_conversations_by_time now (Document data) = Completed written ->
  select_conversations data = Some conversations ->
  py_iter conversations = Ok convs ->
  subsequence (map fst written) bucket_order /\
  NoDup (map fst written) /\
  (List.length written <= 4)%nat /\
  Forall (fun f => snd f <> []) written /\
  (written = [] <-> convs = []).
Proof.
  intros H Hsel Hit.
  pose proof (completed_records _ _ _ _ _ H Hsel Hit) as Hrec.
  apply completed_stages in H as (cv' & convs' & bs & Hsel' & Hit' & Hs & Hw).
  rewrite Hsel in Hsel'; inversion Hsel'; subst cv'.
  rewrite Hit in Hit'; inversion Hit'; subst convs'.
  pose proof (save_buckets_names _ _ Hw) as Hn.
  split; [rewrite Hn; apply filter_subsequence|].
  split; [rewrite Hn; apply NoDup_filter; repeat constructor; simpl; intuition discriminate|].
  split.
  { replace (List.length written) with (List.length (map fst written)) by apply length_map.
    rewrite Hn. apply (filter_length_le _ bucket_order). }
  split; [apply (save_buckets_nonempty _ _ _ Hw); constructor|].
  split.
  - intros ->. destruct convs as [|c convs]; [reflexivity|].
    destruct (Hrec c (or_introl eq_refl)) as (b & m & _ & _ & Hm). destruct Hm.
  - intros ->. simpl in Hs. inversion Hs; subst bs. simpl in Hw. now inversion Hw.
Qed.

Lemma sort_into_buckets_raises (now : Z) (pre post : list json) (c : json) (e : exn)
      (bs : buckets) :
  forallb (classifies now) pre = true ->
  classify now c = Raise e ->
  sort_into_buckets now (pre ++ c :: post) bs = Raise e.
Proof.
  revert bs; induction pre as [|c0 pre IH]; intros bs Hpre Hc; simpl.
  - now rewrite Hc.
  - simpl in Hpre. apply andb_true_iff in Hpre as [H0 Hpre].
    unfold classifies in H0. destruct (classify now c0) as [b0|]; [|discriminate].
    cbn [bind]. now apply IH.
Qed.

(** X3.  When a record cannot be classified, the run ends with the exception
    of the first such record and writes no file, whatever the records before
    and after it are. *)
Theorem unclassifiable_record_stops_run (now : Z) (pre post : list json) (c : json) (e : exn) :
  forallb (classifies now) pre = true ->
  classify now c = Raise e ->
  split_conversations_by_time now (Document (JList (pre ++ c :: post))) = Crashed e [].
Proof.
  intros Hpre Hc. unfold split_conversations_by_time. cbn [select_conversations py_iter].
  now rewrite (sort_into_buckets_raises _ _ _ _ _ _ Hpre Hc).
Qed.

Ltac crashed_at b E :=
  let H := fresh "H" in
  let Hlt := fresh "Hlt" in
  intros H; inversion H; subst; clear H; exists b;
  split; [exact E|]; split; [reflexivity|];
  intros [];
  cbn [bucket_rank bucket_get last_3_months months_3_6 months_6_12 older
       output_of bucket_eqb app];
  intros Hlt; try (exfalso; lia); try assumption; try reflexivity.

(** X4.  When minimising a bucket raises, the files of the non-empty buckets
    that come before it have been written, with their full minimised
    content, and nothing else has. *)
Theorem crash_keeps_earlier_files (bs : buckets) (e : exn) (written : list file) :
  save_buckets (bucket_items bs) [] = Crashed e written ->
  exists b,
    map_result minimize_conv (bucket_get bs b) = Raise e /\
    map fst written
    = filter (fun b' => (bucket_rank b' <? bucket_rank b)%nat && nonempty (bucket_get bs b'))
             bucket_order /\
    forall b', (bucket_rank b' < bucket_rank b)%nat ->
      map_result minimize_conv (bucket_get bs b') = Ok (output_of written b').
Proof.
  destruct bs as [l1 l2 l3 l4]. unfold bucket_items; simpl.
  destruct l1 as [|c1 l1];
    [|destruct (map_result minimize_conv (c1 :: l1)) as [m1|] eqn:E1;
      [destruct (forallb encodable m1); [|discriminate] | crashed_at Last3Months E1]];
  (destruct l2 as [|c2 l2];
    [|destruct (map_result minimize_conv (c2 :: l2)) as [m2|] eqn:E2;
      [destruct (forallb encodable m2); [|discriminate] | crashed_at Months3To6 E2]]);
  (destruct l3 as [|c3 l3];
    [|destruct (map_result minimize_conv (c3 :: l3)) as [m3|] eqn:E3;
      [destruct (forallb encodable m3); [|discriminate] | crashed_at Months6To12 E3]]);
  (destruct l4 as [|c4 l4];
    [discriminate
    |destruct (map_result minimize_conv (c4 :: l4)) as [m4|] eqn:E4;
      [destruct (forallb encodable m4); discriminate | crashed_at Older E4]]).
Qed.

Ltac failed_at E F :=
  let H := fresh "H" in
  let Hlt := fresh "Hlt" in
  intros H; inversion H; subst; clear H;
  split; [eexists; split; [exact E | exact F]|]; split; [reflexivity|];
  intros [];
  cbn [bucket_rank bucket_get last_3_months months_3_6 months_6_12 older
       output_of bucket_eqb app];
  intros Hlt; try (exfalso; lia); split; try assumption; try reflexivity.

(** X25.  When [json.dump] raises on the file of a bucket, the records of
    that bucket were all minimised and one of them cannot be written; the
    files of the non-empty buckets that come before it have been written in
    full, and no later bucket has been looked at. *)
Theorem write_failure_keeps_earlier_files (bs : buckets) (name : bucket)
        (written : list file) :
  save_buckets (bucket_items bs) [] = CrashedWriting name written ->
  (exists minimal,
     map_result minimize_conv (bucket_get bs name) = Ok minimal /\
     forallb encodable minimal = false) /\
  map fst written
  = filter (fun b' => (bucket_rank b' <? bucket_rank name)%nat && nonempty (bucket_get bs b'))
           bucket_order /\
  forall b', (bucket_rank b' < bucket_rank name)%nat ->
    map_result minimize_conv (bucket_get bs b') = Ok (output_of written b') /\
    forallb encodable (output_of written b') = true.
Proof.
  destruct bs as [l1 l2 l3 l4]. unfold bucket_items; simpl.
  destruct l1 as [|c1 l1];
    [|destruct (map_result minimize_conv (c1 :: l1)) as [m1|] eqn:E1;
      [destruct (forallb encodable m1) eqn:F1; [|failed_at E1 F1] | discriminate]];
  (destruct l2 as [|c2 l2];
    [|destruct (map_result minimize_conv (c2 :: l2)) as [m2|] eqn:E2;
      [destruct (forallb encodable m2) eqn:F2; [|failed_at E2 F2] | discriminate]]);
  (destruct l3 as [|c3 l3];
    [|destruct (map_result minimize_conv (c3 :: l3)) as [m3|] eqn:E3;
      [destruct (forallb encodable m3) eqn:F3; [|failed_at E3 F3] | discriminate]]);
  (destruct l4 as [|c4 l4];
    [discriminate
    |destruct (map_result minimize_conv (c4 :: l4)) as [m4|] eqn:E4;
      [destruct (forallb encodable m4) eqn:F4; [discriminate | failed_at E4 F4]
      | discriminate]]).
Qed.

Lemma minimize_conv_not_dict (c : json) :
  is_dict c = false -> exists e, minimize_conv c = Raise e.
Proof.
  unfold minimize_conv, extract_messages.
  destruct c as [| | | |s|l|d]; intros H; try discriminate;
    cbn [py_in bind]; eauto.
  - destruct (contains "mapping" s); cbn [py_getitem bind]; eauto.
    destruct (contains "messages" s); cbn [py_getitem bind]; eauto.
    destruct (contains "items" s); cbn [py_getitem bind]; eauto.
    unfold raw_timestamp; cbn [py_get bind]; eauto.
  - destruct (existsb (is_str_eq "mapping") l); cbn [py_getitem bind]; eauto.
    destruct (existsb (is_str_eq "messages") l); cbn [py_getitem bind]; eauto.
    destruct (existsb (is_str_eq "items") l); cbn [py_getitem bind]; eauto.
    unfold raw_timestamp; cbn [py_get bind]; eauto.
Qed.

(** X5.  A run whose sequence holds a record that is not a mapping never
    completes. *)
Theorem non_mapping_record_never_completes (now : Z) (data conversations : json)
        (convs : list json) (c : json) :
  select_conversations data = Some conversations ->
  py_iter conversations = Ok convs ->
  In c convs ->
  is_dict c = false ->
  forall written, split_conversations_by_time now (Document data) <> Completed written.
Proof.
  intros Hsel Hit Hin Hd written H.
  destruct (completed_records _ _ _ _ _ H Hsel Hit c Hin) as (b & m & _ & Hm & _).
  destruct (minimize_conv_not_dict _ Hd) as [e He]. congruence.
Qed.

(** *** Bucketing *)

Lemma bucket_of_monotone (now now' d d' : Z) :
  now <= now' -> d' <= d ->
  (bucket_rank (bucket_of now d) <= bucket_rank (bucket_of now' d'))%nat.
Proof.
  intros Hn Hd. unfold bucket_of, timedelta_days, US_PER_DAY, US_PER_SECOND.
  repeat match goal with
         | |- context [?a >=? ?b] => destruct (Z.geb_spec a b)
         end; simpl; lia.
Qed.

(** X7.  Of two resolved records the one with the earlier timestamp is never
    in a more recent bucket than the other; and as the clock advances a
    record only moves towards [older]. *)
Theorem older_record_older_bucket (now now' : Z) (c c' : json) (d d' : Z) :
  resolve c = Ok (Some d) ->
  resolve c' = Ok (Some d') ->
  now <= now' ->
  d' <= d ->
  exists b b',
    classify now c = Ok b /\ classify now' c' = Ok b' /\
    (bucket_rank b <= bucket_rank b')%nat.
Proof.
  intros Hr Hr' Hn Hd.
  exists (bucket_of now d), (bucket_of now' d').
  rewrite (classify_resolved _ _ _ Hr), (classify_resolved _ _ _ Hr').
  repeat split. now apply bucket_of_monotone.
Qed.

(** X8.  The bucket of a resolved record depends only on its age, the
    distance from its timestamp to the clock reading; a timestamp that is not
    in the past (age zero or negative) gives [last-3-months]. *)
Theorem bucket_depends_on_age (now now' : Z) (c c' : json) (d d' : Z) :
  resolve c = Ok (Some d) ->
  resolve c' = Ok (Some d') ->
  (now - d = now' - d' -> classify now c = classify now' c') /\
  (now <= d -> classify now c = Ok Last3Months).
Proof.
  intros Hr Hr'.
  rewrite (classify_resolved _ _ _ Hr), (classify_resolved _ _ _ Hr').
  unfold bucket_of, timedelta_days, US_PER_DAY, US_PER_SECOND. split; intros H.
  - f_equal.
    repeat match goal with
           | |- context [?a >=? ?b] => destruct (Z.geb_spec a b)
           end; try reflexivity; lia.
  - destruct (Z.geb_spec d (now - 90 * (86400 * 1000000))); [reflexivity | lia].
Qed.

(** *** Looking for the timestamp *)

Lemma first_present_found (fs : list string) (d : fields) (k : string) (v ts : json) :
  first_present_is fs d k v -> first_present fs (JDict d) ts = Ok v.
Proof.
  intros (pre & post & -> & Hpre & Hl).
  induction pre as [|k' pre IH]; simpl app; cbn [first_present py_in py_getitem bind].
  - unfold has_key. now rewrite Hl.
  - simpl in Hpre. apply andb_true_iff in Hpre as [Hk Hpre].
    apply negb_true_iff in Hk. rewrite Hk. now apply IH.
Qed.

Lemma find_timestamp_truthy (d : fields) (k : string) (v : json) :
  first_present_is top_level_fields d k v -> truthy v = true ->
  find_timestamp (JDict d) = Ok v.
Proof.
  intros Hf Hv. unfold find_timestamp.
  rewrite (first_present_found _ _ _ _ JNull Hf). cbn [bind]. now rewrite Hv.
Qed.

(** X9.  A record whose first recognised top-level field holds a non-zero
    integer [n] of at most [10^12], within the years 1 to 9999 as seconds, is
    resolved to [n] seconds after the epoch and bucketed by that instant,
    whatever its later fields and its [metadata] hold. *)
Theorem seconds_record_bucket (now : Z) (d : fields) (k : string) (n : Z) :
  first_present_is top_level_fields d k (JInt n) ->
  n <> 0 ->
  n <= 10 ^ 12 ->
  MIN_SECONDS <= n <= MAX_SECONDS ->
  resolve (JDict d) = Ok (Some (n * US_PER_SECOND)) /\
  classify now (JDict d) = Ok (bucket_of now (n * US_PER_SECOND)).
Proof.
  intros Hf Hn0 Hn Hr.
  assert (Ht : truthy (JInt n) = true) by (simpl; now apply negb_true_iff, Z.eqb_neq).
  assert (Hres : resolve (JDict d) = Ok (Some (n * US_PER_SECOND))).
  { unfold resolve. rewrite (find_timestamp_truthy _ _ _ Hf Ht). cbn [bind].
    rewrite Ht. cbn [negb]. rewrite (parse_timestamp_seconds _ Hr). cbn [bind].
    unfold to_utc; cbn [utcoffset wall]. rewrite Z.sub_0_r.
    now rewrite (seconds_in_range _ Hr). }
  split; [exact Hres | now apply classify_resolved].
Qed.

(** X10.  The first recognised top-level field that is present is the only
    one looked at: when its value is falsy and the record has no [metadata],
    the record goes to [older], even if a later recognised field holds a
    valid timestamp. *)
Theorem falsy_first_field_masks_later (now : Z) (d : fields) (k : string) (v : json) :
  first_present_is top_level_fields d k v ->
  truthy v = false ->
  lookup "metadata" d = None ->
  resolve (JDict d) = Ok None /\ classify now (JDict d) = Ok Older.
Proof.
  intros Hf Hv Hm.
  assert (Hres : resolve (JDict d) = Ok None).
  { unfold resolve, find_timestamp.
    rewrite (first_present_found _ _ _ _ JNull Hf). cbn [bind]. rewrite Hv.
    cbn [py_in bind]. unfold has_key. rewrite Hm. cbn [bind]. now rewrite Hv. }
  split; [exact Hres|]. unfold classify. now rewrite Hres.
Qed.

(** X11.  When no recognised top-level field holds a truthy value and
    [metadata] is a mapping, the value of the first recognised field present
    under [metadata] is taken, and the record is resolved exactly as a record
    holding that value under a top-level [create_time]. *)
Theorem metadata_timestamp_as_top_level (d md : fields) (k : string) (v : json) :
  forallb (absent_or_falsy d) top_level_fields = true ->
  lookup "metadata" d = Some (JDict md) ->
  first_present_is metadata_fields md k v ->
  find_timestamp (JDict d) = Ok v /\
  resolve (JDict d) = resolve (JDict [("create_time", v)]).
Proof.
  intros Htop Hm Hf.
  assert (Hfind : find_timestamp (JDict d) = Ok v).
  { unfold find_timestamp.
    destruct (first_present_absent _ _ JNull Htop) as (v0 & Hv0 & Hor).
    rewrite Hv0. cbn [bind].
    assert (Hv0f : truthy v0 = false) by (destruct Hor as [->|]; auto).
    rewrite Hv0f. cbn [py_in py_getitem bind]. unfold has_key. rewrite Hm. cbn [bind].
    exact (first_present_found _ _ _ _ v0 Hf). }
  split; [exact Hfind|].
  assert (Hfind' : find_timestamp (JDict [("create_time", v)]) = Ok v).
  { unfold find_timestamp. cbn. now destruct (truthy v). }
  unfold resolve. now rewrite Hfind, Hfind'.
Qed.

(** X23.  A record with no truthy value under any recognised timestamp
    field, at top level or under a [metadata] that can be searched, is
    resolved to nothing and appended to the [older] bucket, whatever [now]
    is; the other three buckets are left as they were. *)
Theorem undated_record_appended_to_older (now : Z) (d : fields) (bs : buckets) :
  no_timestamp d = true ->
  resolve (JDict d) = Ok None /\
  classify now (JDict d) = Ok Older /\
  exists bs',
    sort_into_buckets now [JDict d] bs = Ok bs' /\
    older bs' = older bs ++ [JDict d] /\
    last_3_months bs' = last_3_months bs /\
    months_3_6 bs' = months_3_6 bs /\
    months_6_12 bs' = months_6_12 bs.
Proof.
  intros H. pose proof (no_timestamp_resolve _ H) as Hr.
  assert (Hc : classify now (JDict d) = Ok Older) by (unfold classify; now rewrite Hr).
  split; [exact Hr|]. split; [exact Hc|].
  exists (bucket_append bs Older (JDict d)).
  cbn [sort_into_buckets]. rewrite Hc. cbn [bind bucket_append older last_3_months
                                            months_3_6 months_6_12].
  repeat split; reflexivity.
Qed.

(** X12.  Whatever is parsed out of a timestamp value is timezone-aware, so
    that the normalisation always goes through the conversion to UTC: the
    instant is the wall-clock reading minus the offset, and the conversion
    raises when that leaves the range of [datetime]. *)
Theorem parsed_timestamp_is_aware (ts : json) (dt : datetime) :
  parse_timestamp ts = Ok (Some dt) ->
  exists off,
    utcoffset dt = Some off /\
    to_utc dt = if in_datetime_range (wall dt - off) then Ok (wall dt - off)
                else Raise RangeError.
Proof.
  intros H.
  assert (Ha : exists off, utcoffset dt = Some off).
  { unfold parse_timestamp in H. destruct (is_number ts) eqn:En.
    - apply bind_Ok in H as (dt' & Hp & H). inversion H; subst.
      apply parse_number_utc in Hp as [Ho _]. eauto.
    - destruct ts as [| | | |s| |]; try discriminate.
      inversion H as [Hs]; clear H. unfold parse_string in Hs.
      destruct (fromisoformat (replace_Z s)) as [dt0|].
      + inversion Hs; subst. destruct (utcoffset dt0) eqn:E; simpl; eauto.
      + clear En. induction strptime_formats as [|fmt fmts IH]; simpl in Hs; [discriminate|].
        destruct (strptime s fmt); [inversion Hs; subst; simpl; eauto | now apply IH]. }
  destruct Ha as [off Ho]. exists off. split; [exact Ho|].
  unfold to_utc. now rewrite Ho.
Qed.

Lemma truthy_nonempty_string (s : string) : s <> "" -> truthy (JStr s) = true.
Proof.
  intros H. simpl. apply negb_true_iff. now apply String.eqb_neq.
Qed.

(** X13.  A record whose first recognised top-level field holds a non-empty
    string that [fromisoformat] accepts (once every [Z] is replaced by
    [+00:00]) is resolved to the wall-clock reading minus the offset of the
    parsed value, the offset being zero for a value without timezone;
    [strptime] plays no part. *)
Theorem iso_string_record (d : fields) (k s : string) (dt : datetime) :
  first_present_is top_level_fields d k (JStr s) ->
  s <> "" ->
  fromisoformat (replace_Z s) = Some dt ->
  in_datetime_range (wall dt - match utcoffset dt with Some off => off | None => 0 end) = true ->
  resolve (JDict d)
  = Ok (Some (wall dt - match utcoffset dt with Some off => off | None => 0 end)).
Proof.
  intros Hf Hs Hiso Hr.
  pose proof (truthy_nonempty_string _ Hs) as Ht.
  unfold resolve. rewrite (find_timestamp_truthy _ _ _ Hf Ht). cbn [bind].
  rewrite Ht. cbn [negb]. unfold parse_timestamp; cbn [is_number bind].
  unfold parse_string. rewrite Hiso. unfold to_utc.
  destruct (utcoffset dt) as [off|] eqn:Eo; cbn [bind].
  - rewrite Eo, Hr. reflexivity.
  - cbn [replace_tzinfo_utc utcoffset wall]. now rewrite Hr.
Qed.

Lemma try_formats_none (fmts : list string) (s : string) :
  forallb (fun fmt => match strptime s fmt with None => true | Some _ => false end) fmts = true ->
  try_formats fmts s = None.
Proof.
  induction fmts as [|fmt fmts IH]; simpl; [reflexivity|].
  intros H. apply andb_true_iff in H as [H1 H2].
  destruct (strptime s fmt); [discriminate | now apply IH].
Qed.

(** X14.  A record whose first recognised top-level field holds a non-empty
    string that neither [fromisoformat] nor [strptime] with any of the three
    formats accepts goes to [older]; nothing is raised. *)
Theorem unparsed_string_goes_to_older (now : Z) (d : fields) (k s : string) :
  first_present_is top_level_fields d k (JStr s) ->
  s <> "" ->
  fromisoformat (replace_Z s) = None ->
  forallb (fun fmt => match strptime s fmt with None => true | Some _ => false end)
          strptime_formats = true ->
  resolve (JDict d) = Ok None /\ classify now (JDict d) = Ok Older.
Proof.
  intros Hf Hs Hiso Hfmt.
  pose proof (truthy_nonempty_string _ Hs) as Ht.
  assert (Hres : resolve (JDict d) = Ok None).
  { unfold resolve. rewrite (find_timestamp_truthy _ _ _ Hf Ht). cbn [bind].
    rewrite Ht. cbn [negb]. unfold parse_timestamp; cbn [is_number bind].
    unfold parse_string. rewrite Hiso. now rewrite (try_formats_none _ _ Hfmt). }
  split; [exact Hres|]. unfold classify. now rewrite Hres.
Qed.

Lemma try_formats_first (pre post : list string) (fmt s : string) (dt : datetime) :
  forallb (fun fmt => match strptime s fmt with None => true | Some _ => false end) pre = true ->
  strptime s fmt = Some dt ->
  try_formats (pre ++ fmt :: post) s = Some (replace_tzinfo_utc dt).
Proof.
  induction pre as [|f pre IH]; simpl; intros Hpre Hfmt.
  - now rewrite Hfmt.
  - apply andb_true_iff in Hpre as [H1 H2].
    destruct (strptime s f); [discriminate | now apply IH].
Qed.

(** X15.  When [fromisoformat] rejects the string, the three [strptime]
    formats are tried in order on the original string and the first that
    accepts it decides: the record is resolved to the wall-clock reading of
    that parse, taken as UTC. *)
Theorem strptime_fallback_record (d : fields) (k s fmt : string) (pre post : list string)
        (dt : datetime) :
  first_present_is top_level_fields d k (JStr s) ->
  s <> "" ->
  fromisoformat (replace_Z s) = None ->
  strptime_formats = pre ++ fmt :: post ->
  forallb (fun fmt => match strptime s fmt with None => true | Some _ => false end) pre = true ->
  strptime s fmt = Some dt ->
  in_datetime_range (wall dt) = true ->
  resolve (JDict d) = Ok (Some (wall dt)).
Proof.
  intros Hf Hs Hiso Hsplit Hpre Hfmt Hr.
  pose proof (truthy_nonempty_string _ Hs) as Ht.
  unfold resolve. rewrite (find_timestamp_truthy _ _ _ Hf Ht). cbn [bind].
  rewrite Ht. cbn [negb]. unfold parse_timestamp; cbn [is_number bind].
  unfold parse_string. rewrite Hiso, Hsplit, (try_formats_first _ _ _ _ _ Hpre Hfmt).
  unfold to_utc; cbn [replace_tzinfo_utc utcoffset wall bind].
  now rewrite Z.sub_0_r, Hr.
Qed.

(** X16.  A record whose first recognised top-level field holds a float that
    is not finite (NaN or an infinity) cannot be classified: the conversion
    raises. *)
Theorem non_finite_float_raises (now : Z) (d : fields) (k : string) (f : spec_float) :
  first_present_is top_level_fields d k (JFloat f) ->
  (f = S754_nan \/ exists sign, f = S754_infinity sign) ->
  resolve (JDict d) = Raise RangeError /\ classify now (JDict d) = Raise RangeError.
Proof.
  intros Hf Hnf.
  assert (Ht : truthy (JFloat f) = true) by (destruct Hnf as [->|[sign ->]]; reflexivity).
  assert (Hp : parse_timestamp (JFloat f) = Raise RangeError).
  { destruct Hnf as [->|[[] ->]]; reflexivity. }
  assert (Hres : resolve (JDict d) = Raise RangeError).
  { unfold resolve. rewrite (find_timestamp_truthy _ _ _ Hf Ht). cbn [bind].
    rewrite Ht. cbn [negb]. now rewrite Hp. }
  split; [exact Hres|]. unfold classify. now rewrite Hres.
Qed.

(** *** The minimiser *)

Lemma take_length_le (n : nat) (s : string) : (String.length (take n s) <= n)%nat.
Proof.
  revert s; induction n as [|n IH]; intros [|c s]; simpl; try lia.
  apply le_n_S, IH.
Qed.

(** X17.  No minimised message has a content of more than 5000 characters
    and no minimised title has more than 100; a source content of at most
    5000 characters is the content of its message, unchanged, and a title
    text of at most 100 characters is kept whole. *)
Theorem minimized_lengths_bounded (conv : json) (out : minimized) :
  minimize_conv conv = Ok out ->
  (forall m, In m (messages out) -> (String.length (content m) <= 5000)%nat) /\
  (String.length (title out) <= 100)%nat /\
  (exists srcs,
     message_sources conv = Ok srcs /\
     Forall2 (fun m src => (String.length src <= 5000)%nat -> content m = src)
             (messages out) (somes srcs)) /\
  (forall t, py_get conv "title" (JStr "") = Ok t ->
     (String.length (py_str t) <= 100)%nat -> title out = py_str t).
Proof.
  unfold minimize_conv. intros H.
  apply bind_Ok in H as (ms & Hms & H).
  apply bind_Ok in H as (ts & _ & H).
  apply bind_Ok in H as (t & Ht & H).
  assert (Hout : out = mk_minimized ms ts (take 100 (py_str t))) by congruence.
  subst out; clear H. cbn [messages title].
  destruct (extract_messages_cut _ _ Hms) as (srcs & Hsrcs & Hf).
  split; [|split; [|split]].
  - intros m Hin.
    destruct (Forall2_In_l _ _ _ _ Hf Hin) as (src & _ & ->).
    apply take_length_le.
  - apply take_length_le.
  - exists srcs. split; [exact Hsrcs|].
    eapply Forall2_impl; [|exact Hf]. cbv beta.
    intros m src -> Hlen. now apply take_short.
  - intros t' Ht' Hlen. rewrite Ht in Ht'. inversion Ht'; subst t'.
    now apply take_short.
Qed.

Lemma collect_kept (body : json -> result (option message)) (xs : list json)
      (ms : list message) :
  collect body xs = Ok ms ->
  exists kept,
    subsequence kept xs /\ Forall2 (fun x m => body x = Ok (Some m)) kept ms.
Proof.
  revert ms; induction xs as [|x xs IH]; simpl; intros ms H.
  - inversion H; subst. exists []. split; constructor.
  - apply bind_Ok in H as (o & Ho & H).
    apply bind_Ok in H as (ms' & Hms & H). inversion H; subst; clear H.
    destruct (IH _ Hms) as (kept & Hsub & Hf).
    destruct o as [m|].
    + exists (x :: kept). split; [now apply subseq_keep | now constructor].
    + exists kept. split; [now apply subseq_skip | exact Hf].
Qed.

Lemma subsequence_length {A : Type} (xs ys : list A) :
  subsequence xs ys -> (List.length xs <= List.length ys)%nat.
Proof. induction 1; simpl; lia. Qed.

(** X18.  The messages of a record come from the elements of the field that
    is read, at most one message for an element and in the order of the
    elements: they are the messages of a subsequence of the nodes of
    [mapping], of the entries of [messages], or of the elements of [items]. *)
Theorem messages_follow_source_order (d : fields) (ms : list message) :
  extract_messages (JDict d) = Ok ms ->
  (forall nodes, lookup "mapping" d = Some (JDict nodes) ->
     exists kept, subsequence kept (map snd nodes) /\
                  Forall2 (fun x m => mapping_node x = Ok (Some m)) kept ms /\
                  (List.length ms <= List.length nodes)%nat) /\
  (forall msgs, lookup "mapping" d = None -> lookup "messages" d = Some (JList msgs) ->
     exists kept, subsequence kept msgs /\
                  Forall2 (fun x m => messages_entry x = Ok (Some m)) kept ms /\
                  (List.length ms <= List.length msgs)%nat) /\
  (forall v items, lookup "mapping" d = None -> lookup "messages" d = None ->
     lookup "items" d = Some v -> py_iter v = Ok items ->
     exists kept, subsequence kept items /\
                  Forall2 (fun x m => items_entry x = Ok (Some m)) kept ms /\
                  (List.length ms <= List.length items)%nat).
Proof.
  unfold extract_messages. cbn [py_in py_getitem bind]. unfold has_key. intros H.
  split; [|split].
  - intros nodes Hm. rewrite Hm in H. cbn [bind] in H.
    destruct (collect_kept _ _ _ H) as (kept & Hsub & Hf).
    exists kept. repeat split; auto.
    rewrite <- (Forall2_length Hf), <- (length_map snd nodes).
    now apply subsequence_length.
  - intros msgs Hm Hs. rewrite Hm, Hs in H. cbn [bind] in H.
    destruct (collect_kept _ _ _ H) as (kept & Hsub & Hf).
    exists kept. repeat split; auto.
    rewrite <- (Forall2_length Hf). now apply subsequence_length.
  - intros v items Hm Hs Hi Hit. rewrite Hm, Hs, Hi in H. cbn [bind] in H.
    rewrite Hit in H. cbn [bind] in H.
    destruct (collect_kept _ _ _ H) as (kept & Hsub & Hf).
    exists kept. repeat split; auto.
    rewrite <- (Forall2_length Hf). now apply subsequence_length.
Qed.

(** X19.  The timestamp written for a record looks at [create_time],
    [created_at] and [timestamp] only: a record holding none of the three
    gets a null timestamp, also when it was bucketed by another recognised
    field or by its [metadata]. *)
Theorem other_fields_leave_timestamp_null (d : fields) (out : minimized) :
  lookup "create_time" d = None ->
  lookup "created_at" d = None ->
  lookup "timestamp" d = None ->
  minimize_conv (JDict d) = Ok out ->
  timestamp out = JNull.
Proof.
  intros H1 H2 H3 H. apply minimize_conv_timestamp in H.
  rewrite raw_timestamp_dict in H. unfold get_or_null in H.
  rewrite H1, H2, H3 in H. simpl in H. now inversion H.
Qed.

Lemma mapping_node_stripped (node : json) (m : message) :
  mapping_node node = Ok (Some m) ->
  exists src, content m = take 5000 src /\ strip src <> "".
Proof.
  unfold mapping_node. intros H.
  apply bind_Ok in H as (message & Hm & H).
  destruct (truthy message); [|discriminate].
  apply bind_Ok in H as (oc & Hoc & H).
  destruct oc as [src|]; [|discriminate].
  destruct (strip src =? "")%string eqn:E; [discriminate|].
  apply bind_Ok in H as (author & _ & H).
  apply bind_Ok in H as (r & _ & H).
  inversion H; subst; clear H. exists src. split; [reflexivity|].
  now apply String.eqb_neq.
Qed.

Lemma mapping_node_blank (node msg : json) (src : string) (o : option message) :
  mapping_node node = Ok o ->
  py_get node "message" JNull = Ok msg ->
  node_content msg = Ok (Some src) ->
  strip src = "" ->
  o = None.
Proof.
  unfold mapping_node. intros H Hm Hc Hs. rewrite Hm in H. cbn [bind] in H.
  destruct (truthy msg); [|congruence].
  rewrite Hc in H. cbn [bind] in H. rewrite Hs in H. cbn [String.eqb] in H. congruence.
Qed.

Lemma map_result_Forall2_with {A B : Type} (f : A -> result B) (P : A -> B -> Prop)
      (xs : list A) (ys : list B) :
  (forall x y, f x = Ok y -> P x y) ->
  map_result f xs = Ok ys -> Forall2 (fun x y => f x = Ok y /\ P x y) xs ys.
Proof.
  intros HP H. apply map_result_Forall2 in H.
  eapply Forall2_impl; [|exact H]. cbv beta. auto.
Qed.

(** X20.  A node of [mapping] whose joined parts are blank (nothing is left
    once white space is stripped) yields no message: the messages are those
    of the other nodes, in order, and none of them has an empty content. *)
Theorem mapping_messages_not_empty (d nodes : fields) (ms : list message) :
  lookup "mapping" d = Some (JDict nodes) ->
  extract_messages (JDict d) = Ok ms ->
  (forall m, In m ms -> content m <> "") /\
  exists os,
    ms = somes os /\
    Forall2 (fun node o =>
               mapping_node node = Ok o /\
               forall msg src,
                 py_get node "message" JNull = Ok msg ->
                 node_content msg = Ok (Some src) ->
                 strip src = "" ->
                 o = None)
            (map snd nodes) os.
Proof.
  unfold extract_messages. cbn [py_in py_getitem bind]. unfold has_key.
  intros Hm H. rewrite Hm in H. cbn [bind] in H. split.
  - intros m Hin.
    destruct (collect_In _ _ _ _ H Hin) as (node & _ & Hb).
    apply mapping_node_stripped in Hb as (src & -> & Hs).
    destruct src as [|c src]; [now elim Hs | discriminate].
  - apply collect_somes in H as (os & Hos & ->). exists os. split; [reflexivity|].
    apply map_result_Forall2_with; [|exact Hos].
    intros node o Ho msg src. now apply mapping_node_blank.
Qed.

Lemma collect_entry_not_dict (msgs : list json) :
  forallb is_dict msgs = false -> collect messages_entry msgs = Raise AttributeError.
Proof.
  induction msgs as [|msg msgs IH]; simpl; [discriminate|].
  destruct (is_dict msg) eqn:E; simpl; intros H.
  - destruct (messages_entry_total _ E) as [o ->]. cbn [bind]. now rewrite (IH H).
  - destruct msg; try discriminate; reflexivity.
Qed.

(** X24.  For a record without [mapping] whose [messages] is a sequence,
    minimising succeeds exactly when every entry of the sequence is a
    mapping: an entry of any other kind (a bare string, a number, null)
    makes it raise [AttributeError]. *)
Theorem messages_entries_must_be_mappings (d : fields) (msgs : list json) :
  lookup "mapping" d = None ->
  lookup "messages" d = Some (JList msgs) ->
  (forallb is_dict msgs = true -> exists out, minimize_conv (JDict d) = Ok out) /\
  (forallb is_dict msgs = false -> minimize_conv (JDict d) = Raise AttributeError).
Proof.
  intros Hm Hs. split; intros H.
  - apply minimize_conv_total. unfold messages_ok. now rewrite Hm, Hs.
  - unfold minimize_conv, extract_messages. cbn [py_in py_getitem bind]. unfold has_key.
    rewrite Hm, Hs. cbn [bind]. now rewrite (collect_entry_not_dict _ H).
Qed.

(** *** Whole runs *)

(** The file of a bucket in a completed run. *)
Lemma completed_output (now : Z) (convs : list json) (written : list file) :
  split_conversations_by_time now (Document (JList convs)) = Completed written ->
  forall b,
    map_result minimize_conv (filter (assigned now b) convs) = Ok (output_of written b).
Proof.
  intros H b.
  apply completed_stages in H as (cv & convs' & bs & Hsel & Hit & Hs & Hw).
  cbn [select_conversations] in Hsel. inversion Hsel; subst cv.
  cbn [py_iter] in Hit. inversion Hit; subst convs'.
  rewrite <- (save_buckets_output _ _ Hw b).
  now rewrite (sort_into_buckets_filter _ _ _ _ Hs b), bucket_get_nil_aux.
Qed.

(** In a completed run every written record went through [json.dump]. *)
Lemma completed_encodable (now : Z) (data : json) (written : list file) :
  split_conversations_by_time now (Document data) = Completed written ->
  forall b m, In m (output_of written b) -> encodable m = true.
Proof.
  intros H b m Hin.
  apply completed_stages in H as (cv & convs & bs & _ & _ & _ & Hw).
  pose proof (save_buckets_encodable _ _ Hw b) as He.
  rewrite forallb_forall in He. now apply He.
Qed.

Lemma map_result_total_with {A B : Type} (f : A -> result B) (p : B -> bool) (xs : list A) :
  Forall (fun x => exists y, f x = Ok y /\ p y = true) xs ->
  exists ys, map_result f xs = Ok ys /\ forallb p ys = true.
Proof.
  induction 1 as [|x xs (y & Hy & Hp) _ (ys & Hys & Hps)]; simpl.
  - now exists [].
  - rewrite Hy, Hys. cbn [bind]. exists (y :: ys). simpl. now rewrite Hp, Hps.
Qed.

Lemma records_complete (now : Z) (convs : list json) :
  (forall c, In c convs ->
     (exists b, classify now c = Ok b) /\
     (exists m, minimize_conv c = Ok m /\ encodable m = true)) ->
  exists written, split_conversations_by_time now (Document (JList convs)) = Completed written.
Proof.
  intros Hrec. unfold split_conversations_by_time. cbn [select_conversations py_iter].
  destruct (sort_into_buckets_total now convs empty_buckets) as [bs Hbs].
  { apply Forall_forall. intros c Hc. now apply Hrec. }
  rewrite Hbs. apply save_buckets_total. intros b.
  apply map_result_total_with, Forall_forall. intros c Hc.
  rewrite (sort_into_buckets_filter _ _ _ _ Hbs b), bucket_get_nil_aux in Hc.
  apply filter_In in Hc as [Hc _]. now apply Hrec.
Qed.

(** X21.  A run on a sequence of records completes exactly when every record
    can be classified and minimised on its own and its minimised form can be
    written. *)
Theorem run_completes_iff (now : Z) (convs : list json) :
  (exists written, split_conversations_by_time now (Document (JList convs)) = Completed written)
  <->
  (forall c, In c convs ->
     (exists b, classify now c = Ok b) /\
     (exists m, minimize_conv c = Ok m /\ encodable m = true)).
Proof.
  split.
  - intros [written H] c Hin.
    destruct (completed_records _ _ _ _ _ H eq_refl eq_refl c Hin) as (b & m & Hb & Hm & Ho).
    pose proof (completed_encodable _ _ _ H b m Ho). eauto.
  - apply records_complete.
Qed.

Lemma map_result_app {A B : Type} (f : A -> result B) (xs ys : list A) (us vs : list B) :
  map_result f xs = Ok us -> map_result f ys = Ok vs ->
  map_result f (xs ++ ys) = Ok (us ++ vs).
Proof.
  revert us; induction xs as [|x xs IH]; simpl; intros us Hx Hy.
  - now inversion Hx; subst.
  - apply bind_Ok in Hx as (y & Hfy & Hx). apply bind_Ok in Hx as (us' & Hus & Hx).
    inversion Hx; subst. rewrite Hfy. cbn [bind]. now rewrite (IH _ Hus Hy).
Qed.

(** X22.  Splitting is compatible with concatenation: when the runs on two
    sequences complete, at the same clock reading, so does the run on their
    concatenation, and its file for every bucket is the file for the first
    sequence followed by the file for the second. *)
Theorem run_on_concatenation (now : Z) (convs1 convs2 : list json)
        (written1 written2 : list file) :
  split_conversations_by_time now (Document (JList convs1)) = Completed written1 ->
  split_conversations_by_time now (Document (JList convs2)) = Completed written2 ->
  exists written,
    split_conversations_by_time now (Document (JList (convs1 ++ convs2))) = Completed written /\
    forall b, output_of written b = output_of written1 b ++ output_of written2 b.
Proof.
  intros H1 H2.
  destruct (records_complete now (convs1 ++ convs2)) as [written H].
  { intros c Hin. apply in_app_or in Hin as [Hin|Hin].
    - destruct (completed_records _ _ _ _ _ H1 eq_refl eq_refl c Hin)
        as (b & m & Hb & Hm & Ho).
      pose proof (completed_encodable _ _ _ H1 b m Ho). eauto.
    - destruct (completed_records _ _ _ _ _ H2 eq_refl eq_refl c Hin)
        as (b & m & Hb & Hm & Ho).
      pose proof (completed_encodable _ _ _ H2 b m Ho). eauto. }
  exists written. split; [exact H|]. intros b.
  pose proof (completed_output _ _ _ H1 b) as O1.
  pose proof (completed_output _ _ _ H2 b) as O2.
  pose proof (completed_output _ _ _ H b) as O.
  rewrite filter_app, (map_result_app _ _ _ _ _ O1 O2) in O. now inversion O.
Qed.

End Script.

(** ** The properties on the sample data *)

Local Open Scope list_scope.

(** The sample document, whose records come under the key [export], is split
    into three files. *)
Example sample_run :
  split_conversations_by_time date_fromisoformat date_strptime simple_repr utf8_text
    sample_now (Document sample_document) = Completed sample_written.
Proof. vm_compute. reflexivity. Qed.

(** A record that [json.dump] cannot write ends the run while its file is
    being written; the files of the earlier buckets are complete. *)
Example write_failure_run :
  split_conversations_by_time date_fromisoformat date_strptime simple_repr
    (rejects_title "None") sample_now (Document sample_document)
  = CrashedWriting Older [(Last3Months, [hello_minimized]); (Months3To6, [dated_minimized])].
Proof. vm_compute. reflexivity. Qed.

(** An output directory that cannot be created, or an input that is not
    UTF-8 text, ends the run with the exception; a missing input is
    reported. *)
Example load_failures :
  split_conversations_by_time date_fromisoformat date_strptime simple_repr utf8_text
    sample_now (LoadRaised IOError) = Crashed IOError [] /\
  split_conversations_by_time date_fromisoformat date_strptime simple_repr utf8_text
    sample_now (LoadRaised UnicodeError) = Crashed UnicodeError [] /\
  split_conversations_by_time date_fromisoformat date_strptime simple_repr utf8_text
    sample_now FileNotFound = Aborted.
Proof. repeat split. Qed.

(** A millisecond timestamp of today is read as such. *)
Example milliseconds_today :
  parse_number (JInt 1700000000123) = Ok (mk_datetime 1700000000123000 (Some 0)).
Proof. vm_compute. reflexivity. Qed.

(** Far in the future the float quotient no longer carries the millisecond
    exactly. *)
Example milliseconds_year_5138 :
  parse_number (JInt (10 ^ 14 + 1)) = Ok (mk_datetime 100000000000001007 (Some 0)).
Proof. vm_compute. reflexivity. Qed.

(** Floats with half a second and half a millisecond. *)
Example float_timestamps :
  parse_number (JFloat half_past) = Ok (mk_datetime 1700000000500000 (Some 0)) /\
  parse_number (JFloat half_past_ms) = Ok (mk_datetime 1700000000123500 (Some 0)).
Proof. split; vm_compute; reflexivity. Qed.

(** On samples that cover small and large quotients, ties, subnormal results
    and overflow, the rounding is that of the Standard Library's [SFdiv] and
    [SFmul]. *)
Example rounding_agrees_with_SpecFloat :
  forallb agrees_on_int sample_ints = true /\
  forallb agrees_on_float sample_floats = true.
Proof. split; vm_compute; reflexivity. Qed.

(** [True] is a number for [isinstance] and reads as one second. *)
Example true_is_one_second :
  parse_number (JBool true) = Ok (mk_datetime US_PER_SECOND (Some 0)).
Proof. vm_compute. reflexivity. Qed.

(** One second past a boundary the record falls into the older bucket; on the
    boundary it stays in the more recent one. *)
Example around_the_boundaries :
  map (fun secs => classify date_fromisoformat date_strptime sample_now (aged_record secs))
      [90 * 86400; 90 * 86400 + 1; 180 * 86400; 180 * 86400 + 1; 365 * 86400; 365 * 86400 + 1]
  = [Ok Last3Months; Ok Months3To6; Ok Months3To6; Ok Months6To12; Ok Months6To12; Ok Older].
Proof. vm_compute. reflexivity. Qed.

(** The one-message record is cut to 5000 and 100 characters. *)
Example long_record_minimized :
  minimize_conv simple_repr long_record = Ok long_minimized.
Proof. vm_compute. reflexivity. Qed.

Lemma buckets_partition_input_witness :
  split_conversations_by_time date_fromisoformat date_strptime simple_repr utf8_text
    sample_now (Document sample_document) = Completed sample_written /\
  exists conversations convs bs,
    select_conversations sample_document = Some conversations /\
    py_iter conversations = Ok convs /\
    sort_into_buckets date_fromisoformat date_strptime sample_now convs empty_buckets = Ok bs /\
    (forall c, In c convs ->
       exists b, In c (bucket_get bs b) /\ forall b', In c (bucket_get bs b') -> b' = b) /\
    (forall b c, In c (bucket_get bs b) -> In c convs) /\
    Permutation (all_buckets bs) convs /\
    (forall b, Forall2 (fun c m => minimize_conv simple_repr c = Ok m)
                       (bucket_get bs b) (output_of sample_written b)) /\
    (List.length (output_of sample_written Last3Months) +
     List.length (output_of sample_written Months3To6) +
     List.length (output_of sample_written Months6To12) +
     List.length (output_of sample_written Older))%nat
    = List.length convs.
Proof.
  split; [vm_compute; reflexivity|].
  apply (buckets_partition_input date_fromisoformat date_strptime simple_repr utf8_text
           sample_now sample_document sample_written).
  vm_compute; reflexivity.
Defined.

Lemma bucket_files_keep_input_order_witness :
  split_conversations_by_time date_fromisoformat date_strptime simple_repr utf8_text
    sample_now (Document sample_document) = Completed sample_written /\
  exists conversations convs,
    select_conversations sample_document = Some conversations /\
    py_iter conversations = Ok convs /\
    subsequence (map fst sample_written) [Last3Months; Months3To6; Months6To12; Older] /\
    forall b, exists sources,
      sources = filter (assigned date_fromisoformat date_strptime sample_now b) convs /\
      subsequence sources convs /\
      Forall2 (fun c m => minimize_conv simple_repr c = Ok m) sources
              (output_of sample_written b).
Proof.
  split; [vm_compute; reflexivity|].
  apply (bucket_files_keep_input_order date_fromisoformat date_strptime simple_repr utf8_text
           sample_now sample_document sample_written).
  vm_compute; reflexivity.
Defined.

Lemma bucket_boundaries_inclusive_witness :
  resolve date_fromisoformat date_strptime boundary_record
  = Ok (Some (sample_now - timedelta_days 90)) /\
  exists b,
    classify date_fromisoformat date_strptime sample_now boundary_record = Ok b /\
    (b = Last3Months <-> sample_now - timedelta_days 90 <= sample_now - timedelta_days 90) /\
    (b = Months3To6 <->
       sample_now - timedelta_days 180 <= sample_now - timedelta_days 90
                                      < sample_now - timedelta_days 90) /\
    (b = Months6To12 <->
       sample_now - timedelta_days 365 <= sample_now - timedelta_days 90
                                      < sample_now - timedelta_days 180) /\
    (b = Older <-> sample_now - timedelta_days 90 < sample_now - timedelta_days 365).
Proof.
  split; [vm_compute; reflexivity|].
  apply (bucket_boundaries_inclusive date_fromisoformat date_strptime
           sample_now boundary_record (sample_now - timedelta_days 90)).
  vm_compute; reflexivity.
Defined.

Lemma loader_shape_fallback_witness :
  lookup "conversations" sample_fields = None /\
  lookup "items" sample_fields = None /\
  first_sequence sample_fields sample_conversations /\
  select_conversations sample_document = Some (JList sample_conversations) /\
  py_iter (JList sample_conversations) = Ok sample_conversations.
Proof.
  assert (Hf : first_sequence sample_fields sample_conversations).
  { left. exists [("version", JInt 3)], "export", [("other", JList [])].
    split; reflexivity. }
  split; [reflexivity|]. split; [reflexivity|]. split; [exact Hf|].
  destruct (loader_shape_fallback date_fromisoformat date_strptime simple_repr utf8_text
              sample_fields sample_conversations eq_refl eq_refl Hf) as (Hs & Hi & _).
  split; [exact Hs | exact Hi].
Defined.

Lemma minimized_timestamp_or_chain_witness :
  minimize_conv simple_repr (JDict hello_fields) = Ok hello_minimized /\
  let a := get_or_null hello_fields "create_time" in
  let b := get_or_null hello_fields "created_at" in
  let c := get_or_null hello_fields "timestamp" in
  (truthy a = true -> timestamp hello_minimized = a) /\
  (truthy a = false -> truthy b = true -> timestamp hello_minimized = b) /\
  (truthy a = false -> truthy b = false -> timestamp hello_minimized = c) /\
  (timestamp hello_minimized = JNull <-> truthy a = false /\ truthy b = false /\ c = JNull).
Proof.
  split; [vm_compute; reflexivity|].
  apply (minimized_timestamp_or_chain simple_repr hello_fields hello_minimized).
  vm_compute; reflexivity.
Defined.

(** C6, as stated, fails: none of the three fields is truthy, and the
    minimised timestamp is the number 0, not null. *)
Lemma zero_timestamp_is_kept :
  truthy (get_or_null zero_timestamp_fields "create_time") = false /\
  truthy (get_or_null zero_timestamp_fields "created_at") = false /\
  truthy (get_or_null zero_timestamp_fields "timestamp") = false /\
  minimize_conv simple_repr zero_timestamp_record = Ok (mk_minimized [] (JInt 0) "") /\
  JInt 0 <> JNull.
Proof.
  repeat (split; [vm_compute; reflexivity|]). discriminate.
Qed.

Lemma strategy_chosen_by_key_presence_witness :
  (lookup "mapping" null_mapping_fields = Some JNull /\
   lookup "messages" null_mapping_fields = Some (JList hello_messages) /\
   extract_messages simple_repr (JDict null_mapping_fields) = Ok []) /\
  (lookup "mapping" both_fields = Some (JDict mapping_nodes) /\
   lookup "messages" both_fields = Some (JList hello_messages) /\
   extract_messages simple_repr (JDict both_fields)
   = collect (mapping_node simple_repr) (map snd mapping_nodes) /\
   extract_messages simple_repr (JDict both_fields) = Ok [mk_message (JStr "assistant") "a b"]) /\
  (lookup "mapping" null_messages_fields = None /\
   lookup "messages" null_messages_fields = Some JNull /\
   lookup "items" null_messages_fields = Some (JList [JDict [("content", JStr "kept")]]) /\
   extract_messages simple_repr (JDict null_messages_fields) = Ok []) /\
  (lookup "mapping" hello_fields = None /\
   lookup "messages" hello_fields = Some (JList hello_messages) /\
   extract_messages simple_repr (JDict hello_fields)
   = collect (messages_entry simple_repr) hello_messages) /\
  (lookup "mapping" dated_fields = None /\
   lookup "messages" dated_fields = None /\
   extract_messages simple_repr (JDict dated_fields)
   = extract_messages simple_repr
       (JDict [("items", JList [JDict [("content", JInt 42)]; JStr "skipped"])])) /\
  extract_messages simple_repr (JDict undated_fields) = Ok [].
Proof.
  destruct (strategy_chosen_by_key_presence simple_repr null_mapping_fields) as (Hnull & _).
  destruct (strategy_chosen_by_key_presence simple_repr both_fields) as (Hboth & _).
  destruct (strategy_chosen_by_key_presence simple_repr null_messages_fields)
    as (_ & Hnm & _).
  destruct (strategy_chosen_by_key_presence simple_repr hello_fields) as (_ & Hhello & _).
  destruct (strategy_chosen_by_key_presence simple_repr dated_fields) as (_ & _ & Hdated & _).
  destruct (strategy_chosen_by_key_presence simple_repr undated_fields) as (_ & _ & _ & Hnone).
  split.
  { split; [reflexivity|]. split; [reflexivity|].
    exact (proj1 (proj1 (proj2 (Hnull JNull eq_refl)) eq_refl)). }
  split.
  { split; [reflexivity|]. split; [reflexivity|].
    pose proof (proj2 (proj2 (Hboth (JDict mapping_nodes) eq_refl)) mapping_nodes eq_refl) as H.
    split; [exact H|]. rewrite H. vm_compute. reflexivity. }
  split.
  { split; [reflexivity|]. split; [reflexivity|]. split; [reflexivity|].
    exact (proj1 (proj2 (Hnm JNull eq_refl eq_refl)) eq_refl). }
  split.
  { split; [reflexivity|]. split; [reflexivity|].
    exact (proj2 (proj2 (Hhello (JList hello_messages) eq_refl eq_refl))
             hello_messages eq_refl). }
  split.
  { split; [reflexivity|]. split; [reflexivity|].
    exact (proj1 (Hdated _ eq_refl eq_refl eq_refl)). }
  exact (Hnone eq_refl eq_refl eq_refl).
Defined.

(** C4, as stated, fails: the record has a [mapping] that is not a mapping
    and a [messages] sequence holding one message, and its minimised message
    list is empty. *)
Lemma null_mapping_hides_messages :
  lookup "mapping" null_mapping_fields = Some JNull /\
  is_dict JNull = false /\
  lookup "messages" null_mapping_fields = Some (JList hello_messages) /\
  collect (messages_entry simple_repr) hello_messages = Ok [mk_message (JStr "user") "hi"] /\
  extract_messages simple_repr null_mapping_record = Ok [] /\
  minimize_conv simple_repr null_mapping_record = Ok (mk_minimized [] JNull "").
Proof.
  repeat split; vm_compute; reflexivity.
Qed.

Lemma content_and_title_truncated_witness :
  minimize_conv simple_repr mixed_record = Ok mixed_minimized /\
  message_sources simple_repr mixed_record = Ok [Some long_text; None; Some "short"] /\
  map content (messages mixed_minimized) = map (take 5000) [long_text; "short"] /\
  (exists m, In m (messages mixed_minimized) /\
             content m = substring 0 5000 long_text /\
             String.length (content m) = 5000%nat) /\
  title mixed_minimized = substring 0 100 long_title /\
  String.length (title mixed_minimized) = 100%nat.
Proof.
  assert (Hmin : minimize_conv simple_repr mixed_record = Ok mixed_minimized)
    by (vm_compute; reflexivity).
  assert (Hsrc : message_sources simple_repr mixed_record
                 = Ok [Some long_text; None; Some "short"]) by (vm_compute; reflexivity).
  destruct (content_and_title_truncated simple_repr mixed_record mixed_minimized Hmin)
    as ((srcs & Hs & Hmap & _ & Hlong) & (t & Ht & _ & Hcut) & _).
  rewrite Hsrc in Hs. injection Hs as <-.
  change (Ok (JStr long_title) = Ok t) in Ht. injection Ht as <-.
  split; [exact Hmin|]. split; [exact Hsrc|]. split; [exact Hmap|].
  split.
  - apply Hlong; [left; reflexivity | vm_compute; apply le_n].
  - apply Hcut. vm_compute; apply le_n.
Defined.

(** C3.  The record holding a null [metadata] and nothing else has no
    recognised timestamp field, yet it is not put in [older]: the membership
    test on its [metadata] raises, and the run ends there without writing a
    file. *)
Theorem null_metadata_record_raises :
  forallb (absent_or_falsy null_metadata_fields) top_level_fields = true /\
  lookup "metadata" null_metadata_fields = Some JNull /\
  find_timestamp (JDict null_metadata_fields) = Raise TypeError /\
  classify date_fromisoformat date_strptime sample_now (JDict null_metadata_fields)
  = Raise TypeError /\
  split_conversations_by_time date_fromisoformat date_strptime simple_repr utf8_text
    sample_now (Document (JList [hello_record; JDict null_metadata_fields]))
  = Crashed TypeError [].
Proof.
  repeat split; vm_compute; reflexivity.
Qed.

(** C5.  A record stamped 2000-01-01 in milliseconds is read as a number of
    seconds, which is beyond the year 9999: the conversion raises and the run
    ends with that exception, no file written, where a string that cannot
    be parsed sends its record to [older].  So does a record whose
    [messages] holds a string where a mapping is read. *)
Theorem millisecond_stamp_before_2001_raises :
  classify date_fromisoformat date_strptime sample_now millennium_record = Raise RangeError /\
  split_conversations_by_time date_fromisoformat date_strptime simple_repr utf8_text
    sample_now (Document (JList [hello_record; millennium_record]))
  = Crashed RangeError [] /\
  classify date_fromisoformat date_strptime sample_now (JDict yesterday_fields) = Ok Older /\
  minimize_conv simple_repr string_entry_record = Raise AttributeError /\
  split_conversations_by_time date_fromisoformat date_strptime simple_repr utf8_text
    sample_now (Document (JList [string_entry_record]))
  = Crashed AttributeError [].
Proof.
  repeat split; vm_compute; reflexivity.
Qed.

Lemma numeric_timestamp_reading_witness :
  (MIN_SECONDS <= 1699136000 <= MAX_SECONDS /\
   parse_timestamp date_fromisoformat date_strptime (JInt 1699136000)
   = Ok (Some (mk_datetime (1699136000 * US_PER_SECOND) (Some 0)))) /\
  (10 ^ 12 < 1700000000123 <= 1000 * MAX_SECONDS /\
   1700000000123 < 1000 * 2 ^ 33 /\
   parse_timestamp date_fromisoformat date_strptime (JInt 1700000000123)
   = Ok (Some (mk_datetime (1000 * 1700000000123) (Some 0)))) /\
  (MIN_SECONDS * f64_den half_past <= f64_num half_past <= MAX_SECONDS * f64_den half_past /\
   exists w,
     parse_timestamp date_fromisoformat date_strptime (JFloat half_past)
     = Ok (Some (mk_datetime w (Some 0))) /\
     to_utc (mk_datetime w (Some 0)) = Ok w /\
     Z.abs (w * f64_den half_past - 10 ^ 6 * f64_num half_past) <= f64_den half_past) /\
  (10 ^ 12 * f64_den half_past_ms < f64_num half_past_ms
                                  <= 1000 * MAX_SECONDS * f64_den half_past_ms /\
   exists w,
     parse_timestamp date_fromisoformat date_strptime (JFloat half_past_ms)
     = Ok (Some (mk_datetime w (Some 0))) /\
     to_utc (mk_datetime w (Some 0)) = Ok w /\
     Z.abs (w * f64_den half_past_ms - 1000 * f64_num half_past_ms) < 16 * f64_den half_past_ms).
Proof.
  destruct (numeric_timestamp_reading date_fromisoformat date_strptime)
    as (Hsec & Hms & Hfsec & Hfms & _).
  assert (H1 : MIN_SECONDS <= 1699136000 <= MAX_SECONDS) by (split; vm_compute; discriminate).
  assert (H2 : 10 ^ 12 < 1700000000123 <= 1000 * MAX_SECONDS)
    by (split; [vm_compute; reflexivity | vm_compute; discriminate]).
  assert (H3 : 1700000000123 < 1000 * 2 ^ 33) by (vm_compute; reflexivity).
  assert (H4 : MIN_SECONDS * f64_den half_past <= f64_num half_past
               <= MAX_SECONDS * f64_den half_past) by (split; vm_compute; discriminate).
  assert (H5 : 10 ^ 12 * f64_den half_past_ms < f64_num half_past_ms
               <= 1000 * MAX_SECONDS * f64_den half_past_ms)
    by (split; [vm_compute; reflexivity | vm_compute; discriminate]).
  split; [split; [exact H1 | exact (proj1 (Hsec _ H1))]|].
  split.
  { split; [exact H2|]. split; [exact H3|].
    destruct (Hms _ H2) as (w & Hp & _ & _ & Hx). rewrite (Hx H3) in Hp. exact Hp. }
  split; [split; [exact H4 | exact (Hfsec false 3400000001%positive (-1) H4)]|].
  split; [exact H5 | exact (Hfms false 3400000000247%positive (-1) H5)].
Defined.

(** C7, as stated, fails: the number [10^12] does not exceed [10^12], is read
    as seconds, and the conversion raises instead of giving an instant. *)
Lemma seconds_reading_of_1e12_raises :
  is_number (JInt (10 ^ 12)) = true /\
  (10 ^ 12 <? 10 ^ 12) = false /\
  parse_number (JInt (10 ^ 12)) = Raise RangeError /\
  parse_timestamp date_fromisoformat date_strptime (JInt (10 ^ 12)) = Raise RangeError.
Proof.
  repeat split; vm_compute; reflexivity.
Qed.

(** ** The further properties on the sample data *)

Lemma wrapped_document_same_run_witness :
  wraps sample_fields sample_conversations /\
  split_conversations_by_time date_fromisoformat date_strptime simple_repr utf8_text
    sample_now (Document (JDict sample_fields))
  = split_conversations_by_time date_fromisoformat date_strptime simple_repr utf8_text
      sample_now (Document (JList sample_conversations)).
Proof.
  assert (H : wraps sample_fields sample_conversations).
  { right. right. repeat (split; [reflexivity|]).
    left. exists [("version", JInt 3)], "export", [("other", JList [])].
    split; reflexivity. }
  split; [exact H|].
  exact (wrapped_document_same_run date_fromisoformat date_strptime simple_repr utf8_text
           sample_now sample_fields sample_conversations H).
Defined.

Lemma written_files_shape_witness :
  split_conversations_by_time date_fromisoformat date_strptime simple_repr utf8_text
    sample_now (Document sample_document) = Completed sample_written /\
  subsequence (map fst sample_written) bucket_order /\
  NoDup (map fst sample_written) /\
  (List.length sample_written <= 4)%nat /\
  Forall (fun f => snd f <> []) sample_written /\
  (sample_written = [] <-> sample_conversations = []).
Proof.
  split; [vm_compute; reflexivity|].
  apply (written_files_shape date_fromisoformat date_strptime simple_repr utf8_text
           sample_now sample_document (JList sample_conversations)
           sample_conversations sample_written);
    vm_compute; reflexivity.
Defined.

Lemma unclassifiable_record_stops_run_witness :
  forallb (classifies date_fromisoformat date_strptime sample_now) [hello_record] = true /\
  classify date_fromisoformat date_strptime sample_now millennium_record = Raise RangeError /\
  split_conversations_by_time date_fromisoformat date_strptime simple_repr utf8_text sample_now
    (Document (JList ([hello_record] ++ millennium_record :: [undated_record])))
  = Crashed RangeError [].
Proof.
  split; [vm_compute; reflexivity|]. split; [vm_compute; reflexivity|].
  apply (unclassifiable_record_stops_run date_fromisoformat date_strptime simple_repr utf8_text
           sample_now [hello_record] [undated_record] millennium_record RangeError);
    vm_compute; reflexivity.
Defined.

Lemma crash_keeps_earlier_files_witness :
  sort_into_buckets date_fromisoformat date_strptime sample_now
    [hello_record; bad_old_record] empty_buckets = Ok crash_buckets /\
  save_buckets simple_repr utf8_text (bucket_items crash_buckets) []
  = Crashed AttributeError [(Last3Months, [hello_minimized])] /\
  exists b,
    map_result (minimize_conv simple_repr) (bucket_get crash_buckets b) = Raise AttributeError /\
    map fst [(Last3Months, [hello_minimized])]
    = filter (fun b' => (bucket_rank b' <? bucket_rank b)%nat
                        && nonempty (bucket_get crash_buckets b'))
             bucket_order /\
    forall b', (bucket_rank b' < bucket_rank b)%nat ->
      map_result (minimize_conv simple_repr) (bucket_get crash_buckets b')
      = Ok (output_of [(Last3Months, [hello_minimized])] b').
Proof.
  split; [vm_compute; reflexivity|]. split; [vm_compute; reflexivity|].
  apply (crash_keeps_earlier_files simple_repr utf8_text crash_buckets AttributeError
           [(Last3Months, [hello_minimized])]).
  vm_compute; reflexivity.
Defined.

Lemma non_mapping_record_never_completes_witness :
  select_conversations (JList [hello_record; JList []]) = Some (JList [hello_record; JList []]) /\
  py_iter (JList [hello_record; JList []]) = Ok [hello_record; JList []] /\
  In (JList []) [hello_record; JList []] /\
  is_dict (JList []) = false /\
  forall written,
    split_conversations_by_time date_fromisoformat date_strptime simple_repr utf8_text sample_now
      (Document (JList [hello_record; JList []])) <> Completed written.
Proof.
  assert (Hin : In (JList []) [hello_record; JList []]) by (right; left; reflexivity).
  split; [reflexivity|]. split; [reflexivity|]. split; [exact Hin|]. split; [reflexivity|].
  exact (non_mapping_record_never_completes date_fromisoformat date_strptime simple_repr utf8_text
           sample_now (JList [hello_record; JList []]) (JList [hello_record; JList []])
           [hello_record; JList []] (JList []) eq_refl eq_refl Hin eq_refl).
Defined.

Lemma older_record_older_bucket_witness :
  resolve date_fromisoformat date_strptime (aged_record (10 * 86400))
  = Ok (Some (sample_now - timedelta_days 10)) /\
  resolve date_fromisoformat date_strptime (aged_record (100 * 86400))
  = Ok (Some (sample_now - timedelta_days 100)) /\
  sample_now <= sample_now /\
  sample_now - timedelta_days 100 <= sample_now - timedelta_days 10 /\
  exists b b',
    classify date_fromisoformat date_strptime sample_now (aged_record (10 * 86400)) = Ok b /\
    classify date_fromisoformat date_strptime sample_now (aged_record (100 * 86400)) = Ok b' /\
    (bucket_rank b <= bucket_rank b')%nat.
Proof.
  assert (H1 : sample_now <= sample_now) by (vm_compute; discriminate).
  assert (H2 : sample_now - timedelta_days 100 <= sample_now - timedelta_days 10)
    by (vm_compute; discriminate).
  split; [vm_compute; reflexivity|]. split; [vm_compute; reflexivity|].
  split; [exact H1|]. split; [exact H2|].
  apply (older_record_older_bucket date_fromisoformat date_strptime sample_now sample_now
           (aged_record (10 * 86400)) (aged_record (100 * 86400))
           (sample_now - timedelta_days 10) (sample_now - timedelta_days 100));
    first [exact H1 | exact H2 | vm_compute; reflexivity].
Defined.

Lemma bucket_depends_on_age_witness :
  resolve date_fromisoformat date_strptime (aged_record (10 * 86400))
  = Ok (Some (sample_now - timedelta_days 10)) /\
  resolve date_fromisoformat date_strptime (aged_record (100 * 86400))
  = Ok (Some (sample_now - timedelta_days 100)) /\
  resolve date_fromisoformat date_strptime (aged_record (- 86400))
  = Ok (Some (sample_now + timedelta_days 1)) /\
  sample_now - (sample_now - timedelta_days 10)
  = sample_now - timedelta_days 90 - (sample_now - timedelta_days 100) /\
  sample_now <= sample_now + timedelta_days 1 /\
  classify date_fromisoformat date_strptime sample_now (aged_record (10 * 86400))
  = classify date_fromisoformat date_strptime (sample_now - timedelta_days 90)
      (aged_record (100 * 86400)) /\
  classify date_fromisoformat date_strptime sample_now (aged_record (- 86400))
  = Ok Last3Months.
Proof.
  assert (R1 : resolve date_fromisoformat date_strptime (aged_record (10 * 86400))
               = Ok (Some (sample_now - timedelta_days 10))) by (vm_compute; reflexivity).
  assert (R2 : resolve date_fromisoformat date_strptime (aged_record (100 * 86400))
               = Ok (Some (sample_now - timedelta_days 100))) by (vm_compute; reflexivity).
  assert (R3 : resolve date_fromisoformat date_strptime (aged_record (- 86400))
               = Ok (Some (sample_now + timedelta_days 1))) by (vm_compute; reflexivity).
  assert (A : sample_now - (sample_now - timedelta_days 10)
              = sample_now - timedelta_days 90 - (sample_now - timedelta_days 100))
    by (vm_compute; reflexivity).
  assert (F : sample_now <= sample_now + timedelta_days 1) by (vm_compute; discriminate).
  repeat (split; [assumption|]). split.
  - exact (proj1 (bucket_depends_on_age date_fromisoformat date_strptime
                    sample_now (sample_now - timedelta_days 90) _ _ _ _ R1 R2) A).
  - exact (proj2 (bucket_depends_on_age date_fromisoformat date_strptime
                    sample_now sample_now _ _ _ _ R3 R3) F).
Defined.

Lemma seconds_record_bucket_witness :
  first_present_is top_level_fields hello_fields "create_time" (JInt 1699136000) /\
  1699136000 <> 0 /\
  1699136000 <= 10 ^ 12 /\
  MIN_SECONDS <= 1699136000 <= MAX_SECONDS /\
  resolve date_fromisoformat date_strptime (JDict hello_fields)
  = Ok (Some (1699136000 * US_PER_SECOND)) /\
  classify date_fromisoformat date_strptime sample_now (JDict hello_fields)
  = Ok (bucket_of sample_now (1699136000 * US_PER_SECOND)).
Proof.
  assert (H0 : first_present_is top_level_fields hello_fields "create_time" (JInt 1699136000)).
  { exists [], ["created_at"; "timestamp"; "created"; "date"; "updated_at"; "update_time"].
    repeat split; reflexivity. }
  assert (H1 : 1699136000 <> 0) by discriminate.
  assert (H2 : 1699136000 <= 10 ^ 12) by (vm_compute; discriminate).
  assert (H3 : MIN_SECONDS <= 1699136000 <= MAX_SECONDS) by (split; vm_compute; discriminate).
  repeat (split; [assumption|]).
  exact (seconds_record_bucket date_fromisoformat date_strptime sample_now
           hello_fields "create_time" 1699136000 H0 H1 H2 H3).
Defined.

Lemma falsy_first_field_masks_later_witness :
  first_present_is top_level_fields masked_fields "create_time" (JInt 0) /\
  truthy (JInt 0) = false /\
  lookup "metadata" masked_fields = None /\
  lookup "updated_at" masked_fields = Some (JInt 1699136000) /\
  resolve date_fromisoformat date_strptime (JDict masked_fields) = Ok None /\
  classify date_fromisoformat date_strptime sample_now (JDict masked_fields) = Ok Older.
Proof.
  assert (H0 : first_present_is top_level_fields masked_fields "create_time" (JInt 0)).
  { exists [], ["created_at"; "timestamp"; "created"; "date"; "updated_at"; "update_time"].
    repeat split; reflexivity. }
  split; [exact H0|]. split; [reflexivity|]. split; [reflexivity|]. split; [reflexivity|].
  exact (falsy_first_field_masks_later date_fromisoformat date_strptime sample_now
           masked_fields "create_time" (JInt 0) H0 eq_refl eq_refl).
Defined.

Lemma metadata_timestamp_as_top_level_witness :
  forallb (absent_or_falsy dated_fields) top_level_fields = true /\
  lookup "metadata" dated_fields = Some (JDict dated_metadata) /\
  first_present_is metadata_fields dated_metadata "date" (JStr "2023-07-01") /\
  find_timestamp (JDict dated_fields) = Ok (JStr "2023-07-01") /\
  resolve date_fromisoformat date_strptime (JDict dated_fields)
  = resolve date_fromisoformat date_strptime (JDict [("create_time", JStr "2023-07-01")]).
Proof.
  assert (H0 : first_present_is metadata_fields dated_metadata "date" (JStr "2023-07-01")).
  { exists ["create_time"; "created_at"; "timestamp"; "created"], [].
    repeat split; reflexivity. }
  split; [reflexivity|]. split; [reflexivity|]. split; [exact H0|].
  exact (metadata_timestamp_as_top_level date_fromisoformat date_strptime
           dated_fields dated_metadata "date" (JStr "2023-07-01") eq_refl eq_refl H0).
Defined.

Lemma parsed_timestamp_is_aware_witness :
  parse_timestamp date_fromisoformat date_strptime (JStr "2023-07-01")
  = Ok (Some (replace_tzinfo_utc july_first)) /\
  exists off,
    utcoffset (replace_tzinfo_utc july_first) = Some off /\
    to_utc (replace_tzinfo_utc july_first)
    = if in_datetime_range (wall (replace_tzinfo_utc july_first) - off)
      then Ok (wall (replace_tzinfo_utc july_first) - off)
      else Raise RangeError.
Proof.
  split; [vm_compute; reflexivity|].
  apply (parsed_timestamp_is_aware date_fromisoformat date_strptime (JStr "2023-07-01")).
  vm_compute; reflexivity.
Defined.

Lemma iso_string_record_witness :
  first_present_is top_level_fields created_fields "created" (JStr "2023-07-01") /\
  "2023-07-01" <> "" /\
  date_fromisoformat (replace_Z "2023-07-01") = Some july_first /\
  in_datetime_range (wall july_first - 0) = true /\
  resolve date_fromisoformat date_strptime (JDict created_fields)
  = Ok (Some (wall july_first - 0)).
Proof.
  assert (H0 : first_present_is top_level_fields created_fields "created" (JStr "2023-07-01")).
  { exists ["create_time"; "created_at"; "timestamp"], ["date"; "updated_at"; "update_time"].
    repeat split; reflexivity. }
  assert (H1 : "2023-07-01" <> "") by discriminate.
  split; [exact H0|]. split; [exact H1|]. split; [reflexivity|]. split; [reflexivity|].
  exact (iso_string_record date_fromisoformat date_strptime
           created_fields "created" "2023-07-01" july_first H0 H1 eq_refl eq_refl).
Defined.

Lemma unparsed_string_goes_to_older_witness :
  first_present_is top_level_fields yesterday_fields "date" (JStr "yesterday") /\
  "yesterday" <> "" /\
  date_fromisoformat (replace_Z "yesterday") = None /\
  forallb (fun fmt => match date_strptime "yesterday" fmt with None => true | Some _ => false end)
          strptime_formats = true /\
  resolve date_fromisoformat date_strptime (JDict yesterday_fields) = Ok None /\
  classify date_fromisoformat date_strptime sample_now (JDict yesterday_fields) = Ok Older.
Proof.
  assert (H0 : first_present_is top_level_fields yesterday_fields "date" (JStr "yesterday")).
  { exists ["create_time"; "created_at"; "timestamp"; "created"], ["updated_at"; "update_time"].
    repeat split; reflexivity. }
  assert (H1 : "yesterday" <> "") by discriminate.
  split; [exact H0|]. split; [exact H1|]. split; [reflexivity|]. split; [reflexivity|].
  exact (unparsed_string_goes_to_older date_fromisoformat date_strptime sample_now
           yesterday_fields "date" "yesterday" H0 H1 eq_refl eq_refl).
Defined.

Lemma strptime_fallback_record_witness :
  first_present_is top_level_fields created_fields "created" (JStr "2023-07-01") /\
  "2023-07-01" <> "" /\
  no_fromisoformat (replace_Z "2023-07-01") = None /\
  strptime_formats = ["%Y-%m-%d %H:%M:%S"; "%Y-%m-%dT%H:%M:%S"] ++ "%Y-%m-%d" :: [] /\
  forallb (fun fmt => match date_strptime "2023-07-01" fmt with None => true | Some _ => false end)
          ["%Y-%m-%d %H:%M:%S"; "%Y-%m-%dT%H:%M:%S"] = true /\
  date_strptime "2023-07-01" "%Y-%m-%d" = Some july_first /\
  in_datetime_range (wall july_first) = true /\
  resolve no_fromisoformat date_strptime (JDict created_fields) = Ok (Some (wall july_first)).
Proof.
  assert (H0 : first_present_is top_level_fields created_fields "created" (JStr "2023-07-01")).
  { exists ["create_time"; "created_at"; "timestamp"], ["date"; "updated_at"; "update_time"].
    repeat split; reflexivity. }
  assert (H1 : "2023-07-01" <> "") by discriminate.
  split; [exact H0|]. split; [exact H1|]. repeat (split; [reflexivity|]).
  exact (strptime_fallback_record no_fromisoformat date_strptime
           created_fields "created" "2023-07-01" "%Y-%m-%d"
           ["%Y-%m-%d %H:%M:%S"; "%Y-%m-%dT%H:%M:%S"] [] july_first
           H0 H1 eq_refl eq_refl eq_refl eq_refl eq_refl).
Defined.

Lemma non_finite_float_raises_witness :
  first_present_is top_level_fields nan_fields "create_time" (JFloat S754_nan) /\
  resolve date_fromisoformat date_strptime (JDict nan_fields) = Raise RangeError /\
  classify date_fromisoformat date_strptime sample_now (JDict nan_fields) = Raise RangeError.
Proof.
  assert (H0 : first_present_is top_level_fields nan_fields "create_time" (JFloat S754_nan)).
  { exists [], ["created_at"; "timestamp"; "created"; "date"; "updated_at"; "update_time"].
    repeat split; reflexivity. }
  split; [exact H0|].
  exact (non_finite_float_raises date_fromisoformat date_strptime sample_now
           nan_fields "create_time" S754_nan H0 (or_introl eq_refl)).
Defined.

Lemma minimized_lengths_bounded_witness :
  minimize_conv simple_repr mixed_record = Ok mixed_minimized /\
  (forall m, In m (messages mixed_minimized) -> (String.length (content m) <= 5000)%nat) /\
  (String.length (title mixed_minimized) <= 100)%nat /\
  message_sources simple_repr mixed_record = Ok [Some long_text; None; Some "short"] /\
  Forall2 (fun m src => (String.length src <= 5000)%nat -> content m = src)
          (messages mixed_minimized) [long_text; "short"] /\
  minimize_conv simple_repr hello_record = Ok hello_minimized /\
  title hello_minimized = "Hello".
Proof.
  assert (Hmin : minimize_conv simple_repr mixed_record = Ok mixed_minimized)
    by (vm_compute; reflexivity).
  assert (Hsrc : message_sources simple_repr mixed_record
                 = Ok [Some long_text; None; Some "short"]) by (vm_compute; reflexivity).
  assert (Hhello : minimize_conv simple_repr hello_record = Ok hello_minimized)
    by (vm_compute; reflexivity).
  destruct (minimized_lengths_bounded simple_repr mixed_record mixed_minimized Hmin)
    as (Hlen & Htitle & (srcs & Hs & Hshort) & _).
  destruct (minimized_lengths_bounded simple_repr hello_record hello_minimized Hhello)
    as (_ & _ & _ & Hkept).
  rewrite Hsrc in Hs. injection Hs as <-.
  split; [exact Hmin|]. split; [exact Hlen|]. split; [exact Htitle|].
  split; [exact Hsrc|]. split; [exact Hshort|]. split; [exact Hhello|].
  apply (Hkept (JStr "Hello")); [reflexivity | vm_compute; repeat constructor].
Defined.

Lemma messages_follow_source_order_witness :
  extract_messages simple_repr (JDict mixed_fields) = Ok (messages mixed_minimized) /\
  lookup "mapping" mixed_fields = None /\
  lookup "messages" mixed_fields = Some (JList mixed_messages) /\
  exists kept,
    subsequence kept mixed_messages /\
    Forall2 (fun x m => messages_entry simple_repr x = Ok (Some m)) kept
            (messages mixed_minimized) /\
    (List.length (messages mixed_minimized) <= List.length mixed_messages)%nat /\
    List.length kept = 2%nat /\
    List.length mixed_messages = 3%nat.
Proof.
  assert (He : extract_messages simple_repr (JDict mixed_fields)
               = Ok (messages mixed_minimized)) by (vm_compute; reflexivity).
  split; [exact He|]. split; [reflexivity|]. split; [reflexivity|].
  destruct (messages_follow_source_order simple_repr mixed_fields
              (messages mixed_minimized) He) as (_ & H & _).
  destruct (H mixed_messages eq_refl eq_refl) as (kept & Hsub & Hf & Hlen).
  exists kept. split; [exact Hsub|]. split; [exact Hf|]. split; [exact Hlen|].
  split; [exact (Forall2_length Hf) | reflexivity].
Defined.

Lemma other_fields_leave_timestamp_null_witness :
  lookup "create_time" dated_fields = None /\
  lookup "created_at" dated_fields = None /\
  lookup "timestamp" dated_fields = None /\
  minimize_conv simple_repr (JDict dated_fields) = Ok dated_minimized /\
  classify date_fromisoformat date_strptime sample_now (JDict dated_fields) = Ok Months3To6 /\
  timestamp dated_minimized = JNull.
Proof.
  repeat (split; [vm_compute; reflexivity|]).
  apply (other_fields_leave_timestamp_null simple_repr dated_fields dated_minimized);
    vm_compute; reflexivity.
Defined.

Lemma mapping_messages_not_empty_witness :
  lookup "mapping" blank_fields = Some (JDict blank_nodes) /\
  extract_messages simple_repr (JDict blank_fields) = Ok [mk_message (JStr "assistant") "a b"] /\
  node_content simple_repr
    (JDict [("content", JDict [("parts", JList [JStr "  "; JStr " "])]);
            ("author", JDict [("role", JStr "user")])])
  = Ok (Some "    ") /\
  strip "    " = "" /\
  (forall m, In m [mk_message (JStr "assistant") "a b"] -> content m <> "") /\
  exists os,
    [mk_message (JStr "assistant") "a b"] = somes os /\
    Forall2 (fun node o =>
               mapping_node simple_repr node = Ok o /\
               forall msg src,
                 py_get node "message" JNull = Ok msg ->
                 node_content simple_repr msg = Ok (Some src) ->
                 strip src = "" ->
                 o = None)
            (map snd blank_nodes) os.
Proof.
  split; [reflexivity|]. split; [vm_compute; reflexivity|].
  split; [vm_compute; reflexivity|]. split; [vm_compute; reflexivity|].
  apply (mapping_messages_not_empty simple_repr blank_fields blank_nodes).
  - reflexivity.
  - vm_compute; reflexivity.
Defined.

Lemma run_on_concatenation_witness :
  split_conversations_by_time date_fromisoformat date_strptime simple_repr utf8_text sample_now
    (Document (JList [hello_record; old_mapping_record])) = Completed first_half_written /\
  split_conversations_by_time date_fromisoformat date_strptime simple_repr utf8_text sample_now
    (Document (JList [dated_record; undated_record])) = Completed second_half_written /\
  exists written,
    split_conversations_by_time date_fromisoformat date_strptime simple_repr utf8_text sample_now
      (Document (JList ([hello_record; old_mapping_record] ++ [dated_record; undated_record])))
    = Completed written /\
    forall b, output_of written b
              = output_of first_half_written b ++ output_of second_half_written b.
Proof.
  split; [vm_compute; reflexivity|]. split; [vm_compute; reflexivity|].
  apply (run_on_concatenation date_fromisoformat date_strptime simple_repr utf8_text sample_now
           [hello_record; old_mapping_record] [dated_record; undated_record]);
    vm_compute; reflexivity.
Defined.

Lemma run_completes_iff_witness :
  (exists written,
     split_conversations_by_time date_fromisoformat date_strptime simple_repr utf8_text sample_now
       (Document (JList sample_conversations)) = Completed written) /\
  (forall c, In c sample_conversations ->
     (exists b, classify date_fromisoformat date_strptime sample_now c = Ok b) /\
     (exists m, minimize_conv simple_repr c = Ok m /\ utf8_text m = true)) /\
  ~ (exists written,
       split_conversations_by_time date_fromisoformat date_strptime simple_repr
         (rejects_title "Hello") sample_now
         (Document (JList sample_conversations)) = Completed written).
Proof.
  assert (H : exists written,
            split_conversations_by_time date_fromisoformat date_strptime simple_repr utf8_text
              sample_now (Document (JList sample_conversations)) = Completed written).
  { exists sample_written. vm_compute; reflexivity. }
  split; [exact H|]. split.
  - exact (proj1 (run_completes_iff date_fromisoformat date_strptime simple_repr utf8_text
                    sample_now sample_conversations) H).
  - intros Hc.
    destruct (proj1 (run_completes_iff date_fromisoformat date_strptime simple_repr
                       (rejects_title "Hello") sample_now sample_conversations) Hc
                    hello_record (or_introl eq_refl)) as (_ & m & Hm & He).
    assert (Hh : minimize_conv simple_repr hello_record = Ok hello_minimized)
      by (vm_compute; reflexivity).
    rewrite Hh in Hm. inversion Hm; subst m. discriminate He.
Defined.

Lemma undated_record_appended_to_older_witness :
  no_timestamp undated_fields = true /\
  no_timestamp [("metadata", JList [JStr "draft"])] = true /\
  resolve date_fromisoformat date_strptime (JDict undated_fields) = Ok None /\
  classify date_fromisoformat date_strptime sample_now (JDict undated_fields) = Ok Older /\
  exists bs',
    sort_into_buckets date_fromisoformat date_strptime sample_now
      [JDict undated_fields] crash_buckets = Ok bs' /\
    older bs' = older crash_buckets ++ [JDict undated_fields] /\
    last_3_months bs' = last_3_months crash_buckets /\
    months_3_6 bs' = months_3_6 crash_buckets /\
    months_6_12 bs' = months_6_12 crash_buckets.
Proof.
  split; [vm_compute; reflexivity|]. split; [vm_compute; reflexivity|].
  apply (undated_record_appended_to_older date_fromisoformat date_strptime
           sample_now undated_fields crash_buckets).
  vm_compute; reflexivity.
Defined.

Lemma messages_entries_must_be_mappings_witness :
  (forallb is_dict hello_messages = true /\
   exists out, minimize_conv simple_repr (JDict hello_fields) = Ok out) /\
  (forallb is_dict [JDict []; JStr "hi"] = false /\
   minimize_conv simple_repr (JDict [("messages", JList [JDict []; JStr "hi"])])
   = Raise AttributeError).
Proof.
  split.
  - split; [reflexivity|].
    exact (proj1 (messages_entries_must_be_mappings simple_repr hello_fields hello_messages
                    eq_refl eq_refl) eq_refl).
  - split; [reflexivity|].
    exact (proj2 (messages_entries_must_be_mappings simple_repr
                    [("messages", JList [JDict []; JStr "hi"])] [JDict []; JStr "hi"]
                    eq_refl eq_refl) eq_refl).
Defined.

Lemma write_failure_keeps_earlier_files_witness :
  sort_into_buckets date_fromisoformat date_strptime sample_now
    sample_conversations empty_buckets = Ok sample_buckets /\
  save_buckets simple_repr (rejects_title "None") (bucket_items sample_buckets) []
  = CrashedWriting Older [(Last3Months, [hello_minimized]); (Months3To6, [dated_minimized])] /\
  (exists minimal,
     map_result (minimize_conv simple_repr) (bucket_get sample_buckets Older) = Ok minimal /\
     forallb (rejects_title "None") minimal = false) /\
  map fst [(Last3Months, [hello_minimized]); (Months3To6, [dated_minimized])]
  = filter (fun b' => (bucket_rank b' <? bucket_rank Older)%nat
                      && nonempty (bucket_get sample_buckets b'))
           bucket_order /\
  forall b', (bucket_rank b' < bucket_rank Older)%nat ->
    map_result (minimize_conv simple_repr) (bucket_get sample_buckets b')
    = Ok (output_of [(Last3Months, [hello_minimized]); (Months3To6, [dated_minimized])] b') /\
    forallb (rejects_title "None")
            (output_of [(Last3Months, [hello_minimized]); (Months3To6, [dated_minimized])] b')
    = true.
Proof.
  split; [vm_compute; reflexivity|]. split; [vm_compute; reflexivity|].
  apply (write_failure_keeps_earlier_files simple_repr (rejects_title "None") sample_buckets
           Older [(Last3Months, [hello_minimized]); (Months3To6, [dated_minimized])]).
  vm_compute; reflexivity.
Defined.
